(** * Ignitia: the question-generation response pipeline of [groq.service.js]

    A shallow embedding of the response pipeline of
    [server/src/api/v1/services/groq.service.js]: the response extractor
    ([cleanJsonResponse] and the first parse of [generateQuestions]), the
    normalizer ([processQuestions], [validateMCQOptions], [getDefaultMarks]),
    the template fallback generator ([generateMeaningfulQuestion]) and the
    distribution reconciler ([ensureQuestionCount]).

    Modelling conventions.
    - A JavaScript scalar is a [JsVal]; a number is an integer ([JNum]) or
      [JNaN] (the only non-integers the pipeline itself computes are the
      products of [getDefaultMarks], which are rounded at once).
    - A question object is a record of the ten properties the pipeline reads
      or writes; an absent property and a property holding [undefined] are
      identified.  [options] is [Some l] for an array and [None] for anything
      else (every non-array is treated alike by [validateMCQOptions]).
    - A plain object literal used as a dictionary keeps the properties it
      inherits from [Object.prototype]: a lookup answers [Own], [Inherited] or
      [Absent].
    - A raised exception is the [Throw] case of [result]. *)

From Stdlib Require Import ZArith String Ascii List Bool Lia.
From stdpp Require Import base gmap strings list.

Open Scope string_scope.
Open Scope list_scope.

(** ** JavaScript scalars *)

Inductive JsVal : Type :=
| JUndefined
| JNull
| JBool (b : bool)
| JNum (z : Z)
| JNaN
| JStr (s : string).

#[global] Instance JsVal_eq_dec : EqDecision JsVal.
Proof. solve_decision. Defined.

(** [ToBoolean]: what [x || y], [x && y], [!x] and [if (x)] test. *)
Definition truthy (v : JsVal) : bool :=
  match v with
  | JUndefined | JNull | JNaN => false
  | JBool b => b
  | JNum z => negb (z =? 0)%Z
  | JStr s => negb (s =? "")
  end.

(** [a || b] *)
Definition jsOr (a b : JsVal) : JsVal := if truthy a then a else b.

(** [a === b] on scalars: [NaN] differs from itself. *)
Definition strictEq (a b : JsVal) : bool :=
  match a, b with
  | JUndefined, JUndefined => true
  | JNull, JNull => true
  | JBool x, JBool y => Bool.eqb x y
  | JNum x, JNum y => (x =? y)%Z
  | JStr x, JStr y => (x =? y)
  | _, _ => false
  end.

(** [SameValueZero], the comparison of [Array.prototype.includes]. *)
Definition sameValueZero (a b : JsVal) : bool :=
  match a, b with
  | JNaN, JNaN => true
  | _, _ => strictEq a b
  end.

(** [arr.includes(v)] *)
Definition includes (arr : list JsVal) (v : JsVal) : bool :=
  existsb (fun x => sameValueZero x v) arr.

(** Decimal digits of a natural number, least significant digit last. *)
Definition digitChar (n : nat) : ascii := ascii_of_nat (48 + n mod 10).

Fixpoint digitsFuel (fuel n : nat) : string :=
  match fuel with
  | O => String (digitChar n) ""
  | S f =>
      if (n <? 10)%nat then String (digitChar n) ""
      else digitsFuel f (n / 10) +:+ String (digitChar n) ""
  end.

Definition natToString (n : nat) : string := digitsFuel n n.

(** [Number.prototype.toString] on an integer. *)
Definition numToString (z : Z) : string :=
  if (z <? 0)%Z then "-" +:+ natToString (Z.to_nat (- z))
  else natToString (Z.to_nat z).

(** [ToString], which is also [ToPropertyKey] on scalars: what a template
    literal and a computed property access [obj[v]] apply to [v]. *)
Definition toString (v : JsVal) : string :=
  match v with
  | JUndefined => "undefined"
  | JNull => "null"
  | JBool true => "true"
  | JBool false => "false"
  | JNum z => numToString z
  | JNaN => "NaN"
  | JStr s => s
  end.

(** ** Property lookup on object literals *)

(** The property names every object literal inherits from
    [Object.prototype]; each holds a function or object, hence is truthy. *)
Definition objectPrototypeKeys : list string :=
  [ "constructor"; "__defineGetter__"; "__defineSetter__"; "hasOwnProperty";
    "__lookupGetter__"; "__lookupSetter__"; "isPrototypeOf";
    "propertyIsEnumerable"; "toString"; "valueOf"; "__proto__";
    "toLocaleString" ].

Definition isInherited (k : string) : bool :=
  existsb (String.eqb k) objectPrototypeKeys.

Inductive PropLookup (A : Type) : Type :=
| Own (a : A)
| Inherited
| Absent.
Arguments Own {A} a.
Arguments Inherited {A}.
Arguments Absent {A}.

Fixpoint assocLookup {A} (own : list (string * A)) (k : string) : option A :=
  match own with
  | [] => None
  | (k', a) :: rest => if k' =? k then Some a else assocLookup rest k
  end.

(** [obj[k]] for an object literal whose own properties are [own]. *)
Definition objLookup {A} (own : list (string * A)) (k : string) : PropLookup A :=
  match assocLookup own k with
  | Some a => Own a
  | None => if isInherited k then Inherited else Absent
  end.

(** ** Results of code that may raise *)

Inductive result (A : Type) : Type :=
| Ok (a : A)
| Throw (msg : string).
Arguments Ok {A} a.
Arguments Throw {A} msg.

(** ** Question objects *)

Module Question.
Record t : Type := mk {
  text : JsVal;
  type : JsVal;
  difficulty : JsVal;
  marks : JsVal;
  topic : JsVal;
  bloomsTaxonomy : JsVal;
  explanation : JsVal;
  options : option (list JsVal);
  correctAnswer : JsVal;
  subject : JsVal
}.
End Question.

#[global] Instance Question_eq_dec : EqDecision Question.t.
Proof. solve_decision. Defined.

(** ** The normalizer *)

(** The seven question types, in the order of [typeOrder]. *)
Definition typeOrder : list string :=
  [ "mcq"; "short"; "long"; "diagram"; "code"; "hots"; "case_study" ].

(** [getDefaultMarks]: the two tables and [Math.round(base * multiplier)].
    The multipliers 1, 1.5 and 2 are kept doubled (2, 3, 4), so that
    [Math.round(b * m)], which rounds a half upwards, is [(b * 2m + 1) / 2]
    in integer division; all the products are exact in binary floating
    point. *)
Definition baseMarks : list (string * Z) :=
  [ ("mcq", 2); ("short", 4); ("long", 8); ("diagram", 6); ("code", 7);
    ("hots", 10); ("case_study", 12) ]%Z.

Definition difficultyMultiplier2 : list (string * Z) :=
  [ ("easy", 2); ("medium", 3); ("hard", 4) ]%Z.

Definition getDefaultMarks (type difficulty : JsVal) : JsVal :=
  match objLookup baseMarks (toString type) with
  | Own b =>
      match objLookup difficultyMultiplier2 (toString difficulty) with
      | Own m2 => JNum ((b * m2 + 1) / 2)
      | Inherited => JNaN                 (* number * function *)
      | Absent => JNum ((b * 2 + 1) / 2)  (* undefined || 1 *)
      end
  | Inherited => JNaN                     (* function * number *)
  | Absent => JNaN                        (* undefined * number *)
  end.

(** The [while (validOptions.length < 4)] loop of [validateMCQOptions];
    four iterations always suffice. *)
Fixpoint padOptions (fuel : nat) (validOptions : list JsVal) : list JsVal :=
  match fuel with
  | O => validOptions
  | S f =>
      if (length validOptions <? 4)%nat then
        padOptions f
          (validOptions ++
             [JStr ("Option " +:+
                    String (ascii_of_nat (65 + length validOptions)) "")])
      else validOptions
  end.

Definition validateMCQOptions (options : option (list JsVal)) : list JsVal :=
  match options with
  | None => take 4 (padOptions 4 [])
  | Some l =>
      if (length l <? 4)%nat then take 4 (padOptions 4 l)
      else if (4 <? length l)%nat then take 4 l
      else l
  end.

(** [options[0]] *)
Definition firstOption (options : list JsVal) : JsVal :=
  match options with
  | [] => JUndefined
  | o :: _ => o
  end.

(** The body of the [map] callback of [processQuestions]. *)
Definition processQuestion (topic : JsVal) (question : Question.t) : Question.t :=
  let type := jsOr (Question.type question) (JStr "mcq") in
  let isMcq := strictEq type (JStr "mcq") in
  let options := validateMCQOptions (Question.options question) in
  {| Question.text := jsOr (Question.text question) (JStr "No question text provided");
     Question.type := type;
     Question.difficulty := jsOr (Question.difficulty question) (JStr "medium");
     Question.marks :=
       jsOr (Question.marks question)
            (getDefaultMarks (Question.type question) (Question.difficulty question));
     Question.topic := jsOr (Question.topic question) topic;
     Question.bloomsTaxonomy := jsOr (Question.bloomsTaxonomy question) JUndefined;
     Question.explanation := jsOr (Question.explanation question) JUndefined;
     Question.options := if isMcq then Some options else None;
     Question.correctAnswer :=
       if isMcq then
         if truthy (Question.correctAnswer question)
            && includes options (Question.correctAnswer question)
         then Question.correctAnswer question
         else firstOption options
       else JUndefined;
     Question.subject := JUndefined |}.

Definition processQuestions (questions : list Question.t) (topic : JsVal)
  : list Question.t :=
  map (processQuestion topic) questions.

(** ** Strings *)

(** [s.toLowerCase()] on the ASCII letters; bytes of multi-byte characters
    are left as they are. *)
Definition lowerChar (c : ascii) : ascii :=
  let n := nat_of_ascii c in
  if (65 <=? n)%nat && (n <=? 90)%nat then ascii_of_nat (n + 32) else c.

Fixpoint toLowerCase (s : string) : string :=
  match s with
  | "" => ""
  | String c r => String (lowerChar c) (toLowerCase r)
  end.

(** [s.startsWith(needle)] *)
Fixpoint startsWith (needle s : string) : bool :=
  match needle, s with
  | "", _ => true
  | String a needle', String b s' => (a =? b)%char && startsWith needle' s'
  | String _ _, "" => false
  end.

(** [s.includes(needle)] *)
Fixpoint strIncludes (needle s : string) : bool :=
  startsWith needle s
  || match s with
     | "" => false
     | String _ r => strIncludes needle r
     end.

(** ** The template fallback generator *)

Inductive QType : Type := Mcq | Short | Long | Diagram | Code | Hots | CaseStudy.

Inductive Difficulty : Type := Easy | Medium | Hard.

#[global] Instance QType_eq_dec : EqDecision QType.
Proof. solve_decision. Defined.

#[global] Instance Difficulty_eq_dec : EqDecision Difficulty.
Proof. solve_decision. Defined.

Definition typeName (t : QType) : string :=
  match t with
  | Mcq => "mcq" | Short => "short" | Long => "long" | Diagram => "diagram"
  | Code => "code" | Hots => "hots" | CaseStudy => "case_study"
  end.

Definition difficultyName (d : Difficulty) : string :=
  match d with Easy => "easy" | Medium => "medium" | Hard => "hard" end.

(** The branch of the [subjectTemplates] cascade a subject selects. *)
Inductive Domain : Type :=
| Math | Physics | Chemistry | Computer | Biology | History | Language
| NoDomain.

(** [subject] is [None] when the caller passed nothing; a present but empty
    string is falsy as well. *)
Definition subjectTruthy (subject : option string) : bool :=
  match subject with
  | Some s => negb (s =? "")
  | None => false
  end.

(** [subject.toLowerCase().includes(kw)] under the guard [subject &&]. *)
Definition subjectHas (subject : option string) (kw : string) : bool :=
  match subject with
  | Some s => negb (s =? "") && strIncludes kw (toLowerCase s)
  | None => false
  end.

Definition templateDomain (subject : option string) : Domain :=
  if subjectHas subject "math" || subjectHas subject "algebra"
     || subjectHas subject "geometry" || subjectHas subject "calculus"
  then Math
  else if subjectHas subject "physics" then Physics
  else if subjectHas subject "chemistry" then Chemistry
  else if subjectHas subject "computer" || subjectHas subject "programming"
  then Computer
  else if subjectHas subject "biology" then Biology
  else if subjectHas subject "history" || subjectHas subject "social studies"
  then History
  else if subjectHas subject "language" || subjectHas subject "literature"
          || subjectHas subject "english"
  then Language
  else NoDomain.

Definition templates (type : QType) (difficulty : Difficulty)
  : option (list string) :=
  match type, difficulty with
  | Mcq, Easy =>
      Some [ "Which of the following statements is correct?";
             "What is the primary concept in this field of study?";
             "Which principle best explains this basic phenomenon?";
             "Which of these is a fundamental fact in this subject area?" ]
  | Mcq, Medium =>
      Some [ "How do these principles impact related systems?";
             "What would happen if these concepts were applied to a novel situation?";
             "Which application demonstrates the practical utility of this theory?";
             "When analyzing this problem, which approach yields the most accurate results?" ]
  | Mcq, Hard =>
      Some [ "Which advanced theory best explains these complex relationships?";
             "What are the far-reaching implications of these principles in this domain?";
             "How would you solve this multi-step problem using appropriate methods?";
             "What is the relationship between these advanced theoretical concepts?" ]
  | Short, Easy =>
      Some [ "Explain this principle in your own words.";
             "What are the key concepts in this field?";
             "Describe the importance of this theory in modern applications.";
             "Outline the basic framework of this system." ]
  | Short, Medium =>
      Some [ "Compare and contrast these related theoretical approaches.";
             "Explain how this process affects interconnected systems.";
             "Analyze the application of these principles in real-world scenarios.";
             "Describe the evolution of understanding in this field." ]
  | Short, Hard =>
      Some [ "Critically evaluate the current theoretical understanding in this area.";
             "Analyze how these principles interact with other complex systems.";
             "Explain the limitations of current approaches to this problem.";
             "Evaluate the significance of recent developments in this field." ]
  | Long, Easy =>
      Some [ "Describe in detail the key components and processes of this system.";
             "Explain the historical development and current understanding of this theory.";
             "Outline these fundamental principles with relevant examples.";
             "Describe how these concepts are applied in practical situations." ]
  | Long, Medium =>
      Some [ "Discuss the significance and applications of these principles in modern contexts.";
             "Analyze the relationship between these theories and related concepts.";
             "Explain how this field has evolved and its current state of development.";
             "Evaluate the strengths and weaknesses of different approaches to this problem." ]
  | Long, Hard =>
      Some [ "Critically analyze these theoretical foundations and propose improvements.";
             "Synthesize multiple perspectives on this problem and develop your own framework.";
             "Evaluate competing theories and argue for the most convincing approach.";
             "Analyze this complex scenario and develop a comprehensive solution." ]
  | _, _ => None
  end.

Definition subjectTemplates (domain : Domain) (type : QType)
  (difficulty : Difficulty) : option (list string) :=
  match domain, type, difficulty with
  | Math, Mcq, Easy =>
      Some [ "Find the solution to this equation: If x + 5 = 12, what is the value of x?";
             "What is the area of a rectangle with length 8 units and width 6 units?";
             "Which of the following is the correct formula for the area of a circle?";
             "If a number is divisible by both 2 and 3, it is also divisible by what number?" ]
  | Math, Mcq, Medium =>
      Some [ "A quadratic equation has roots at x = 2 and x = -3. What is the equation in standard form?";
             "In a right-angled triangle, if one angle is 30°, what is the other acute angle?";
             "Which trigonometric function equals the ratio of the opposite side to the hypotenuse?";
             "If f(x) = 2x² + 3x - 5, what is the value of f(2)?" ]
  | Math, Mcq, Hard =>
      Some [ "Which method would you use to determine the convergence of an infinite series?";
             "In a coordinate geometry problem involving a circle, what is the relationship between the center, radius, and a point on the circle?";
             "Given a polynomial function, how would you find all its roots if one root is already known?";
             "What theorem helps determine if a given matrix is diagonalizable?" ]
  | Math, Short, Easy =>
      Some [ "Explain the difference between permutation and combination with examples.";
             "Describe the properties of parallel lines in Euclidean geometry.";
             "Explain what makes a quadrilateral a parallelogram.";
             "Describe the relationship between the radius and diameter of a circle." ]
  | Math, Short, Medium =>
      Some [ "Explain how the quadratic formula is derived from the standard form of a quadratic equation.";
             "Describe the relationship between differentiation and integration in calculus.";
             "Explain how to use the sine and cosine rules to solve triangles.";
             "Describe the properties of a normal distribution in statistics." ]
  | Math, Short, Hard =>
      Some [ "Explain the fundamental theorem of calculus and its significance in mathematics.";
             "Describe how eigenvalues and eigenvectors are used in linear transformations.";
             "Explain the concept of statistical hypothesis testing with examples.";
             "Discuss the importance of number theory in modern cryptography." ]
  | Math, Long, Easy =>
      Some [ "Explain the concept of factorization of algebraic expressions with examples.";
             "Describe the properties and applications of different types of quadrilaterals.";
             "Explain the concept of linear equations and methods to solve them.";
             "Describe the properties of triangles and their significance in geometry." ]
  | Math, Long, Medium =>
      Some [ "Explain the concept of functions, their types, and applications with relevant examples.";
             "Describe the methods for solving systems of linear equations and their applications.";
             "Explain the concept of probability, its laws, and applications with examples.";
             "Describe the properties of geometric sequences and series with applications." ]
  | Math, Long, Hard =>
      Some [ "Explain differential calculus, its principles, and applications in real-world problems.";
             "Describe the concepts of vectors, vector spaces, and their applications in physics and engineering.";
             "Explain the principles of statistical inference and their applications in data analysis.";
             "Describe the concepts of complex numbers, their geometric interpretation, and applications." ]
  | Physics, Mcq, Easy =>
      Some [ "What is the SI unit of force?";
             "Which of the following is the formula for calculating work done?";
             "What type of energy does a moving object possess?";
             "Which physical quantity remains constant in an isolated system according to conservation laws?" ]
  | Physics, Mcq, Medium =>
      Some [ "A 2 kg object moving at 5 m/s collides with a stationary object. What principle determines the outcome?";
             "Which wave phenomenon explains the bending of light as it passes from air to water?";
             "In an electrical circuit, what determines the current according to Ohm's law?";
             "What happens to the wavelength of light when it passes through a medium with higher refractive index?" ]
  | Physics, Mcq, Hard =>
      Some [ "Which quantum principle describes the impossibility of simultaneously measuring position and momentum precisely?";
             "What is the relativistic effect on mass as an object approaches the speed of light?";
             "In thermodynamics, which law relates to the increase of entropy in isolated systems?";
             "How does the strong nuclear force vary with distance between nucleons?" ]
  | Physics, Short, Easy =>
      Some [ "Explain Newton's three laws of motion.";
             "Describe the difference between scalar and vector quantities with examples.";
             "Explain the concept of potential energy.";
             "Describe how sound waves propagate through different media." ]
  | Physics, Short, Medium =>
      Some [ "Explain the principle of conservation of energy with examples.";
             "Describe the electromagnetic spectrum and its applications.";
             "Explain how a simple electric motor works.";
             "Describe the relationship between force, pressure and area." ]
  | Physics, Short, Hard =>
      Some [ "Explain the concept of wave-particle duality in quantum mechanics.";
             "Describe Einstein's special theory of relativity and its implications.";
             "Explain the principles of nuclear fission and fusion.";
             "Describe the quantum mechanical model of the atom." ]
  | Chemistry, Mcq, Easy =>
      Some [ "Which of the following is an example of a chemical change?";
             "What type of bond forms between two non-metal atoms?";
             "Which element has the electronic configuration 2,8,8,1?";
             "What is the pH of a neutral solution at 25°C?" ]
  | Chemistry, Mcq, Medium =>
      Some [ "Which orbital has the quantum numbers n=3, l=1?";
             "What type of isomerism is exhibited by butane and 2-methylpropane?";
             "Which functional group characterizes alcohols?";
             "What happens to the rate of reaction when a catalyst is added?" ]
  | Chemistry, Mcq, Hard =>
      Some [ "Which principle explains why electron affinity generally decreases down a group in the periodic table?";
             "What is the hybridization of carbon in acetylene (C₂H₂)?";
             "Which mechanism best explains the reaction between alkenes and hydrogen halides?";
             "What is the relationship between Gibbs free energy and spontaneity of a reaction?" ]
  | Computer, Mcq, Easy =>
      Some [ "Which data structure operates on a First-In-First-Out (FIFO) principle?";
             "What is the purpose of a constructor in object-oriented programming?";
             "Which sorting algorithm has the best average time complexity?";
             "What does HTML stand for in web development?" ]
  | Computer, Mcq, Medium =>
      Some [ "What is the time complexity of binary search?";
             "Which design pattern would you use to create objects without specifying their concrete classes?";
             "What problem does normalization solve in database design?";
             "Which networking protocol is connectionless?" ]
  | Computer, Mcq, Hard =>
      Some [ "Which algorithm would be most efficient for finding the shortest path in a weighted graph?";
             "What is the significance of the CAP theorem in distributed systems?";
             "Which concurrency control mechanism would best prevent deadlock in a multi-threaded application?";
             "How does public key cryptography ensure secure communication?" ]
  | Computer, Short, Easy =>
      Some [ "Explain the difference between a stack and a queue with examples.";
             "Describe the principles of object-oriented programming.";
             "Explain how a binary search algorithm works.";
             "Describe the client-server architecture in networking." ]
  | Computer, Short, Medium =>
      Some [ "Explain the concept of recursion and provide an example.";
             "Describe the MVC architectural pattern and its benefits.";
             "Explain the principles of database normalization.";
             "Describe how virtual memory works in operating systems." ]
  | Computer, Short, Hard =>
      Some [ "Explain the concept of polymorphism and its implementation in programming.";
             "Describe the principles and applications of machine learning algorithms.";
             "Explain how blockchain technology ensures data integrity and security.";
             "Describe the principles of concurrent programming and thread synchronization." ]
  | Biology, Mcq, Easy =>
      Some [ "Which organelle is known as the powerhouse of the cell?";
             "What is the main function of the respiratory system?";
             "Which process converts glucose to pyruvate?";
             "What type of tissue connects bones to muscles?" ]
  | Biology, Mcq, Medium =>
      Some [ "Which phase of meiosis involves crossing over?";
             "What is the role of tRNA in protein synthesis?";
             "Which hormone regulates blood glucose levels?";
             "What is the function of the Golgi apparatus in a cell?" ]
  | Biology, Mcq, Hard =>
      Some [ "Which principle best explains the non-Mendelian inheritance pattern observed in this genetic disorder?";
             "What mechanism regulates gene expression in prokaryotes?";
             "How does feedback inhibition control metabolic pathways?";
             "What is the relationship between natural selection and genetic drift in evolutionary processes?" ]
  | History, Mcq, Easy =>
      Some [ "When did World War II end?";
             "Who was the first President of the United States?";
             "Which civilization built the pyramids at Giza?";
             "What document established the United Nations?" ]
  | History, Mcq, Medium =>
      Some [ "Which economic system emerged during the Industrial Revolution?";
             "What was the main cause of the French Revolution?";
             "Which treaty ended World War I?";
             "What impact did the printing press have on European society?" ]
  | History, Mcq, Hard =>
      Some [ "How did cold war ideologies influence post-colonial movements in developing nations?";
             "Which philosophical movement most influenced the framers of the U.S. Constitution?";
             "What factors led to the collapse of the Roman Empire?";
             "How did geographic factors influence the development of ancient civilizations?" ]
  | Language, Mcq, Easy =>
      Some [ "Which of these is an example of a simile?";
             "What is the main function of a verb in a sentence?";
             "Which literary movement emphasized emotion and individualism?";
             "What is the definition of a synonym?" ]
  | Language, Mcq, Medium =>
      Some [ "Which narrative technique involves revealing events out of chronological order?";
             "What rhetorical device repeats consonant sounds at the beginning of words?";
             "Which poetic form consists of fourteen lines with a specific rhyme scheme?";
             "What grammatical function does a subordinating conjunction serve?" ]
  | Language, Mcq, Hard =>
      Some [ "Which literary theory would best analyze the class dynamics in this text?";
             "What linguistic phenomenon explains the evolution of this grammatical structure?";
             "Which narrative perspective creates the most limited point of view?";
             "How does metafiction challenge conventional narrative structures?" ]
  | _, _, _ => None
  end.

(** [templateOptions[index % templateOptions.length]] *)
Definition pickTemplate (templateOptions : list string) (index : nat) : string :=
  nth (index mod length templateOptions) templateOptions "".

Definition selectQuestionText (type : QType) (difficulty : Difficulty)
  (subject : option string) (index : nat) : string :=
  match (if subjectTruthy subject
         then subjectTemplates (templateDomain subject) type difficulty
         else None) with
  | Some templateOptions => pickTemplate templateOptions index
  | None =>
      match templates type difficulty with
      | Some templateOptions => pickTemplate templateOptions index
      | None => "Answer the following question about this concept."
      end
  end.

Definition optionTemplates : list (list string) :=
  [ [ "Incorrect option based on a common misconception";
      "Partially correct but incomplete option";
      "Option that seems plausible but contains errors";
      "The correct and complete answer" ];
    [ "Option that misapplies a principle"; "Option using an outdated theory";
      "Option with calculation errors"; "Correct application of principles" ];
    [ "First incorrect approach"; "Second incorrect approach";
      "Third incorrect approach"; "Correct approach" ];
    [ "Option with logical fallacy"; "Option with incomplete reasoning";
      "Option missing key considerations";
      "Option with complete and correct reasoning" ] ].

(** The option set chosen for an mcq. *)
Definition mcqOptions (subject : option string) (questionText : string)
  (index : nat) : list string :=
  if subjectHas subject "math" then
    if strIncludes "equation" questionText then
      [ "x = 5"; "x = 7"; "x = 8"; "x = 9" ]
    else if strIncludes "area" questionText then
      [ "36 square units"; "48 square units"; "14 square units"; "24 square units" ]
    else if strIncludes "circle" questionText then
      [ "A = 2πr"; "A = πr"; "A = πr²"; "A = 2πr²" ]
    else if strIncludes "divisible" questionText then
      [ "4"; "5"; "6"; "9" ]
    else if strIncludes "quadratic" questionText then
      [ "x² - x - 6 = 0"; "x² + x - 6 = 0"; "x² - x + 6 = 0"; "x² + x + 6 = 0" ]
    else if strIncludes "triangle" questionText then
      [ "45°"; "60°"; "90°"; "180°" ]
    else if strIncludes "trigonometric" questionText then
      [ "sine"; "cosine"; "tangent"; "secant" ]
    else if strIncludes "f(x)" questionText then
      [ "7"; "9"; "11"; "13" ]
    else if strIncludes "convergence" questionText then
      [ "Ratio test"; "Root test"; "Integral test"; "Comparison test" ]
    else if strIncludes "matrix" questionText then
      [ "Eigenvalue Theorem"; "Diagonalization Theorem";
        "Characteristic Equation"; "Cayley-Hamilton Theorem" ]
    else
      [ "The first mathematical option"; "The second mathematical option";
        "The third mathematical option"; "The correct mathematical answer" ]
  else if subjectHas subject "physics" then
    if strIncludes "SI unit" questionText then
      [ "Newton"; "Joule"; "Watt"; "Pascal" ]
    else if strIncludes "energy" questionText then
      [ "Potential energy"; "Kinetic energy"; "Thermal energy"; "Nuclear energy" ]
    else if strIncludes "conservation" questionText then
      [ "Momentum"; "Acceleration"; "Velocity"; "Force" ]
    else if strIncludes "quantum" questionText then
      [ "Uncertainty principle"; "Wave function collapse";
        "Quantum entanglement"; "Pauli exclusion principle" ]
    else
      [ "First physics concept"; "Second physics concept";
        "Third physics concept"; "Correct physics answer" ]
  else if subjectHas subject "chemistry" then
    if strIncludes "chemical change" questionText then
      [ "Melting of ice"; "Evaporation of water"; "Rusting of iron"; "Grinding of salt" ]
    else if strIncludes "bond" questionText then
      [ "Ionic bond"; "Covalent bond"; "Metallic bond"; "Hydrogen bond" ]
    else if strIncludes "pH" questionText then
      [ "0"; "7"; "14"; "1" ]
    else
      [ "First chemistry concept"; "Second chemistry concept";
        "Third chemistry concept"; "Correct chemistry answer" ]
  else if subjectHas subject "computer" || subjectHas subject "programming" then
    if strIncludes "data structure" questionText then
      [ "Stack"; "Queue"; "Binary tree"; "Hash table" ]
    else if strIncludes "time complexity" questionText then
      [ "O(1)"; "O(n)"; "O(log n)"; "O(n²)" ]
    else if strIncludes "design pattern" questionText then
      [ "Singleton"; "Factory"; "Observer"; "Decorator" ]
    else
      [ "First programming concept"; "Second programming concept";
        "Third programming concept"; "Correct programming answer" ]
  else if subjectHas subject "biology" then
    if strIncludes "organelle" questionText then
      [ "Nucleus"; "Mitochondria"; "Ribosome"; "Golgi apparatus" ]
    else if strIncludes "meiosis" questionText then
      [ "Prophase I"; "Metaphase I"; "Anaphase I"; "Telophase I" ]
    else if strIncludes "hormone" questionText then
      [ "Insulin"; "Thyroxine"; "Estrogen"; "Testosterone" ]
    else
      [ "First biological concept"; "Second biological concept";
        "Third biological concept"; "Correct biological answer" ]
  else
    nth (index mod length optionTemplates) optionTemplates [].

(** [arr[i]] on an array of scalars. *)
Definition arrayGet (arr : list JsVal) (i : nat) : JsVal := nth i arr JUndefined.

Definition generateMeaningfulQuestion (topic : JsVal) (type : QType)
  (difficulty : Difficulty) (marks : Z) (subject : option string)
  (index : nat) : Question.t :=
  let questionText := selectQuestionText type difficulty subject index in
  let options :=
    match type with
    | Mcq => map JStr (mcqOptions subject questionText index)
    | _ => []
    end in
  {| Question.text := JStr questionText;
     Question.type := JStr (typeName type);
     Question.difficulty := JStr (difficultyName difficulty);
     Question.marks :=
       jsOr (JNum marks)
            (getDefaultMarks (JStr (typeName type)) (JStr (difficultyName difficulty)));
     Question.topic := topic;
     Question.bloomsTaxonomy := JUndefined;
     Question.explanation := JUndefined;
     Question.options := match type with Mcq => Some options | _ => None end;
     Question.correctAnswer :=
       match type with Mcq => arrayGet options 3 | _ => JUndefined end;
     Question.subject := JUndefined |}.

(** ** The distribution reconciler *)

(** An item of [questionDistribution].  The controller rejects a request
    unless every item has one of the seven types, one of the three
    difficulties, an integer count in 1..25 and a positive integer marks;
    the first two are built into the types here, and nothing below depends
    on the bounds. *)
Module DistItem.
Record t : Type := mk {
  type : QType;
  difficulty : Difficulty;
  count : nat;
  marks : Z
}.
End DistItem.

(** [q.type === type && q.difficulty === difficulty] *)
Definition isOf (type : QType) (difficulty : Difficulty) (q : Question.t)
  : bool :=
  strictEq (Question.type q) (JStr (typeName type))
  && strictEq (Question.difficulty q) (JStr (difficultyName difficulty)).

(** [q.type === distItem.type && q.difficulty === distItem.difficulty] *)
Definition inBucket (distItem : DistItem.t) (q : Question.t) : bool :=
  isOf (DistItem.type distItem) (DistItem.difficulty distItem) q.

(** The key [`${type}-${difficulty}`] of the [questionCounts] map. *)
Definition questionKey (q : Question.t) : string :=
  toString (Question.type q) +:+ "-" +:+ toString (Question.difficulty q).

Definition distKey (distItem : DistItem.t) : string :=
  typeName (DistItem.type distItem) +:+ "-"
  +:+ difficultyName (DistItem.difficulty distItem).

(** [organizedQuestions[k]]: the dictionary is an object literal, so a key
    it does not own may still be found on [Object.prototype]. *)
Definition organizedLookup (organizedQuestions : gmap string (list Question.t))
  (k : string) : PropLookup (list Question.t) :=
  match organizedQuestions !! k with
  | Some l => Own l
  | None => if isInherited k then Inherited else Absent
  end.

(** One iteration of the first [forEach]: an inherited property is truthy,
    so no array is created, and it has no [push] method. *)
Definition organizeStep (organizedQuestions : gmap string (list Question.t))
  (question : Question.t) : result (gmap string (list Question.t)) :=
  let k := toString (Question.type question) in
  match organizedLookup organizedQuestions k with
  | Own l => Ok (<[k := l ++ [question]]> organizedQuestions)
  | Absent => Ok (<[k := [question]]> organizedQuestions)
  | Inherited =>
      Throw "TypeError: organizedQuestions[question.type].push is not a function"
  end.

Fixpoint organize (organizedQuestions : gmap string (list Question.t))
  (generatedQuestions : list Question.t)
  : result (gmap string (list Question.t)) :=
  match generatedQuestions with
  | [] => Ok organizedQuestions
  | question :: rest =>
      match organizeStep organizedQuestions question with
      | Ok organizedQuestions' => organize organizedQuestions' rest
      | Throw msg => Throw msg
      end
  end.

(** The second [forEach]: [questionCounts.get(key) || 0] and [set]. *)
Definition countStep (questionCounts : gmap string nat) (question : Question.t)
  : gmap string nat :=
  let key := questionKey question in
  <[key := default 0 (questionCounts !! key) + 1]> questionCounts.

Definition countQuestions (generatedQuestions : list Question.t)
  : gmap string nat :=
  fold_left countStep generatedQuestions ∅.

Definition setText (q : Question.t) (v : JsVal) : Question.t :=
  {| Question.text := v;
     Question.type := Question.type q;
     Question.difficulty := Question.difficulty q;
     Question.marks := Question.marks q;
     Question.topic := Question.topic q;
     Question.bloomsTaxonomy := Question.bloomsTaxonomy q;
     Question.explanation := Question.explanation q;
     Question.options := Question.options q;
     Question.correctAnswer := Question.correctAnswer q;
     Question.subject := Question.subject q |}.

Definition setMarks (q : Question.t) (v : JsVal) : Question.t :=
  {| Question.text := Question.text q;
     Question.type := Question.type q;
     Question.difficulty := Question.difficulty q;
     Question.marks := v;
     Question.topic := Question.topic q;
     Question.bloomsTaxonomy := Question.bloomsTaxonomy q;
     Question.explanation := Question.explanation q;
     Question.options := Question.options q;
     Question.correctAnswer := Question.correctAnswer q;
     Question.subject := Question.subject q |}.

Definition setSubject (q : Question.t) (v : JsVal) : Question.t :=
  {| Question.text := Question.text q;
     Question.type := Question.type q;
     Question.difficulty := Question.difficulty q;
     Question.marks := Question.marks q;
     Question.topic := Question.topic q;
     Question.bloomsTaxonomy := Question.bloomsTaxonomy q;
     Question.explanation := Question.explanation q;
     Question.options := Question.options q;
     Question.correctAnswer := Question.correctAnswer q;
     Question.subject := v |}.

(** The text the forced branch of the [do ... while] loop writes. *)
Definition variantText (subject : option string) (text : JsVal) (attempts : nat)
  : JsVal :=
  match subject with
  | Some s =>
      if negb (s =? "") then
        JStr ("For " +:+ s +:+ ": " +:+ toString text
              +:+ " (Variant " +:+ natToString attempts +:+ ")")
      else JStr (toString text +:+ " (Variant " +:+ natToString attempts +:+ ")")
  | None => JStr (toString text +:+ " (Variant " +:+ natToString attempts +:+ ")")
  end.

(** The [do ... while (!isUnique && attempts < 10)] loop; [attempts] is the
    number of iterations already made, [fuel] bounds those still allowed. *)
Fixpoint uniqueLoop (fuel attempts : nat) (topic : JsVal) (distItem : DistItem.t)
  (subject : option string) (i : nat) (existingTexts : list JsVal)
  : Question.t :=
  let newQuestion :=
    generateMeaningfulQuestion topic (DistItem.type distItem)
      (DistItem.difficulty distItem) (DistItem.marks distItem) subject i in
  let isUnique := negb (includes existingTexts (Question.text newQuestion)) in
  let attempts := S attempts in
  if negb isUnique && (3 <? attempts)%nat then
    setText newQuestion (variantText subject (Question.text newQuestion) attempts)
  else if negb isUnique && (attempts <? 10)%nat then
    match fuel with
    | S fuel' => uniqueLoop fuel' attempts topic distItem subject i existingTexts
    | O => newQuestion
    end
  else newQuestion.

(** The question pushed by iteration [i] of the [for] loop of a deficit
    bucket: the result of the uniqueness loop, with the requested marks and
    the subject written over it. *)
Definition synthesize (topic : JsVal) (distItem : DistItem.t)
  (subject : option string) (i : nat) (existingTexts : list JsVal)
  : Question.t :=
  let newQuestion := uniqueLoop 10 0 topic distItem subject i existingTexts in
  let newQuestion := setMarks newQuestion (JNum (DistItem.marks distItem)) in
  match subject with
  | Some s => if negb (s =? "") then setSubject newQuestion (JStr s) else newQuestion
  | None => newQuestion
  end.

(** [organizedQuestions[distItem.type].push(newQuestion)], after the guard
    that creates the array; a type name is never an inherited key. *)
Definition pushOrganized (organizedQuestions : gmap string (list Question.t))
  (k : string) (q : Question.t) : gmap string (list Question.t) :=
  <[k := default [] (organizedQuestions !! k) ++ [q]]> organizedQuestions.

(** The [for (let i = 0; i < missingCount; i++)] loop, from iteration [i]
    with [remaining] iterations to go. *)
Fixpoint fillMissing (remaining i : nat) (topic : JsVal) (distItem : DistItem.t)
  (subject : option string)
  (organizedQuestions : gmap string (list Question.t))
  (existingTexts : list JsVal) : gmap string (list Question.t) :=
  match remaining with
  | O => organizedQuestions
  | S remaining' =>
      let newQuestion := synthesize topic distItem subject i existingTexts in
      fillMissing remaining' (S i) topic distItem subject
        (pushOrganized organizedQuestions (typeName (DistItem.type distItem))
           newQuestion)
        (existingTexts ++ [Question.text newQuestion])
  end.

(** [toKeep.some(keep => keep.text === q.text)] *)
Definition textIn (l : list Question.t) (q : Question.t) : bool :=
  existsb (fun keep => strictEq (Question.text keep) (Question.text q)) l.

(** The surplus branch, applied to the array [organizedQuestions[type]]. *)
Definition trimBucket (generatedQuestions : list Question.t)
  (distItem : DistItem.t) (ofType : list Question.t) : list Question.t :=
  let questionsOfType := List.filter (inBucket distItem) generatedQuestions in
  let toKeep := take (DistItem.count distItem) questionsOfType in
  let kept :=
    List.filter (fun q => negb (inBucket distItem q) || textIn toKeep q) ofType in
  let existing := List.filter (inBucket distItem) kept in
  if (length existing <? length toKeep)%nat then
    kept ++ List.filter (fun keep => negb (textIn existing keep)) toKeep
  else kept.

(** One iteration of the [forEach] that generates or trims. *)
Definition reconcileItem (generatedQuestions : list Question.t)
  (questionCounts : gmap string nat) (topic : JsVal) (subject : option string)
  (organizedQuestions : gmap string (list Question.t)) (distItem : DistItem.t)
  : gmap string (list Question.t) :=
  let key := distKey distItem in
  let currentCount := default 0 (questionCounts !! key) in
  if (currentCount <? DistItem.count distItem)%nat then
    let missingCount := DistItem.count distItem - currentCount in
    let existingQuestions := List.filter (inBucket distItem) generatedQuestions in
    let existingTexts := map Question.text existingQuestions in
    fillMissing missingCount 0 topic distItem subject organizedQuestions
      existingTexts
  else if (DistItem.count distItem <? currentCount)%nat then
    let k := typeName (DistItem.type distItem) in
    match organizedQuestions !! k with
    | Some ofType =>
        <[k := trimBucket generatedQuestions distItem ofType]> organizedQuestions
    | None => organizedQuestions
    end
  else organizedQuestions.

(** The final flattening in [typeOrder]. *)
Definition flatten (organizedQuestions : gmap string (list Question.t))
  : list Question.t :=
  concat (map (fun type => default [] (organizedQuestions !! type)) typeOrder).

(** The final validation pass only writes to the console; this is the list
    of the items it warns about, each with the count it found. *)
Definition validationWarnings (finalQuestions : list Question.t)
  (questionDistribution : list DistItem.t) : list (DistItem.t * nat) :=
  List.filter (fun w => negb (snd w =? DistItem.count (fst w))%nat)
    (map (fun distItem =>
            (distItem, length (List.filter (inBucket distItem) finalQuestions)))
         questionDistribution).

Definition ensureQuestionCount (generatedQuestions : list Question.t)
  (questionDistribution : list DistItem.t) (topic : JsVal)
  (subject : option string) : result (list Question.t) :=
  match organize ∅ generatedQuestions with
  | Throw msg => Throw msg
  | Ok organizedQuestions =>
      let questionCounts := countQuestions generatedQuestions in
      let organizedQuestions :=
        fold_left (reconcileItem generatedQuestions questionCounts topic subject)
          questionDistribution organizedQuestions in
      Ok (flatten organizedQuestions)
  end.

(** Number of questions of a (type, difficulty) pair in a sequence. *)
Definition bucketCount (l : list Question.t) (type : QType)
  (difficulty : Difficulty) : nat :=
  length (List.filter (isOf type difficulty) l).

(** ** The response extractor *)

Definition dquote : ascii := ascii_of_nat 34.
Definition backtick : ascii := ascii_of_nat 96.

(** The opening and closing fence, three backticks. *)
Definition fence : string := String backtick (String backtick (String backtick "")).

(** The class [\s], on ASCII: tab, line feed, vertical tab, form feed,
    carriage return and space. *)
Definition isSpace (c : ascii) : bool :=
  let n := nat_of_ascii c in
  ((9 <=? n)%nat && (n <=? 13)%nat) || (n =? 32)%nat.

(** The class [[\n\r]]. *)
Definition isNewline (c : ascii) : bool :=
  let n := nat_of_ascii c in (n =? 10)%nat || (n =? 13)%nat.

Fixpoint dropN (n : nat) (s : string) : string :=
  match n, s with
  | S n', String _ r => dropN n' r
  | _, _ => s
  end.

(** The leftmost occurrence of [needle]: the text before it and the text
    after it. *)
Fixpoint splitAtFirst (needle s : string) : option (string * string) :=
  if startsWith needle s then Some ("", dropN (String.length needle) s)
  else match s with
       | "" => None
       | String c r =>
           match splitAtFirst needle r with
           | Some (before, after) => Some (String c before, after)
           | None => None
           end
       end.

(** [(?:json|javascript)?]: the first alternative that matches is taken;
    what follows in the pattern matches whichever is taken. *)
Definition stripLang (s : string) : string :=
  if startsWith "json" s then dropN 4 s
  else if startsWith "javascript" s then dropN 10 s
  else s.

Fixpoint trimStart (s : string) : string :=
  match s with
  | "" => ""
  | String c r => if isSpace c then trimStart r else s
  end.

Fixpoint allSpace (s : string) : bool :=
  match s with
  | "" => true
  | String c r => isSpace c && allSpace r
  end.

Fixpoint trimEnd (s : string) : string :=
  match s with
  | "" => ""
  | String c r => if allSpace s then "" else String c (trimEnd r)
  end.

(** [s.trim()] *)
Definition trim (s : string) : string := trimEnd (trimStart s).

(** The first capture group of the fenced-block pattern, when it matches:
    the match starts at the leftmost fence; the language tag and the
    whitespace after it are skipped; the lazy group ends at the next fence. *)
Definition codeBlockMatch (responseText : string) : option string :=
  match splitAtFirst fence responseText with
  | None => None
  | Some (_, rest) =>
      match splitAtFirst fence (trimStart (stripLang rest)) with
      | Some (interior, _) => Some interior
      | None => None
      end
  end.

(** [.replace(/\*\*/g, '')] *)
Fixpoint removeBold (s : string) : string :=
  match s with
  | "" => ""
  | String c r =>
      match r with
      | String c2 r2 =>
          if (c =? "*")%char && (c2 =? "*")%char then removeBold r2
          else String c (removeBold r)
      | "" => String c ""
      end
  end.

Definition hasQuote (s : string) : bool := strIncludes (String dquote "") s.

(** The replacement of line breaks inside strings: the pattern is a run
    [[\n\r]+] between a lookbehind for a quote followed by non-quotes and a
    lookahead for non-quotes followed by a quote, so a maximal run of line
    breaks with a quote somewhere before it and a quote somewhere after it
    becomes one space.  [replacing] holds inside a run being replaced. *)
Fixpoint joinLines (seenQuote replacing : bool) (s : string) : string :=
  match s with
  | "" => ""
  | String c r =>
      if isNewline c then
        if replacing then joinLines seenQuote true r
        else if seenQuote && hasQuote r
             then String " " (joinLines seenQuote true r)
             else String c (joinLines seenQuote false r)
      else String c (joinLines (seenQuote || (c =? dquote)%char) false r)
  end.

(** [.replace(/\s+/g, ' ')] *)
Fixpoint collapseSpaces (inRun : bool) (s : string) : string :=
  match s with
  | "" => ""
  | String c r =>
      if isSpace c then
        if inRun then collapseSpaces true r
        else String " " (collapseSpaces true r)
      else String c (collapseSpaces false r)
  end.

(** [.replace(/^[^{]*/, '')] *)
Fixpoint dropUntilOpen (s : string) : string :=
  match s with
  | "" => ""
  | String c r => if (c =? "{")%char then s else dropUntilOpen r
  end.

Definition hasClose (s : string) : bool := strIncludes "}" s.

(** [.replace(/}[^}]*$/, '}')]: everything after the last closing brace
    goes; a text without one is left alone. *)
Fixpoint cutAfterLastClose (s : string) : string :=
  match s with
  | "" => ""
  | String c r =>
      if (c =? "}")%char && negb (hasClose r) then "}"
      else String c (cutAfterLastClose r)
  end.

Definition cleanJsonResponse (responseText : string) : string :=
  match codeBlockMatch responseText with
  | Some interior => trim interior
  | None =>
      cutAfterLastClose
        (dropUntilOpen
           (collapseSpaces false
              (joinLines false false (removeBold responseText))))
  end.

(** [cleanedResponseText.match(/\{[\s\S]*\}/)]: from the first opening
    brace to the last closing brace after it. *)
Definition jsonMatch (cleanedResponseText : string) : option string :=
  let fromOpen := dropUntilOpen cleanedResponseText in
  if hasClose fromOpen then Some (cutAfterLastClose fromOpen) else None.

(** [jsonStr], the text handed to the first [JSON.parse]. *)
Definition jsonStr (responseText : string) : string :=
  default "" (jsonMatch (cleanJsonResponse responseText)).

(** A parsed JSON document. *)
#[warnings="-register-all"] Inductive Json : Type :=
| JsonNull
| JsonBool (b : bool)
| JsonNumber (z : Z)
| JsonString (s : string)
| JsonArray (items : list Json)
| JsonObject (members : list (string * Json)).

(** Which attempt of the parse cascade produced the document. *)
Inductive ParseAttempt : Type := FirstAttempt | LaterAttempt.

Section Extractor.
(** [JSON.parse] belongs to the engine; [None] stands for a raised
    [SyntaxError]. *)
Variable JSON_parse : string -> option Json.

(** The repair and pattern-matching attempts made after a failed first
    parse, as a function of [jsonStr] and [cleanedResponseText]. *)
Variable laterAttempts : string -> string -> option Json.

(** The parse cascade of [generateQuestions]; [None] stands for the error
    raised when every attempt fails. *)
Definition parseResponse (responseText : string)
  : option (ParseAttempt * Json) :=
  let cleanedResponseText := cleanJsonResponse responseText in
  let jsonStr := default "" (jsonMatch cleanedResponseText) in
  match JSON_parse jsonStr with
  | Some parsedResponse => Some (FirstAttempt, parsedResponse)
  | None =>
      match laterAttempts jsonStr cleanedResponseText with
      | Some parsedResponse => Some (LaterAttempt, parsedResponse)
      | None => None
      end
  end.
End Extractor.

(** * Further parts of the service and of its controller

    The repair of a text that failed to parse ([fixedJsonStr]) and the rest
    of [generateQuestions] after the completion, [solveQuestion] and
    [solveQuestionPaper], and the checks the controller of the
    question-paper routes makes around the call of the service. *)

(** ** The repair of a text that failed to parse *)

Definition backslash : ascii := ascii_of_nat 92.

(** The characters the first replacement accepts after a backslash: quote,
    backslash, slash, b, f, n, r, t. *)
Definition escapeLetter (c : ascii) : bool :=
  (c =? dquote)%char || (c =? backslash)%char || (c =? "/")%char
  || (c =? "b")%char || (c =? "f")%char || (c =? "n")%char
  || (c =? "r")%char || (c =? "t")%char.

(** The first replacement: a backslash that is not followed by one of the
    escape letters is doubled; at the end of the text the lookahead holds. *)
Fixpoint escapeBackslashes (s : string) : string :=
  match s with
  | "" => ""
  | String c r =>
      if (c =? backslash)%char then
        match r with
        | String d _ =>
            if escapeLetter d then String c (escapeBackslashes r)
            else String backslash (String backslash (escapeBackslashes r))
        | "" => String backslash (String backslash "")
        end
      else String c (escapeBackslashes r)
  end.

(** The second replacement: a quote gets a backslash when the nearest quote
    before it closes a key, that is, is the last character of the three
    characters quote, colon, quote, and some quote follows it.  The
    lookbehind reads the text as it was, so [p2] and [p1] are the two
    characters before the current one and [armed] tells whether the nearest
    quote so far closes a key. *)
Fixpoint escapeQuotes (armed : bool) (p2 p1 : option ascii) (s : string)
  : string :=
  match s with
  | "" => ""
  | String c r =>
      if (c =? dquote)%char then
        let closesKey :=
          match p2, p1 with
          | Some a, Some b => (a =? dquote)%char && (b =? ":")%char
          | _, _ => false
          end in
        if armed && hasQuote r
        then String backslash (String c (escapeQuotes closesKey p1 (Some c) r))
        else String c (escapeQuotes closesKey p1 (Some c) r)
      else String c (escapeQuotes armed p1 (Some c) r)
  end.

(** Whether the text is whitespace followed by [closer]. *)
Fixpoint closesAfterSpaces (closer : ascii) (s : string) : bool :=
  match s with
  | "" => false
  | String c r =>
      if (c =? closer)%char then true
      else if isSpace c then closesAfterSpaces closer r
      else false
  end.

(** The third and the fourth replacement: a comma, the whitespace after it
    and [closer] become [closer].  [skipping] holds between such a comma and
    its closer. *)
Fixpoint removeTrailingCommas (closer : ascii) (skipping : bool) (s : string)
  : string :=
  match s with
  | "" => ""
  | String c r =>
      if skipping then
        if isSpace c then removeTrailingCommas closer true r
        else String c (removeTrailingCommas closer false r)
      else if (c =? ",")%char && closesAfterSpaces closer r
           then removeTrailingCommas closer true r
           else String c (removeTrailingCommas closer false r)
  end.

(** The characters U+0000 to U+001F and U+007F. *)
Definition isControl (c : ascii) : bool :=
  let n := nat_of_ascii c in (n <? 32)%nat || (n =? 127)%nat.

(** The fifth replacement removes the characters U+0000 to U+001F and
    U+007F to U+009F; in the byte encoding of the text the characters
    U+0080 to U+009F are the byte 194 followed by a byte from 128 to 159. *)
Fixpoint removeControl (s : string) : string :=
  match s with
  | "" => ""
  | String c r =>
      if isControl c then removeControl r
      else
        match r with
        | String d r' =>
            if (nat_of_ascii c =? 194)%nat && (128 <=? nat_of_ascii d)%nat
               && (nat_of_ascii d <=? 159)%nat
            then removeControl r'
            else String c (removeControl r)
        | "" => String c ""
        end
  end.

(** [fixedJsonStr]: the six replacements in the order of the source; the
    last one is the pattern [cleanJsonResponse] uses for line breaks. *)
Definition fixJson (jsonStr : string) : string :=
  joinLines false false
    (removeControl
       (removeTrailingCommas "]" false
          (removeTrailingCommas "}" false
             (escapeQuotes false None None (escapeBackslashes jsonStr))))).

(** ** From the completion to the questions *)

(** The last member of an object with the given key: [JSON.parse] keeps the
    last of several members with the same key. *)
Fixpoint lastMember (key : string) (members : list (string * Json))
  : option Json :=
  match members with
  | [] => None
  | (k, v) :: rest =>
      match lastMember key rest with
      | Some v' => Some v'
      | None => if k =? key then Some v else None
      end
  end.

(** [parsedResponse && parsedResponse.questions &&
    Array.isArray(parsedResponse.questions)], with the array. *)
Definition questionsArray (parsedResponse : Json) : option (list Json) :=
  match parsedResponse with
  | JsonObject members =>
      match lastMember "questions" members with
      | Some (JsonArray items) => Some items
      | _ => None
      end
  | _ => None
  end.

Section GenerateQuestions.
(** [JSON.parse] belongs to the engine; [None] stands for a raised
    [SyntaxError]. *)
Variable JSON_parse : string -> option Json.

(** The last resort after the repaired text failed to parse as well: the
    two pattern matches on the cleaned text with their [JSON.parse]. *)
Variable lastResort : string -> option Json.

(** The question object an element of the parsed array is read as; the
    fields of [null] cannot be read. *)
Variable questionOfJson : Json -> Question.t.

Definition isNull (v : Json) : bool :=
  match v with
  | JsonNull => true
  | _ => false
  end.

(** The attempts after a failed first parse. *)
Definition laterAttempts (jsonStr cleanedResponseText : string)
  : option Json :=
  match JSON_parse (fixJson jsonStr) with
  | Some parsedResponse => Some parsedResponse
  | None => lastResort cleanedResponseText
  end.

(** [generateQuestions] from the outcome of the chat completion on:
    [completion] is the content of the first choice ([None] when there is
    none) or the error raised before a response text is at hand.  Every
    error raised after the completion arrived (a failed parse, a missing
    array, a [null] element whose fields [processQuestions] reads, the
    [TypeError] of the reconciler) is caught and replaced by one and the
    same error;
    [useMockResponse] is never set, so the outer handler raises again what
    it caught. *)
Definition generateQuestions (completion : result (option string))
  (topic : JsVal) (questionDistribution : list DistItem.t)
  (subject : option string) : result (list Question.t) :=
  match completion with
  | Throw msg => Throw msg
  | Ok content =>
      let responseText := default "" content in
      match parseResponse JSON_parse laterAttempts responseText with
      | None => Throw "Failed to parse response from AI model"
      | Some (_, parsedResponse) =>
          match questionsArray parsedResponse with
          | None => Throw "Failed to parse response from AI model"
          | Some items =>
              if existsb isNull items
              then Throw "Failed to parse response from AI model"
              else
                let processedQuestions :=
                  processQuestions (map questionOfJson items) topic in
                match questionDistribution with
                | [] => Ok processedQuestions
                | _ :: _ =>
                    match ensureQuestionCount processedQuestions
                            questionDistribution topic subject with
                    | Ok finalQuestions => Ok finalQuestions
                    | Throw _ => Throw "Failed to parse response from AI model"
                    end
                end
          end
      end
  end.
End GenerateQuestions.

(** ** Solving questions *)

Section Solve.
(** The chat-completion client as the two functions use it: from its state,
    the prompt and the model name to the content of the first choice
    ([None] when it is missing) or the raised error, and the next state. *)
Variable ClientState : Type.

Variable complete :
  ClientState -> string -> string -> result (option string) * ClientState.

Definition solvePrompt (question : JsVal) : string :=
  "You are a helpful AI tutor. A student is asking you the following question. Please provide a detailed solution and explanation:"
  +:+ String (ascii_of_nat 10) "            " +:+ toString question.

(** [solveQuestion]: the subject is received and not used. *)
Definition solveQuestion (st : ClientState) (question : JsVal)
  (subject : option string) (model : string)
  : result string * ClientState :=
  match complete st (solvePrompt question) model with
  | (Ok (Some content), st') =>
      if content =? ""
      then (Throw "Failed to solve question: Empty response from Groq API", st')
      else (Ok content, st')
  | (Ok None, st') =>
      (Throw "Failed to solve question: Empty response from Groq API", st')
  | (Throw msg, st') => (Throw ("Failed to solve question: " +:+ msg), st')
  end.

(** The [for ... of] loop of [solveQuestionPaper]. *)
Fixpoint solveEach (st : ClientState) (questions : list JsVal)
  (subject : option string) (model : string) : list string * ClientState :=
  match questions with
  | [] => ([], st)
  | question :: rest =>
      let (r, st') := solveQuestion st question subject model in
      let solvedQuestion :=
        match r with
        | Ok solvedQuestion => solvedQuestion
        | Throw msg => "Error: " +:+ msg
        end in
      let (solvedQuestions, st'') := solveEach st' rest subject model in
      (solvedQuestion :: solvedQuestions, st'')
  end.

Definition solveQuestionPaper (st : ClientState) (questions : list JsVal)
  (subject : option string) (model : string)
  : result (list string) * ClientState :=
  let (solvedQuestions, st') := solveEach st questions subject model in
  if forallb (startsWith "Error:") solvedQuestions
  then (Throw "Failed to solve any questions in the paper", st')
  else (Ok solvedQuestions, st').
End Solve.

(** ** The controller *)

Module RawDistItem.
(** An item of [req.body.questionDistribution] before it is checked. *)
Record t : Type := mk {
  type : JsVal;
  difficulty : JsVal;
  count : JsVal;
  marks : JsVal
}.
End RawDistItem.

Module Controller.

(** [Number.isInteger(v) && v > 0]; a number that is not an integer is not
    a value of [JsVal], and fails the test as [NaN] does. *)
Definition positiveInteger (v : JsVal) : bool :=
  match v with
  | JNum z => (0 <? z)%Z
  | _ => false
  end.

(** [v <= 25] for a value that passed [Number.isInteger]. *)
Definition atMost25 (v : JsVal) : bool :=
  match v with
  | JNum z => (z <=? 25)%Z
  | _ => false
  end.

(** The callback of [questionDistribution.every]. *)
Definition isValidItem (item : RawDistItem.t) : bool :=
  includes
    [ JStr "mcq"; JStr "short"; JStr "long"; JStr "diagram"; JStr "code";
      JStr "hots"; JStr "case_study" ]
    (RawDistItem.type item)
  && includes [ JStr "easy"; JStr "medium"; JStr "hard" ]
       (RawDistItem.difficulty item)
  && positiveInteger (RawDistItem.count item)
  && atMost25 (RawDistItem.count item)
  && positiveInteger (RawDistItem.marks item).

Definition isValidDistribution (questionDistribution : list RawDistItem.t)
  : bool :=
  forallb isValidItem questionDistribution.

(** [totalCount], computed once the distribution has passed the check. *)
Definition totalCount (questionDistribution : list DistItem.t) (count : nat)
  : nat :=
  match questionDistribution with
  | [] => count
  | _ :: _ =>
      fold_left (fun sum item => (sum + DistItem.count item)%nat)
        questionDistribution 0%nat
  end.

(** What the repair reads of an [options] value that is not an array: the
    value is falsy, or it is truthy and has the given [length] property
    ([undefined] for a value without one, the number of characters for a
    string).  The question record keeps no such value, its [options] is
    [None] then, so the callback takes it beside the question. *)
Inductive NonArrayOptions : Type :=
| FalsyOptions
| TruthyOptions (len : JsVal).

(** [!question.options || question.options.length !== 4]; an array is
    truthy. *)
Definition optionsNeedRepair (nonArray : NonArrayOptions)
  (options : option (list JsVal)) : bool :=
  match options with
  | Some l => negb (length l =? 4)%nat
  | None =>
      match nonArray with
      | FalsyOptions => true
      | TruthyOptions len => negb (strictEq len (JNum 4))
      end
  end.

(** The callback of [questions.map] that yields [validatedQuestions];
    [nonArray] describes [question.options] when it is not an array.  A
    question that passes the guard is returned as it is. *)
Definition validatedQuestion (nonArray : NonArrayOptions)
  (question : Question.t) : Question.t :=
  if strictEq (Question.type question) (JStr "mcq")
     && optionsNeedRepair nonArray (Question.options question)
  then
    let options :=
      match Question.options question with
      | None =>
          [ JStr "Option A"; JStr "Option B"; JStr "Option C"; JStr "Option D" ]
      | Some l =>
          if (length l <? 4)%nat then padOptions 4 l
          else if (4 <? length l)%nat then take 4 l
          else l
      end in
    {| Question.text := Question.text question;
       Question.type := Question.type question;
       Question.difficulty := Question.difficulty question;
       Question.marks := Question.marks question;
       Question.topic := Question.topic question;
       Question.bloomsTaxonomy := Question.bloomsTaxonomy question;
       Question.explanation := Question.explanation question;
       Question.options := Some options;
       Question.correctAnswer :=
         if negb (truthy (Question.correctAnswer question))
            || negb (includes options (Question.correctAnswer question))
         then firstOption options
         else Question.correctAnswer question;
       Question.subject := Question.subject question |}
  else question.

End Controller.

(** ** Properties stated by the specification *)

(** An mcq has exactly four options and its [correctAnswer] is one of them. *)
Definition mcqWellFormed (q : Question.t) : Prop :=
  exists options : list JsVal,
    Question.options q = Some options /\
    length options = 4%nat /\
    In (Question.correctAnswer q) options.

(** The base-marks table and the doubled multipliers, by type and
    difficulty. *)
Definition baseMarksOf (t : QType) : Z :=
  match t with
  | Mcq => 2 | Short => 4 | Long => 8 | Diagram => 6 | Code => 7
  | Hots => 10 | CaseStudy => 12
  end%Z.

Definition multiplier2Of (d : Difficulty) : Z :=
  match d with Easy => 2 | Medium => 3 | Hard => 4 end%Z.

(** The default marks as the specification words them: the base marks of
    the type times the multiplier of the difficulty (easy 1, medium 1.5,
    hard 2), rounded to the nearest integer. *)
Definition specDefaultMarks (t : QType) (d : Difficulty) : Z :=
  ((baseMarksOf t * multiplier2Of d + 1) / 2)%Z.

(** A non-empty string. *)
Definition nonEmptyStr (v : JsVal) : Prop :=
  exists s : string, v = JStr s /\ s <> "".

(** An optional string property. *)
Definition optionalStr (v : JsVal) : Prop :=
  v = JUndefined \/ exists s : string, v = JStr s.

(** The canonical, post-normalization question of the data model. *)
Definition canonical (q : Question.t) : Prop :=
  nonEmptyStr (Question.text q) /\
  (exists t, Question.type q = JStr (typeName t)) /\
  (exists d, Question.difficulty q = JStr (difficultyName d)) /\
  (exists m, Question.marks q = JNum m /\ (0 < m)%Z) /\
  (exists s, Question.topic q = JStr s) /\
  (Question.bloomsTaxonomy q = JUndefined \/ nonEmptyStr (Question.bloomsTaxonomy q)) /\
  optionalStr (Question.explanation q) /\
  optionalStr (Question.subject q) /\
  (if strictEq (Question.type q) (JStr "mcq")
   then mcqWellFormed q /\ Question.correctAnswer q <> JUndefined
   else Question.options q = None /\ Question.correctAnswer q = JUndefined).

(** The (type, difficulty) pair an item of the distribution requests. *)
Definition bucketOf (distItem : DistItem.t) : QType * Difficulty :=
  (DistItem.type distItem, DistItem.difficulty distItem).

(** ** Auxiliary notions for the reconciler *)

(** The array a key of [organizedQuestions] holds, empty when there is
    none: what the final flattening reads. *)
Definition getList (organizedQuestions : gmap string (list Question.t))
  (k : string) : list Question.t :=
  default [] (organizedQuestions !! k).

(** Every array of [organizedQuestions] holds questions whose type is its
    key. *)
Definition keysAgree (org : gmap string (list Question.t)) : Prop :=
  forall k q, In q (getList org k) -> toString (Question.type q) = k.

(** The questions pushed by iterations [i], [i+1], ... of the [for] loop of
    a deficit bucket. *)
Fixpoint synthesized (remaining i : nat) (topic : JsVal) (distItem : DistItem.t)
  (subject : option string) (existingTexts : list JsVal) : list Question.t :=
  match remaining with
  | O => []
  | S remaining' =>
      let newQuestion := synthesize topic distItem subject i existingTexts in
      newQuestion ::
        synthesized remaining' (S i) topic distItem subject
          (existingTexts ++ [Question.text newQuestion])
  end.

(** What a requested bucket is to hold after reconciliation: its input
    questions followed by the synthesized ones when they are too few, its
    first [count] input questions, in input order, otherwise. *)
Definition reconciledBucket (generatedQuestions : list Question.t)
  (topic : JsVal) (subject : option string) (distItem : DistItem.t)
  : list Question.t :=
  let bucket := List.filter (inBucket distItem) generatedQuestions in
  if (length bucket <? DistItem.count distItem)%nat then
    bucket
    ++ synthesized (DistItem.count distItem - length bucket) 0 topic distItem
         subject (map Question.text bucket)
  else take (DistItem.count distItem) bucket.

(** ** Auxiliary notions on strings *)

(** The last character of a text. *)
Fixpoint lastChar (s : string) : option ascii :=
  match s with
  | "" => None
  | String c r =>
      match lastChar r with
      | Some x => Some x
      | None => Some c
      end
  end.

(** No hyphen occurs in the text. *)
Fixpoint noHyphen (s : string) : bool :=
  match s with
  | "" => true
  | String c r => negb (c =? "-")%char && noHyphen r
  end.


(** A response that wraps [json] in a fenced code block: free text, the
    opening fence, a language tag, white space, the JSON text, white space,
    the closing fence, free text. *)
Definition fenced (before lang ws1 json ws2 after : string) : string :=
  before +:+ fence +:+ lang +:+ ws1 +:+ json +:+ ws2 +:+ fence +:+ after.

Definition newline : string := String (ascii_of_nat 10) "".

(** [s] between double quotes. *)
Definition quoted (s : string) : string :=
  String dquote s +:+ String dquote "".

(** ** Concrete inputs *)

(** A question object with only the listed properties. *)
Definition rawQuestion (text type difficulty marks : JsVal)
  (options : option (list JsVal)) (correctAnswer : JsVal) : Question.t :=
  {| Question.text := text;
     Question.type := type;
     Question.difficulty := difficulty;
     Question.marks := marks;
     Question.topic := JUndefined;
     Question.bloomsTaxonomy := JUndefined;
     Question.explanation := JUndefined;
     Question.options := options;
     Question.correctAnswer := correctAnswer;
     Question.subject := JUndefined |}.

(** An mcq of difficulty easy worth 2 marks, as the model may return it. *)
Definition mcqEasy (text : string) : Question.t :=
  rawQuestion (JStr text) (JStr "mcq") (JStr "easy") (JNum 2)
    (Some [JStr "a"; JStr "b"; JStr "c"; JStr "d"]) (JStr "a").

(** The end-to-end scenario of the specification: the model returns two of
    the three requested mcqs and no long question. *)
Definition scenarioQuestions : list Question.t :=
  processQuestions [mcqEasy "Q1"; mcqEasy "Q2"] (JStr "Thermodynamics").

Definition scenarioDistribution : list DistItem.t :=
  [ DistItem.mk Mcq Easy 3 2; DistItem.mk Long Hard 1 10 ].

(** Six mcq/easy questions of which the fifth repeats the first. *)
Definition sixWithRepeat : list Question.t :=
  processQuestions
    [ mcqEasy "Q1"; mcqEasy "Q2"; mcqEasy "Q3"; mcqEasy "Q4"; mcqEasy "Q1";
      mcqEasy "Q6" ]
    (JStr "T").


(** The JSON text of an object with an empty [questions] array. *)
Definition emptyQuestionsJson : string :=
  "{" +:+ quoted "questions" +:+ ":[]}".


(** A stand-in for [JSON.parse] that accepts one text. *)
Definition parseOnly (json : string) (parsed : Json) (s : string)
  : option Json :=
  if s =? json then Some parsed else None.

(** ** Notions used by the further properties *)

(** The questions the deficit branch appends to the array of the type [k]:
    for each distribution item of that type, in distribution order, the
    questions synthesized for its missing count. *)
Definition deficitAdditions (generatedQuestions : list Question.t)
  (topic : JsVal) (subject : option string)
  (questionDistribution : list DistItem.t) (k : string) : list Question.t :=
  concat
    (map (fun distItem =>
            let bucket := List.filter (inBucket distItem) generatedQuestions in
            synthesized (DistItem.count distItem - length bucket) 0 topic
              distItem subject (map Question.text bucket))
         (List.filter (fun distItem =>
                         typeName (DistItem.type distItem) =? k)
            questionDistribution)).

(** The questions of a sequence whose type prints as [k]. *)
Definition ofTypeKey (k : string) (l : list Question.t) : list Question.t :=
  List.filter (fun q => toString (Question.type q) =? k) l.

(** A text in which every whitespace character is a space and no two
    spaces are adjacent; [afterSpace] tells whether the character before the
    text is a space. *)
Fixpoint singleSpaced (afterSpace : bool) (s : string) : bool :=
  match s with
  | "" => true
  | String c r =>
      if isSpace c
      then (c =? " ")%char && negb afterSpace && singleSpaced true r
      else singleSpaced false r
  end.

(** A text without two adjacent asterisks; [afterStar] tells whether the
    character before the text is an asterisk. *)
Fixpoint starFree (afterStar : bool) (s : string) : bool :=
  match s with
  | "" => true
  | String c r =>
      if (c =? "*")%char then negb afterStar && starFree true r
      else starFree false r
  end.

(** The request item a typed distribution item stands for. *)
Definition rawItem (distItem : DistItem.t) : RawDistItem.t :=
  {| RawDistItem.type := JStr (typeName (DistItem.type distItem));
     RawDistItem.difficulty :=
       JStr (difficultyName (DistItem.difficulty distItem));
     RawDistItem.count := JNum (Z.of_nat (DistItem.count distItem));
     RawDistItem.marks := JNum (DistItem.marks distItem) |}.

(** A text without a control character. *)
Fixpoint controlFree (s : string) : bool :=
  match s with
  | "" => true
  | String c r => negb (isControl c) && controlFree r
  end.

(** A text of ASCII characters. *)
Fixpoint asciiText (s : string) : bool :=
  match s with
  | "" => true
  | String c r => (nat_of_ascii c <? 128)%nat && asciiText r
  end.

(** Whether some comma of the text is followed by whitespace and
    [closer]. *)
Fixpoint hasTrailingComma (closer : ascii) (s : string) : bool :=
  match s with
  | "" => false
  | String c r =>
      ((c =? ",")%char && closesAfterSpaces closer r)
      || hasTrailingComma closer r
  end.

(** A text together with the one or two characters before it that the
    second replacement of the repair still looks at. *)
Definition withContext (p2 p1 : option ascii) (s : string) : string :=
  match p1 with
  | None => s
  | Some b =>
      match p2 with
      | None => String b s
      | Some a => String a (String b s)
      end
  end.

(** * Verification *)

(** ** Scalars *)

Lemma strictEq_eq (a b : JsVal) : strictEq a b = true -> a = b.
Proof.
  destruct a, b; simpl; try discriminate; try reflexivity.
  - intros H. apply Bool.eqb_prop in H. congruence.
  - intros H. apply Z.eqb_eq in H. congruence.
  - intros H. apply String.eqb_eq in H. congruence.
Qed.

Lemma strictEq_str (v : JsVal) (s : string) :
  strictEq v (JStr s) = true <-> v = JStr s.
Proof.
  split.
  - apply strictEq_eq.
  - intros ->. simpl. apply String.eqb_refl.
Qed.

Lemma sameValueZero_eq (a b : JsVal) : sameValueZero a b = true -> a = b.
Proof.
  destruct a, b; simpl; try discriminate; try reflexivity;
    apply (strictEq_eq (JBool _) (JBool _)) ||
    apply (strictEq_eq (JNum _) (JNum _)) ||
    apply (strictEq_eq (JStr _) (JStr _)).
Qed.

Lemma includes_In (arr : list JsVal) (v : JsVal) :
  includes arr v = true -> In v arr.
Proof.
  unfold includes. rewrite existsb_exists.
  intros [x [Hx Hv]]. apply sameValueZero_eq in Hv. congruence.
Qed.

Lemma numToString_examples :
  numToString 120 = "120" /\ numToString (-45) = "-45" /\ numToString 0 = "0".
Proof. repeat split. Qed.

(** ** The normalizer *)

Lemma validateMCQOptions_length (options : option (list JsVal)) :
  length (validateMCQOptions options) = 4%nat.
Proof.
  destruct options as [l|]; [|reflexivity].
  unfold validateMCQOptions.
  destruct (length l <? 4)%nat eqn:Hlt.
  - apply Nat.ltb_lt in Hlt.
    destruct l as [|a [|b [|c [|d l]]]]; simpl in *; try reflexivity; lia.
  - destruct (4 <? length l)%nat eqn:Hgt.
    + apply Nat.ltb_lt in Hgt. rewrite length_take. lia.
    + apply Nat.ltb_ge in Hlt. apply Nat.ltb_ge in Hgt. lia.
Qed.

Lemma firstOption_In (options : list JsVal) :
  length options = 4%nat -> In (firstOption options) options.
Proof.
  destruct options; simpl; [discriminate | auto].
Qed.

Lemma processQuestion_mcq (topic : JsVal) (question : Question.t) :
  Question.type (processQuestion topic question) = JStr "mcq" ->
  mcqWellFormed (processQuestion topic question).
Proof.
  intros Hty. unfold mcqWellFormed.
  exists (validateMCQOptions (Question.options question)).
  unfold processQuestion in *. simpl in *. rewrite Hty. simpl.
  split; [reflexivity|]. split; [apply validateMCQOptions_length|].
  destruct (truthy (Question.correctAnswer question)
            && includes (validateMCQOptions (Question.options question))
                        (Question.correctAnswer question)) eqn:Hc.
  - apply andb_true_iff in Hc. apply includes_In, Hc.
  - apply firstOption_In, validateMCQOptions_length.
Qed.

(** ** The template fallback generator *)

Lemma mcqOptions_length (subject : option string) (questionText : string)
  (index : nat) : length (mcqOptions subject questionText index) = 4%nat.
Proof.
  unfold mcqOptions.
  repeat match goal with
         | |- context [if ?b then _ else _] => destruct b
         end; try reflexivity.
  assert (Hlt : (index mod length optionTemplates < 4)%nat)
    by (apply Nat.mod_upper_bound; discriminate).
  destruct (index mod length optionTemplates) as [|[|[|[|n]]]];
    try reflexivity; lia.
Qed.

Lemma generateMeaningfulQuestion_mcq (topic : JsVal) (difficulty : Difficulty)
  (marks : Z) (subject : option string) (index : nat) :
  mcqWellFormed (generateMeaningfulQuestion topic Mcq difficulty marks subject index).
Proof.
  unfold mcqWellFormed, generateMeaningfulQuestion. simpl.
  set (txt := selectQuestionText Mcq difficulty subject index).
  pose proof (mcqOptions_length subject txt index) as Hlen.
  exists (map JStr (mcqOptions subject txt index)).
  split; [reflexivity|]. split; [rewrite length_map; exact Hlen|].
  destruct (mcqOptions subject txt index) as [|a [|b [|c [|d [|e l]]]]];
    simpl in Hlen; try discriminate.
  simpl. auto.
Qed.

Lemma generateMeaningfulQuestion_type (topic : JsVal) (type : QType)
  (difficulty : Difficulty) (marks : Z) (subject : option string) (index : nat) :
  Question.type (generateMeaningfulQuestion topic type difficulty marks subject index)
  = JStr (typeName type).
Proof. reflexivity. Qed.

Lemma generateMeaningfulQuestion_difficulty (topic : JsVal) (type : QType)
  (difficulty : Difficulty) (marks : Z) (subject : option string) (index : nat) :
  Question.difficulty
    (generateMeaningfulQuestion topic type difficulty marks subject index)
  = JStr (difficultyName difficulty).
Proof. reflexivity. Qed.

Lemma generateMeaningfulQuestion_not_mcq (topic : JsVal) (type : QType)
  (difficulty : Difficulty) (marks : Z) (subject : option string) (index : nat) :
  type <> Mcq ->
  Question.options
    (generateMeaningfulQuestion topic type difficulty marks subject index) = None.
Proof. destruct type; simpl; congruence. Qed.

(** ** Default marks *)

Lemma getDefaultMarks_known (t : QType) (d : Difficulty) :
  getDefaultMarks (JStr (typeName t)) (JStr (difficultyName d))
  = JNum (specDefaultMarks t d).
Proof. destruct t, d; reflexivity. Qed.

Lemma getDefaultMarks_falsy_difficulty (t : QType) (difficulty : JsVal) :
  truthy difficulty = false ->
  getDefaultMarks (JStr (typeName t)) difficulty = JNum (baseMarksOf t).
Proof.
  intros Hf.
  assert (Hk : objLookup difficultyMultiplier2 (toString difficulty) = Absent).
  { destruct difficulty as [| |[|]|z| |s]; simpl in Hf; try discriminate;
      try reflexivity.
    - apply negb_false_iff, Z.eqb_eq in Hf. subst z. reflexivity.
    - apply negb_false_iff, String.eqb_eq in Hf. subst s. reflexivity. }
  unfold getDefaultMarks. rewrite Hk. destruct t; reflexivity.
Qed.

(** [Math.round(7 * 1.5)] is 11: a half is rounded upwards. *)
Lemma getDefaultMarks_examples :
  getDefaultMarks (JStr "code") (JStr "medium") = JNum 11 /\
  getDefaultMarks (JStr "mcq") (JStr "medium") = JNum 3 /\
  getDefaultMarks (JStr "hots") (JStr "expert") = JNum 10 /\
  getDefaultMarks (JStr "essay") (JStr "easy") = JNaN /\
  getDefaultMarks (JStr "mcq") (JStr "toString") = JNaN.
Proof. repeat split. Qed.

Lemma specDefaultMarks_pos (t : QType) (d : Difficulty) :
  (0 < specDefaultMarks t d)%Z.
Proof. destruct t, d; reflexivity. Qed.

Lemma baseMarksOf_pos (t : QType) : (0 < baseMarksOf t)%Z.
Proof. destruct t; reflexivity. Qed.

(** ** What the normalizer fills in and what it leaves alone *)

(** What the normalizer does fill in: a falsy type becomes mcq and a falsy
    difficulty medium; falsy marks of a record that carries one of the seven
    types itself become the rounded product of the base marks of that type
    and the multiplier of the record's own difficulty, which is 1 when the
    record carries none. *)
Lemma processQuestion_defaults (topic : JsVal) (question : Question.t) :
  let p := processQuestion topic question in
  (truthy (Question.type question) = false -> Question.type p = JStr "mcq") /\
  (truthy (Question.difficulty question) = false ->
   Question.difficulty p = JStr "medium") /\
  (truthy (Question.marks question) = false ->
   forall t, Question.type question = JStr (typeName t) ->
     (forall d, Question.difficulty question = JStr (difficultyName d) ->
                Question.marks p = JNum (specDefaultMarks t d) /\
                (0 < specDefaultMarks t d)%Z) /\
     (truthy (Question.difficulty question) = false ->
      Question.marks p = JNum (baseMarksOf t) /\ (0 < baseMarksOf t)%Z)).
Proof.
  unfold processQuestion, jsOr. simpl. split; [|split].
  - intros ->. reflexivity.
  - intros ->. reflexivity.
  - intros -> t Ht. rewrite Ht. split.
    + intros d ->. split; [apply getDefaultMarks_known|].
      apply specDefaultMarks_pos.
    + intros Hd. split; [apply getDefaultMarks_falsy_difficulty, Hd|].
      apply baseMarksOf_pos.
Qed.

Lemma In_includes (arr : list JsVal) (v : JsVal) :
  In v arr -> includes arr v = true.
Proof.
  intros H. unfold includes. apply existsb_exists. exists v. split; [exact H|].
  destruct v as [| |b|z| |s]; simpl; try reflexivity.
  - destruct b; reflexivity.
  - apply Z.eqb_refl.
  - apply String.eqb_refl.
Qed.

Lemma jsOr_truthy (a b : JsVal) : truthy a = true -> jsOr a b = a.
Proof. unfold jsOr. intros ->. reflexivity. Qed.

Lemma nonEmptyStr_truthy (v : JsVal) : nonEmptyStr v -> truthy v = true.
Proof.
  intros [s [-> Hs]]. simpl. apply String.eqb_neq in Hs. rewrite Hs. reflexivity.
Qed.

Lemma processQuestion_canonical (topic : JsVal) (q : Question.t) :
  canonical q ->
  Question.subject q = JUndefined ->
  truthy (Question.topic q) = true ->
  Question.explanation q <> JStr "" ->
  (Question.type q = JStr "mcq" -> truthy (Question.correctAnswer q) = true) ->
  processQuestion topic q = q.
Proof.
  intros [Htext [[t Hty] [[d Hd] [[m [Hm Hpos]] [_ [Hbl [Hex [_ Hmcq]]]]]]]]
         Hsub Htopic Hexp Hca.
  destruct q as [text type difficulty marks topic' blooms expl opts ca subj].
  simpl in *. subst type difficulty marks subj.
  unfold processQuestion. simpl.
  rewrite (jsOr_truthy text) by (apply nonEmptyStr_truthy, Htext).
  rewrite (jsOr_truthy (JStr (typeName t))) by (destruct t; reflexivity).
  rewrite (jsOr_truthy (JStr (difficultyName d))) by (destruct d; reflexivity).
  rewrite (jsOr_truthy (JNum m))
    by (simpl; apply negb_true_iff, Z.eqb_neq; lia).
  rewrite (jsOr_truthy topic') by exact Htopic.
  assert (Hb : jsOr blooms JUndefined = blooms).
  { destruct Hbl as [->|Hbl]; [reflexivity|].
    apply jsOr_truthy, nonEmptyStr_truthy, Hbl. }
  assert (He : jsOr expl JUndefined = expl).
  { destruct Hex as [->|[s ->]]; [reflexivity|].
    apply jsOr_truthy. simpl. apply negb_true_iff, String.eqb_neq.
    intros ->. apply Hexp. reflexivity. }
  rewrite Hb, He.
  destruct (strictEq (JStr (typeName t)) (JStr "mcq")) eqn:Hs.
  - destruct Hmcq as [[options [Ho [Hlen Hin]]] _]. simpl in Ho, Hin.
    subst opts.
    assert (Hv : validateMCQOptions (Some options) = options).
    { unfold validateMCQOptions. rewrite Hlen. reflexivity. }
    rewrite Hv, (In_includes _ _ Hin), Hca; [reflexivity|].
    apply strictEq_eq in Hs. exact Hs.
  - destruct Hmcq as [-> ->]. reflexivity.
Qed.

(** ** Keys *)

Lemma lastChar_app (a b : string) (c : ascii) :
  lastChar b = Some c -> lastChar (a +:+ b) = Some c.
Proof.
  intros Hb. induction a as [|x a IH]; simpl; [exact Hb|].
  rewrite IH. reflexivity.
Qed.

Lemma digitsFuel_last (fuel n : nat) :
  lastChar (digitsFuel fuel n) = Some (digitChar n).
Proof.
  destruct fuel as [|f]; simpl; [reflexivity|].
  destruct (n <? 10)%nat; [reflexivity|].
  apply lastChar_app. reflexivity.
Qed.

Lemma numToString_last (z : Z) :
  exists n : nat, lastChar (numToString z) = Some (digitChar n).
Proof.
  unfold numToString, natToString. destruct (z <? 0)%Z.
  - eexists. apply (lastChar_app "-"). apply digitsFuel_last.
  - eexists. apply digitsFuel_last.
Qed.

Lemma digitChar_code (n : nat) : nat_of_ascii (digitChar n) = (48 + n mod 10)%nat.
Proof.
  unfold digitChar. apply nat_ascii_embedding.
  pose proof (Nat.mod_upper_bound n 10). lia.
Qed.

Lemma letter_not_digit (c : ascii) (n : nat) :
  (58 <= nat_of_ascii c)%nat -> Some c <> Some (digitChar n).
Proof.
  intros Hc Heq. injection Heq as ->.
  rewrite digitChar_code in Hc.
  pose proof (Nat.mod_upper_bound n 10). lia.
Qed.

Lemma numToString_not_typeName (z : Z) (t : QType) : numToString z <> typeName t.
Proof.
  intros Heq. destruct (numToString_last z) as [n Hn]. rewrite Heq in Hn.
  destruct t; simpl in Hn; revert Hn; apply letter_not_digit; vm_compute; lia.
Qed.

Lemma numToString_not_difficultyName (z : Z) (d : Difficulty) :
  numToString z <> difficultyName d.
Proof.
  intros Heq. destruct (numToString_last z) as [n Hn]. rewrite Heq in Hn.
  destruct d; simpl in Hn; revert Hn; apply letter_not_digit; vm_compute; lia.
Qed.

(** A scalar whose property key is a type name is that very string. *)
Lemma toString_typeName (v : JsVal) (t : QType) :
  toString v = typeName t -> v = JStr (typeName t).
Proof.
  destruct v as [| |[|]|z| |s]; simpl; intros H;
    try (destruct t; discriminate).
  - exfalso. eapply numToString_not_typeName; eauto.
  - congruence.
Qed.

Lemma toString_difficultyName (v : JsVal) (d : Difficulty) :
  toString v = difficultyName d -> v = JStr (difficultyName d).
Proof.
  destruct v as [| |[|]|z| |s]; simpl; intros H;
    try (destruct d; discriminate).
  - exfalso. eapply numToString_not_difficultyName; eauto.
  - congruence.
Qed.

Lemma noHyphen_no_split (a b d : string) :
  noHyphen d = true -> d <> a +:+ String "-" b.
Proof.
  revert d. induction a as [|x a IH]; intros d Hd Heq; subst d; simpl in Hd.
  - discriminate.
  - apply andb_true_iff in Hd. destruct Hd as [_ Hd].
    eapply IH; [exact Hd | reflexivity].
Qed.

Lemma key_split (s1 s2 t d : string) :
  noHyphen t = true -> noHyphen d = true ->
  s1 +:+ "-" +:+ s2 = t +:+ "-" +:+ d -> s1 = t /\ s2 = d.
Proof.
  revert s1. induction t as [|c t IH]; intros s1 Ht Hd Heq.
  - destruct s1 as [|x s1]; simpl in Heq.
    + injection Heq as Heq. auto.
    + injection Heq as Hx Heq. exfalso.
      eapply noHyphen_no_split; [exact Hd | exact (eq_sym Heq)].
  - simpl in Ht. apply andb_true_iff in Ht. destruct Ht as [Hc Ht].
    destruct s1 as [|x s1]; simpl in Heq.
    + injection Heq as Hx _. subst c. discriminate.
    + injection Heq as Hx Heq. subst x.
      destruct (IH s1 Ht Hd Heq) as [H1 H2]. subst. auto.
Qed.

Lemma typeName_inj (a b : QType) : typeName a = typeName b -> a = b.
Proof. destruct a, b; simpl; congruence. Qed.

Lemma difficultyName_inj (a b : Difficulty) :
  difficultyName a = difficultyName b -> a = b.
Proof. destruct a, b; simpl; congruence. Qed.

Lemma isOf_spec (t : QType) (d : Difficulty) (q : Question.t) :
  isOf t d q = true <->
  Question.type q = JStr (typeName t) /\
  Question.difficulty q = JStr (difficultyName d).
Proof.
  unfold isOf. rewrite andb_true_iff, !strictEq_str. reflexivity.
Qed.

(** The key of the counting map identifies the bucket. *)
Lemma questionKey_bucket (distItem : DistItem.t) (q : Question.t) :
  (questionKey q =? distKey distItem) = inBucket distItem q.
Proof.
  unfold inBucket.
  destruct (isOf _ _ q) eqn:Hb.
  - apply isOf_spec in Hb. destruct Hb as [Ht Hd].
    unfold questionKey, distKey. rewrite Ht, Hd. simpl. apply String.eqb_refl.
  - apply String.eqb_neq. intros Heq.
    unfold questionKey, distKey in Heq.
    apply key_split in Heq.
    + destruct Heq as [Ht Hd].
      apply toString_typeName in Ht. apply toString_difficultyName in Hd.
      assert (isOf (DistItem.type distItem) (DistItem.difficulty distItem) q = true)
        by (apply isOf_spec; auto).
      congruence.
    + destruct (DistItem.type distItem); reflexivity.
    + destruct (DistItem.difficulty distItem); reflexivity.
Qed.

(** ** Lists *)

Lemma filter_all {A} (f : A -> bool) (l : list A) :
  (forall x, In x l -> f x = true) -> List.filter f l = l.
Proof.
  induction l as [|a l IH]; intros H; simpl; [reflexivity|].
  rewrite (H a) by (left; reflexivity).
  f_equal. apply IH. intros x Hx. apply H. right. exact Hx.
Qed.

Lemma filter_none {A} (f : A -> bool) (l : list A) :
  (forall x, In x l -> f x = false) -> List.filter f l = [].
Proof.
  induction l as [|a l IH]; intros H; simpl; [reflexivity|].
  rewrite (H a) by (left; reflexivity).
  apply IH. intros x Hx. apply H. right. exact Hx.
Qed.

Lemma filter_filter_and {A} (f g : A -> bool) (l : list A) :
  List.filter f (List.filter g l) = List.filter (fun x => g x && f x) l.
Proof.
  induction l as [|a l IH]; simpl; [reflexivity|].
  destruct (g a); simpl; [destruct (f a)|]; rewrite ?IH; reflexivity.
Qed.

Lemma filter_filter_imp {A} (f g : A -> bool) (l : list A) :
  (forall x, f x = true -> g x = true) ->
  List.filter f (List.filter g l) = List.filter f l.
Proof.
  intros H. rewrite filter_filter_and. apply List.filter_ext.
  intros x. destruct (f x) eqn:Hf.
  - rewrite (H x Hf). reflexivity.
  - apply andb_false_r.
Qed.

Lemma filter_concat {A} (f : A -> bool) (ls : list (list A)) :
  List.filter f (concat ls) = concat (map (List.filter f) ls).
Proof.
  induction ls as [|l ls IH]; simpl; [reflexivity|].
  rewrite List.filter_app, IH. reflexivity.
Qed.


(** ** The indexing passes of the reconciler *)

Lemma countStep_fold (gen : list Question.t) (m : gmap string nat) (k : string) :
  default 0%nat (fold_left countStep gen m !! k)
  = (default 0%nat (m !! k)
     + length (List.filter (fun q => (questionKey q =? k)%string) gen))%nat.
Proof.
  revert m. induction gen as [|q gen IH]; intros m; simpl; [lia|].
  rewrite IH. unfold countStep.
  destruct (questionKey q =? k) eqn:Hk.
  - apply String.eqb_eq in Hk. subst k. rewrite lookup_insert_eq. simpl. lia.
  - apply String.eqb_neq in Hk. rewrite lookup_insert_ne by exact Hk. lia.
Qed.

(** [currentCount] is the number of questions of the item's bucket. *)
Lemma currentCount_spec (gen : list Question.t) (distItem : DistItem.t) :
  default 0%nat (countQuestions gen !! distKey distItem)
  = length (List.filter (inBucket distItem) gen).
Proof.
  unfold countQuestions. rewrite countStep_fold, lookup_empty. simpl.
  f_equal. apply List.filter_ext. intros q. apply questionKey_bucket.
Qed.

Lemma getList_insert (org : gmap string (list Question.t)) (k0 k : string)
  (l : list Question.t) :
  getList (<[k0 := l]> org) k = if k0 =? k then l else getList org k.
Proof.
  unfold getList. destruct (k0 =? k) eqn:Hk.
  - apply String.eqb_eq in Hk. subst. rewrite lookup_insert_eq. reflexivity.
  - apply String.eqb_neq in Hk. rewrite lookup_insert_ne by exact Hk. reflexivity.
Qed.

Lemma organizeStep_getList (m org : gmap string (list Question.t))
  (q : Question.t) (k : string) :
  organizeStep m q = Ok org ->
  getList org k
  = getList m k ++ (if toString (Question.type q) =? k then [q] else []).
Proof.
  unfold organizeStep, organizedLookup.
  destruct (m !! toString (Question.type q)) as [l|] eqn:Hm.
  - intros [= <-]. rewrite getList_insert.
    destruct (toString (Question.type q) =? k) eqn:Hk.
    + apply String.eqb_eq in Hk. subst k. unfold getList. rewrite Hm. reflexivity.
    + rewrite app_nil_r. reflexivity.
  - destruct (isInherited _); [discriminate|].
    intros [= <-]. rewrite getList_insert.
    destruct (toString (Question.type q) =? k) eqn:Hk.
    + apply String.eqb_eq in Hk. subst k. unfold getList. rewrite Hm. reflexivity.
    + rewrite app_nil_r. reflexivity.
Qed.

Lemma organize_getList (gen : list Question.t) :
  forall (m org : gmap string (list Question.t)) (k : string),
    organize m gen = Ok org ->
    getList org k
    = getList m k
      ++ List.filter (fun q => toString (Question.type q) =? k) gen.
Proof.
  induction gen as [|q gen IH]; intros m org k H; simpl in *.
  - injection H as <-. rewrite app_nil_r. reflexivity.
  - destruct (organizeStep m q) as [m'|msg] eqn:Hs; [|discriminate].
    rewrite (IH _ _ k H), (organizeStep_getList _ _ _ k Hs), <- app_assoc.
    destruct (toString (Question.type q) =? k); reflexivity.
Qed.

(** The first pass completes when no type is an inherited property name. *)
Lemma organize_total (gen : list Question.t) :
  forall m : gmap string (list Question.t),
    (forall q, In q gen -> isInherited (toString (Question.type q)) = false) ->
    exists org, organize m gen = Ok org.
Proof.
  induction gen as [|q gen IH]; intros m H; simpl.
  - eauto.
  - assert (Hq : isInherited (toString (Question.type q)) = false)
      by (apply H; left; reflexivity).
    unfold organizeStep, organizedLookup. rewrite Hq.
    destruct (m !! toString (Question.type q));
      apply IH; intros x Hx; apply H; right; exact Hx.
Qed.

(** It raises as soon as one type is an inherited property name. *)
Lemma organize_throw (gen : list Question.t) :
  forall m : gmap string (list Question.t),
    (forall k, isInherited k = true -> m !! k = None) ->
    (exists q, In q gen /\ isInherited (toString (Question.type q)) = true) ->
    exists msg, organize m gen = Throw msg.
Proof.
  induction gen as [|q gen IH]; intros m Hm [x [Hx Hi]]; simpl in *.
  - contradiction.
  - unfold organizeStep, organizedLookup.
    destruct (isInherited (toString (Question.type q))) eqn:Hq.
    + rewrite (Hm _ Hq). eauto.
    + assert (Hrest : exists q', In q' gen
                /\ isInherited (toString (Question.type q')) = true).
      { destruct Hx as [->|Hx]; [congruence|eauto]. }
      assert (Hins : forall l k, isInherited k = true ->
                <[toString (Question.type q) := l]> m !! k = None).
      { intros l k Hk. rewrite lookup_insert_ne; [apply Hm, Hk|].
        intros Heq. subst k. congruence. }
      destruct (m !! toString (Question.type q)); apply IH; auto.
Qed.

(** ** Synthesis *)

Lemma uniqueLoop_shape (fuel : nat) :
  forall (attempts : nat) (topic : JsVal) (distItem : DistItem.t)
    (subject : option string) (i : nat) (existingTexts : list JsVal),
  exists v : JsVal,
    uniqueLoop fuel attempts topic distItem subject i existingTexts
    = setText
        (generateMeaningfulQuestion topic (DistItem.type distItem)
           (DistItem.difficulty distItem) (DistItem.marks distItem) subject i)
        v.
Proof.
  induction fuel as [|fuel IH]; intros attempts topic distItem subject i texts;
    simpl.
  - destruct (_ && (3 <? S attempts)%nat); [eexists; reflexivity|].
    destruct (_ && (S attempts <? 10)%nat); eexists; reflexivity.
  - destruct (_ && (3 <? S attempts)%nat); [eexists; reflexivity|].
    destruct (_ && (S attempts <? 10)%nat); [apply IH|eexists; reflexivity].
Qed.

(** One iteration of the uniqueness loop, by cases on the collision test. *)
Lemma uniqueLoop_S (fuel attempts : nat) (topic : JsVal) (distItem : DistItem.t)
  (subject : option string) (i : nat) (existingTexts : list JsVal) :
  let candidate :=
    generateMeaningfulQuestion topic (DistItem.type distItem)
      (DistItem.difficulty distItem) (DistItem.marks distItem) subject i in
  uniqueLoop (S fuel) attempts topic distItem subject i existingTexts
  = if includes existingTexts (Question.text candidate) then
      if (3 <? S attempts)%nat then
        setText candidate
          (variantText subject (Question.text candidate) (S attempts))
      else if (S attempts <? 10)%nat then
        uniqueLoop fuel (S attempts) topic distItem subject i existingTexts
      else candidate
    else candidate.
Proof.
  intros candidate.
  change (uniqueLoop (S fuel) attempts topic distItem subject i existingTexts)
    with (if negb (negb (includes existingTexts (Question.text candidate)))
             && (3 <? S attempts)%nat
          then setText candidate
                 (variantText subject (Question.text candidate) (S attempts))
          else if negb (negb (includes existingTexts (Question.text candidate)))
                  && (S attempts <? 10)%nat
               then uniqueLoop fuel (S attempts) topic distItem subject i
                      existingTexts
               else candidate).
  destruct (includes existingTexts (Question.text candidate)); reflexivity.
Qed.

(** The loop is deterministic: a candidate that collides does so on every
    attempt, and the forced branch is taken on the fourth, so the suffix it
    appends is always "(Variant 4)". *)
Lemma uniqueLoop_result (topic : JsVal) (distItem : DistItem.t)
  (subject : option string) (i : nat) (existingTexts : list JsVal) :
  let candidate :=
    generateMeaningfulQuestion topic (DistItem.type distItem)
      (DistItem.difficulty distItem) (DistItem.marks distItem) subject i in
  uniqueLoop 10 0 topic distItem subject i existingTexts
  = if includes existingTexts (Question.text candidate)
    then setText candidate (variantText subject (Question.text candidate) 4)
    else candidate.
Proof.
  intros candidate. subst candidate.
  rewrite uniqueLoop_S.
  destruct (includes existingTexts _) eqn:Hc; [|reflexivity].
  change (3 <? 1)%nat with false. change (1 <? 10)%nat with true. cbv iota.
  rewrite uniqueLoop_S, Hc.
  change (3 <? 2)%nat with false. change (2 <? 10)%nat with true. cbv iota.
  rewrite uniqueLoop_S, Hc.
  change (3 <? 3)%nat with false. change (3 <? 10)%nat with true. cbv iota.
  rewrite uniqueLoop_S, Hc. reflexivity.
Qed.

(** The text of a synthesized question: the candidate's, or the candidate's
    with the suffix when it collides; the suffixed text is not compared with
    the texts already seen. *)
Lemma synthesize_text (topic : JsVal) (distItem : DistItem.t)
  (subject : option string) (i : nat) (existingTexts : list JsVal) :
  let candidate :=
    JStr (selectQuestionText (DistItem.type distItem)
            (DistItem.difficulty distItem) subject i) in
  Question.text (synthesize topic distItem subject i existingTexts)
  = if includes existingTexts candidate
    then variantText subject candidate 4
    else candidate.
Proof.
  intros candidate. unfold synthesize. rewrite uniqueLoop_result.
  change (Question.text
            (generateMeaningfulQuestion topic (DistItem.type distItem)
               (DistItem.difficulty distItem) (DistItem.marks distItem)
               subject i))
    with candidate.
  destruct (includes existingTexts candidate);
    destruct subject as [s|]; try destruct (negb (s =? "")); reflexivity.
Qed.

(** A synthesized question is the generator's, with its text possibly
    rewritten, the requested marks, and the subject when one is given. *)
Lemma synthesize_shape (topic : JsVal) (distItem : DistItem.t)
  (subject : option string) (i : nat) (existingTexts : list JsVal) :
  exists v s : JsVal,
    synthesize topic distItem subject i existingTexts
    = setSubject
        (setMarks
           (setText
              (generateMeaningfulQuestion topic (DistItem.type distItem)
                 (DistItem.difficulty distItem) (DistItem.marks distItem)
                 subject i)
              v)
           (JNum (DistItem.marks distItem)))
        s.
Proof.
  unfold synthesize.
  destruct (uniqueLoop_shape 10 0 topic distItem subject i existingTexts)
    as [v ->].
  exists v.
  destruct subject as [s|]; [destruct (negb (s =? ""))|];
    eexists; reflexivity.
Qed.

Lemma synthesize_type (topic : JsVal) (distItem : DistItem.t)
  (subject : option string) (i : nat) (existingTexts : list JsVal) :
  Question.type (synthesize topic distItem subject i existingTexts)
  = JStr (typeName (DistItem.type distItem)).
Proof.
  destruct (synthesize_shape topic distItem subject i existingTexts)
    as [v [s ->]]. reflexivity.
Qed.

Lemma synthesize_difficulty (topic : JsVal) (distItem : DistItem.t)
  (subject : option string) (i : nat) (existingTexts : list JsVal) :
  Question.difficulty (synthesize topic distItem subject i existingTexts)
  = JStr (difficultyName (DistItem.difficulty distItem)).
Proof.
  destruct (synthesize_shape topic distItem subject i existingTexts)
    as [v [s ->]]. reflexivity.
Qed.

Lemma synthesize_marks (topic : JsVal) (distItem : DistItem.t)
  (subject : option string) (i : nat) (existingTexts : list JsVal) :
  Question.marks (synthesize topic distItem subject i existingTexts)
  = JNum (DistItem.marks distItem).
Proof.
  destruct (synthesize_shape topic distItem subject i existingTexts)
    as [v [s ->]]. reflexivity.
Qed.

Lemma synthesize_inBucket (topic : JsVal) (distItem : DistItem.t)
  (subject : option string) (i : nat) (existingTexts : list JsVal) :
  inBucket distItem (synthesize topic distItem subject i existingTexts) = true.
Proof.
  apply isOf_spec. split; [apply synthesize_type|apply synthesize_difficulty].
Qed.

Lemma synthesize_mcq (topic : JsVal) (distItem : DistItem.t)
  (subject : option string) (i : nat) (existingTexts : list JsVal) :
  DistItem.type distItem = Mcq ->
  mcqWellFormed (synthesize topic distItem subject i existingTexts).
Proof.
  intros Hty.
  destruct (synthesize_shape topic distItem subject i existingTexts)
    as [v [s ->]].
  rewrite Hty.
  destruct (generateMeaningfulQuestion_mcq topic (DistItem.difficulty distItem)
              (DistItem.marks distItem) subject i) as [opts [Ho [Hl Hi]]].
  exists opts. simpl in *. auto.
Qed.

Lemma synthesized_length (remaining : nat) :
  forall (i : nat) (topic : JsVal) (distItem : DistItem.t)
    (subject : option string) (existingTexts : list JsVal),
    length (synthesized remaining i topic distItem subject existingTexts)
    = remaining.
Proof.
  induction remaining as [|n IH]; intros; simpl; [reflexivity|].
  rewrite IH. reflexivity.
Qed.

Lemma reconciledBucket_length (generated : list Question.t) (topic : JsVal)
  (subject : option string) (distItem : DistItem.t) :
  length (reconciledBucket generated topic subject distItem)
  = DistItem.count distItem.
Proof.
  unfold reconciledBucket.
  destruct (_ <? _)%nat eqn:Hlt.
  - apply Nat.ltb_lt in Hlt. rewrite length_app, synthesized_length. lia.
  - apply Nat.ltb_ge in Hlt. rewrite length_take. lia.
Qed.

Lemma synthesized_In (remaining : nat) :
  forall (i : nat) (topic : JsVal) (distItem : DistItem.t)
    (subject : option string) (existingTexts : list JsVal) (q : Question.t),
    In q (synthesized remaining i topic distItem subject existingTexts) ->
    exists j texts, q = synthesize topic distItem subject j texts.
Proof.
  induction remaining as [|n IH]; intros i topic distItem subject texts q H;
    simpl in H; [contradiction|].
  destruct H as [<-|H]; [eauto|]. eapply IH, H.
Qed.

Lemma getList_pushOrganized (org : gmap string (list Question.t))
  (k0 k : string) (q : Question.t) :
  getList (pushOrganized org k0 q) k
  = if k0 =? k then getList org k ++ [q] else getList org k.
Proof.
  unfold pushOrganized. rewrite getList_insert.
  destruct (k0 =? k) eqn:Hk; [|reflexivity].
  apply String.eqb_eq in Hk. subst. reflexivity.
Qed.

(** The deficit loop appends the synthesized questions to the array of the
    item's type and touches no other array. *)
Lemma fillMissing_getList (remaining : nat) :
  forall (i : nat) (topic : JsVal) (distItem : DistItem.t)
    (subject : option string) (org : gmap string (list Question.t))
    (existingTexts : list JsVal) (k : string),
    getList (fillMissing remaining i topic distItem subject org existingTexts) k
    = if typeName (DistItem.type distItem) =? k
      then getList org k
           ++ synthesized remaining i topic distItem subject existingTexts
      else getList org k.
Proof.
  induction remaining as [|n IH]; intros; simpl.
  - destruct (_ =? k); [rewrite app_nil_r|]; reflexivity.
  - rewrite IH, getList_pushOrganized.
    destruct (_ =? k); [rewrite <- app_assoc|]; reflexivity.
Qed.

(** ** One item of the distribution *)

Lemma In_take {A} (n : nat) (l : list A) (x : A) : In x (take n l) -> In x l.
Proof.
  revert n. induction l as [|a l IH]; intros [|n]; simpl; try contradiction.
  intros [->|H]; [left; reflexivity|right; eapply IH, H].
Qed.

Lemma strictEq_refl (v : JsVal) : v <> JNaN -> strictEq v v = true.
Proof.
  destruct v; simpl; intros H; try reflexivity.
  - destruct b; reflexivity.
  - apply Z.eqb_refl.
  - congruence.
  - apply String.eqb_refl.
Qed.

(** With pairwise distinct texts, matching by text selects the kept
    questions and nothing else. *)
Lemma filter_textIn_take (b : list Question.t) (n : nat) :
  List.NoDup (map Question.text b) ->
  (forall q, In q b -> Question.text q <> JNaN) ->
  List.filter (textIn (take n b)) b = take n b.
Proof.
  intros Hnd Hnan.
  rewrite <- (take_drop n b) at 2.
  rewrite List.filter_app, filter_all, filter_none; [apply app_nil_r| |].
  - intros q Hq. destruct (textIn (take n b) q) eqn:Ht; [|reflexivity].
    exfalso. unfold textIn in Ht. apply existsb_exists in Ht.
    destruct Ht as [keep [Hk Heq]]. apply strictEq_eq in Heq.
    rewrite <- (take_drop n b), map_app in Hnd.
    apply List.NoDup_app_remove_r in Hnd as Hnd1.
    assert (Hdis : forall x, In x (map Question.text (take n b)) ->
                             ~ In x (map Question.text (drop n b))).
    { clear - Hnd. induction (map Question.text (take n b)) as [|y l IH];
        simpl in *; [contradiction|].
      apply List.NoDup_cons_iff in Hnd. destruct Hnd as [Hy Hnd].
      intros x [->|Hx] Hin; [apply Hy, in_or_app; auto|].
      eapply IH; eauto. }
    apply (Hdis (Question.text keep)); [apply List.in_map, Hk|].
    rewrite Heq. apply List.in_map, Hq.
  - intros q Hq. unfold textIn. apply existsb_exists.
    exists q. split; [exact Hq|].
    apply strictEq_refl, Hnan. eapply In_take, Hq.
Qed.

Section ReconcileItem.
Variable generatedQuestions : list Question.t.
Variable topic : JsVal.
Variable subject : option string.

Local Abbreviation step :=
  (reconcileItem generatedQuestions (countQuestions generatedQuestions)
     topic subject).

Lemma reconcileItem_other_key (org : gmap string (list Question.t))
  (distItem : DistItem.t) (k : string) :
  typeName (DistItem.type distItem) <> k ->
  getList (step org distItem) k = getList org k.
Proof.
  intros Hk. apply String.eqb_neq in Hk.
  unfold reconcileItem.
  destruct (_ <? DistItem.count distItem)%nat.
  - rewrite fillMissing_getList, Hk. reflexivity.
  - destruct (DistItem.count distItem <? _)%nat; [|reflexivity].
    destruct (org !! typeName (DistItem.type distItem)); [|reflexivity].
    rewrite getList_insert, Hk. reflexivity.
Qed.

(** Where the questions of an array come from after one item. *)
Lemma reconcileItem_elem (org : gmap string (list Question.t))
  (distItem : DistItem.t) (k : string) (q : Question.t) :
  In q (getList (step org distItem) k) ->
  In q (getList org k) \/
  (k = typeName (DistItem.type distItem) /\
   (In q (List.filter (inBucket distItem) generatedQuestions) \/
    exists i texts, q = synthesize topic distItem subject i texts)).
Proof.
  unfold reconcileItem.
  destruct (_ <? DistItem.count distItem)%nat.
  - rewrite fillMissing_getList.
    destruct (_ =? k) eqn:Hk; [|auto].
    apply String.eqb_eq in Hk. intros H. apply in_app_or in H.
    destruct H as [H|H]; [auto|].
    right. split; [auto|]. right. eapply synthesized_In, H.
  - destruct (DistItem.count distItem <? _)%nat; [|auto].
    destruct (org !! typeName (DistItem.type distItem)) as [ofType|] eqn:Ho;
      [|auto].
    rewrite getList_insert.
    destruct (_ =? k) eqn:Hk; [|auto].
    apply String.eqb_eq in Hk. subst k.
    assert (Hold : getList org (typeName (DistItem.type distItem)) = ofType)
      by (unfold getList; rewrite Ho; reflexivity).
    rewrite Hold. unfold trimBucket.
    destruct (_ <? _)%nat.
    + intros H. apply in_app_or in H. destruct H as [H|H].
      * apply List.filter_In in H. tauto.
      * apply List.filter_In in H. destruct H as [H _].
        apply In_take in H. auto.
    + intros H. apply List.filter_In in H. tauto.
Qed.

(** An item leaves every other bucket as it was. *)
Lemma reconcileItem_other_bucket (org : gmap string (list Question.t))
  (distItem : DistItem.t) (t : QType) (d : Difficulty) :
  (t, d) <> bucketOf distItem ->
  List.filter (isOf t d) (getList (step org distItem) (typeName t))
  = List.filter (isOf t d) (getList org (typeName t)).
Proof.
  intros Hne.
  destruct (decide (DistItem.type distItem = t)) as [Ht|Ht].
  2:{ rewrite reconcileItem_other_key; [reflexivity|].
      intros H. apply typeName_inj in H. contradiction. }
  assert (Hd : DistItem.difficulty distItem <> d).
  { intros Hd. apply Hne. unfold bucketOf. congruence. }
  assert (F : forall q, inBucket distItem q = true -> isOf t d q = false).
  { intros q Hq. apply isOf_spec in Hq. destruct Hq as [_ Hq].
    destruct (isOf t d q) eqn:Hb; [|reflexivity].
    apply isOf_spec in Hb. destruct Hb as [_ Hb].
    rewrite Hq in Hb. injection Hb as Hb. apply difficultyName_inj in Hb.
    contradiction. }
  assert (F' : forall q, isOf t d q = true -> inBucket distItem q = false).
  { intros q Hq. destruct (inBucket distItem q) eqn:Hb; [|reflexivity].
    rewrite (F q Hb) in Hq. discriminate. }
  subst t. unfold reconcileItem.
  destruct (_ <? DistItem.count distItem)%nat.
  - rewrite fillMissing_getList, String.eqb_refl, List.filter_app.
    rewrite (filter_none (isOf _ d) (synthesized _ _ _ _ _ _));
      [apply app_nil_r|].
    intros q Hq. apply synthesized_In in Hq. destruct Hq as [j [texts ->]].
    apply F, synthesize_inBucket.
  - destruct (DistItem.count distItem <? _)%nat; [|reflexivity].
    destruct (org !! typeName (DistItem.type distItem)) as [ofType|] eqn:Ho;
      [|reflexivity].
    rewrite getList_insert, String.eqb_refl.
    assert (Hold : getList org (typeName (DistItem.type distItem)) = ofType)
      by (unfold getList; rewrite Ho; reflexivity).
    rewrite Hold. unfold trimBucket.
    assert (Hkept : forall g : Question.t -> bool,
               List.filter (isOf (DistItem.type distItem) d)
                 (List.filter (fun q => negb (inBucket distItem q) || g q) ofType)
               = List.filter (isOf (DistItem.type distItem) d) ofType).
    { intros g. apply filter_filter_imp. intros q Hq.
      rewrite (F' q Hq). reflexivity. }
    destruct (_ <? _)%nat; [|apply Hkept].
    rewrite List.filter_app, Hkept.
    match goal with
    | |- _ ++ ?added = _ => assert (Hadded : added = [])
    end.
    { apply filter_none. intros q Hq.
      apply List.filter_In in Hq. destruct Hq as [Hq _].
      apply In_take, List.filter_In in Hq. apply F, Hq. }
    rewrite Hadded. apply app_nil_r.
Qed.

(** An item brings its own bucket to what the distribution asks for: the
    input questions of the bucket followed by synthesized ones when the
    bucket is short, its first questions when it is long and the texts of
    its questions are pairwise distinct. *)
Lemma reconcileItem_own_bucket (org : gmap string (list Question.t))
  (distItem : DistItem.t) :
  let bucket := List.filter (inBucket distItem) generatedQuestions in
  List.filter (inBucket distItem)
    (getList org (typeName (DistItem.type distItem))) = bucket ->
  ((length bucket <= DistItem.count distItem)%nat \/
   (List.NoDup (map Question.text bucket) /\
    forall q, In q bucket -> Question.text q <> JNaN)) ->
  List.filter (inBucket distItem)
    (getList (step org distItem) (typeName (DistItem.type distItem)))
  = reconciledBucket generatedQuestions topic subject distItem.
Proof.
  intros bucket Hinv Hcond.
  unfold reconcileItem, reconciledBucket.
  rewrite currentCount_spec. fold bucket.
  destruct (length bucket <? DistItem.count distItem)%nat eqn:Hlt.
  - rewrite fillMissing_getList, String.eqb_refl, List.filter_app, Hinv.
    rewrite (filter_all (inBucket distItem) (synthesized _ _ _ _ _ _));
      [reflexivity|].
    intros q Hq. apply synthesized_In in Hq. destruct Hq as [j [texts ->]].
    apply synthesize_inBucket.
  - apply Nat.ltb_ge in Hlt.
    destruct (DistItem.count distItem <? length bucket)%nat eqn:Hgt.
    2:{ apply Nat.ltb_ge in Hgt. rewrite Hinv, take_ge by lia. reflexivity. }
    apply Nat.ltb_lt in Hgt.
    destruct Hcond as [Hle|[Hnd Hnan]]; [lia|].
    destruct (org !! typeName (DistItem.type distItem)) as [ofType|] eqn:Ho.
    2:{ exfalso. unfold getList in Hinv. rewrite Ho in Hinv. simpl in Hinv.
        rewrite <- Hinv in Hgt. simpl in Hgt. lia. }
    assert (Hold : getList org (typeName (DistItem.type distItem)) = ofType)
      by (unfold getList; rewrite Ho; reflexivity).
    rewrite Hold in Hinv.
    rewrite getList_insert, String.eqb_refl. unfold trimBucket. fold bucket.
    assert (Hex :
      List.filter (inBucket distItem)
        (List.filter
           (fun q => negb (inBucket distItem q)
                     || textIn (take (DistItem.count distItem) bucket) q)
           ofType)
      = take (DistItem.count distItem) bucket).
    { rewrite filter_filter_and.
      rewrite (List.filter_ext _
                 (fun q => inBucket distItem q
                           && textIn (take (DistItem.count distItem) bucket) q)).
      - rewrite <- filter_filter_and, Hinv.
        apply filter_textIn_take; assumption.
      - intros q. destruct (inBucket distItem q); simpl;
          [apply andb_true_r|reflexivity]. }
    rewrite Hex, Nat.ltb_irrefl. exact Hex.
Qed.

End ReconcileItem.

(** ** The whole distribution *)

Section Reconcile.
Variable generatedQuestions : list Question.t.
Variable topic : JsVal.
Variable subject : option string.

Local Abbreviation step :=
  (reconcileItem generatedQuestions (countQuestions generatedQuestions)
     topic subject).

Lemma fold_other_bucket (dist : list DistItem.t) (t : QType) (d : Difficulty) :
  forall org : gmap string (list Question.t),
    (forall distItem, In distItem dist -> (t, d) <> bucketOf distItem) ->
    List.filter (isOf t d) (getList (fold_left step dist org) (typeName t))
    = List.filter (isOf t d) (getList org (typeName t)).
Proof.
  induction dist as [|distItem dist IH]; intros org H; simpl; [reflexivity|].
  rewrite IH by (intros x Hx; apply H; right; exact Hx).
  apply reconcileItem_other_bucket. apply H. left. reflexivity.
Qed.

Lemma fold_elem (dist : list DistItem.t) :
  forall (org : gmap string (list Question.t)) (k : string) (q : Question.t),
    In q (getList (fold_left step dist org) k) ->
    In q (getList org k) \/
    exists distItem,
      In distItem dist /\ k = typeName (DistItem.type distItem) /\
      (In q (List.filter (inBucket distItem) generatedQuestions) \/
       exists i texts, q = synthesize topic distItem subject i texts).
Proof.
  induction dist as [|distItem dist IH]; intros org k q H; simpl in *; [auto|].
  apply IH in H. destruct H as [H|[x [Hx H]]].
  - apply reconcileItem_elem in H. destruct H as [H|[Hk H]]; [auto|].
    right. exists distItem. auto.
  - right. exists x. auto.
Qed.

Lemma fold_own_bucket (dist : list DistItem.t) (distItem : DistItem.t)
  (org : gmap string (list Question.t)) :
  let bucket := List.filter (inBucket distItem) generatedQuestions in
  List.NoDup (map bucketOf dist) ->
  In distItem dist ->
  List.filter (inBucket distItem)
    (getList org (typeName (DistItem.type distItem))) = bucket ->
  ((length bucket <= DistItem.count distItem)%nat \/
   (List.NoDup (map Question.text bucket) /\
    forall q, In q bucket -> Question.text q <> JNaN)) ->
  List.filter (inBucket distItem)
    (getList (fold_left step dist org) (typeName (DistItem.type distItem)))
  = reconciledBucket generatedQuestions topic subject distItem.
Proof.
  intros bucket Hnd Hin Hinv Hcond.
  apply List.in_split in Hin. destruct Hin as [l1 [l2 ->]].
  rewrite map_app in Hnd. simpl in Hnd.
  assert (H2 : ~ In (bucketOf distItem) (map bucketOf l2)).
  { apply List.NoDup_app_remove_l in Hnd.
    apply List.NoDup_cons_iff in Hnd. tauto. }
  assert (H1 : ~ In (bucketOf distItem) (map bucketOf l1)).
  { apply List.NoDup_remove_2 in Hnd. intros H. apply Hnd.
    apply in_or_app. auto. }
  rewrite fold_left_app. simpl.
  unfold inBucket at 1.
  rewrite fold_other_bucket.
  2:{ intros x Hx Heq. apply H2.
      change (bucketOf distItem = bucketOf x) in Heq.
      rewrite Heq. apply List.in_map, Hx. }
  apply reconcileItem_own_bucket; [|exact Hcond].
  unfold inBucket at 1.
  rewrite fold_other_bucket; [exact Hinv|].
  intros x Hx Heq. apply H1.
  change (bucketOf distItem = bucketOf x) in Heq.
  rewrite Heq. apply List.in_map, Hx.
Qed.

Lemma flatten_In (org : gmap string (list Question.t)) (q : Question.t) :
  In q (flatten org) <-> exists k, In k typeOrder /\ In q (getList org k).
Proof.
  unfold flatten. rewrite List.in_concat. split.
  - intros [l [Hl Hq]]. apply List.in_map_iff in Hl.
    destruct Hl as [k [<- Hk]]. exists k. auto.
  - intros [k [Hk Hq]]. exists (getList org k). split; [|exact Hq].
    apply List.in_map_iff. exists k. auto.
Qed.

Lemma flatten_bucket (org : gmap string (list Question.t)) (t : QType)
  (d : Difficulty) :
  keysAgree org ->
  List.filter (isOf t d) (flatten org)
  = List.filter (isOf t d) (getList org (typeName t)).
Proof.
  intros Hk.
  assert (H : forall k, k <> typeName t ->
                        List.filter (isOf t d) (getList org k) = []).
  { intros k Hne. apply filter_none. intros q Hq.
    destruct (isOf t d q) eqn:Hb; [|reflexivity].
    apply isOf_spec in Hb. destruct Hb as [Hb _].
    apply Hk in Hq. rewrite Hb in Hq. simpl in Hq. congruence. }
  unfold flatten. rewrite filter_concat. simpl.
  fold (getList org "mcq") (getList org "short") (getList org "long")
    (getList org "diagram") (getList org "code") (getList org "hots")
    (getList org "case_study").
  destruct t; simpl in *;
    try rewrite (H "mcq") by discriminate;
    try rewrite (H "short") by discriminate;
    try rewrite (H "long") by discriminate;
    try rewrite (H "diagram") by discriminate;
    try rewrite (H "code") by discriminate;
    try rewrite (H "hots") by discriminate;
    try rewrite (H "case_study") by discriminate;
    simpl; rewrite ?app_nil_r; reflexivity.
Qed.

Lemma organize_empty_getList (org : gmap string (list Question.t))
  (k : string) :
  organize ∅ generatedQuestions = Ok org ->
  getList org k
  = List.filter (fun q => toString (Question.type q) =? k) generatedQuestions.
Proof.
  intros H. rewrite (organize_getList _ _ _ k H).
  unfold getList. rewrite lookup_empty. reflexivity.
Qed.

Lemma organize_bucket (org : gmap string (list Question.t)) (t : QType)
  (d : Difficulty) :
  organize ∅ generatedQuestions = Ok org ->
  List.filter (isOf t d) (getList org (typeName t))
  = List.filter (isOf t d) generatedQuestions.
Proof.
  intros H. rewrite (organize_empty_getList _ _ H).
  apply filter_filter_imp. intros q Hq.
  apply isOf_spec in Hq. destruct Hq as [-> _]. simpl. apply String.eqb_refl.
Qed.

(** Where the questions of the final arrays come from. *)
Lemma final_elem (dist : list DistItem.t) (org : gmap string (list Question.t))
  (k : string) (q : Question.t) :
  organize ∅ generatedQuestions = Ok org ->
  In q (getList (fold_left step dist org) k) ->
  toString (Question.type q) = k /\
  (In q generatedQuestions \/
   exists distItem i texts,
     In distItem dist /\ q = synthesize topic distItem subject i texts).
Proof.
  intros Ho H. apply fold_elem in H.
  destruct H as [H|[distItem [Hin [Hk [H|[i [texts H]]]]]]].
  - rewrite (organize_empty_getList _ _ Ho) in H.
    apply List.filter_In in H. destruct H as [H Hk].
    apply String.eqb_eq in Hk. auto.
  - apply List.filter_In in H. destruct H as [H Hb].
    apply isOf_spec in Hb. destruct Hb as [Hb _].
    rewrite Hb. simpl. auto.
  - subst q. rewrite synthesize_type. simpl. split; [auto|].
    right. eauto.
Qed.

Lemma final_keysAgree (dist : list DistItem.t)
  (org : gmap string (list Question.t)) :
  organize ∅ generatedQuestions = Ok org ->
  keysAgree (fold_left step dist org).
Proof.
  intros Ho k q H. eapply final_elem in H; [|exact Ho]. tauto.
Qed.

Lemma ensureQuestionCount_Ok (dist : list DistItem.t) (out : list Question.t) :
  ensureQuestionCount generatedQuestions dist topic subject = Ok out <->
  exists org,
    organize ∅ generatedQuestions = Ok org /\
    out = flatten (fold_left step dist org).
Proof.
  unfold ensureQuestionCount.
  destruct (organize ∅ generatedQuestions) as [org|msg]; split.
  - intros [= <-]. eauto.
  - intros [org' [[= <-] ->]]. reflexivity.
  - discriminate.
  - intros [org' [H _]]. discriminate.
Qed.
End Reconcile.

(** ** The extractor *)







Lemma append_cons (c : ascii) (a b : string) :
  String c a +:+ b = String c (a +:+ b).
Proof. reflexivity. Qed.

Lemma append_assoc (a b c : string) : (a +:+ b) +:+ c = a +:+ b +:+ c.
Proof.
  induction a as [|x a IH]; [reflexivity|].
  rewrite !append_cons, IH. reflexivity.
Qed.

Lemma startsWith_nil (s : string) : startsWith "" s = true.
Proof. destruct s; reflexivity. Qed.

Lemma startsWith_cons (a b : ascii) (needle s : string) :
  startsWith (String a needle) (String b s)
  = (a =? b)%char && startsWith needle s.
Proof. reflexivity. Qed.

















(** * The claims *)

(** ** C1: counts of the reconciled output *)


(** The contents of the reconciled buckets: when the reconciler returns,
    a requested bucket that the input does not overfill, or whose input
    questions have pairwise distinct texts, holds its input questions in
    input order, cut to the requested count or followed by the synthesized
    questions; a pair that is not requested holds its input questions. *)
Lemma reconciler_bucket_contents
  (generated : list Question.t) (distribution : list DistItem.t)
  (topic : JsVal) (subject : option string) :
  (forall q, In q generated ->
             isInherited (toString (Question.type q)) = false) ->
  List.NoDup (map bucketOf distribution) ->
  exists out,
    ensureQuestionCount generated distribution topic subject = Ok out /\
    (forall distItem,
        In distItem distribution ->
        let bucket := List.filter (inBucket distItem) generated in
        (length bucket <= DistItem.count distItem)%nat \/
        (List.NoDup (map Question.text bucket) /\
         forall q, In q bucket -> Question.text q <> JNaN) ->
        List.filter (inBucket distItem) out
        = reconciledBucket generated topic subject distItem) /\
    (forall t d,
        ~ In (t, d) (map bucketOf distribution) ->
        List.filter (isOf t d) out = List.filter (isOf t d) generated).
Proof.
  intros Hkeys Hnd.
  destruct (organize_total generated ∅ Hkeys) as [org Ho].
  eexists. split.
  { apply ensureQuestionCount_Ok. exists org. split; [exact Ho|reflexivity]. }
  split.
  - intros distItem Hin bucket Hcond. unfold inBucket at 1.
    rewrite flatten_bucket by (apply final_keysAgree, Ho).
    apply (fold_own_bucket generated topic subject distribution distItem org);
      auto.
    apply organize_bucket, Ho.
  - intros t d Hnot.
    rewrite flatten_bucket by (apply final_keysAgree, Ho).
    rewrite fold_other_bucket.
    + apply (organize_bucket _ _ _ _ Ho).
    + intros x Hx Heq. apply Hnot. rewrite Heq. apply List.in_map, Hx.
Qed.



(** ** C2: marks of the reconciled output *)




(** The end-to-end scenario of the specification: three mcq/easy questions
    worth 2 marks, then one long/hard question worth 10. *)
Lemma end_to_end_scenario :
  exists out,
    ensureQuestionCount scenarioQuestions scenarioDistribution
      (JStr "Thermodynamics") (Some "Physics") = Ok out /\
    map (fun q => (Question.type q, Question.difficulty q, Question.marks q)) out
    = [ (JStr "mcq", JStr "easy", JNum 2); (JStr "mcq", JStr "easy", JNum 2);
        (JStr "mcq", JStr "easy", JNum 2); (JStr "long", JStr "hard", JNum 10) ] /\
    map Question.text out
    = [ JStr "Q1"; JStr "Q2"; JStr "What is the SI unit of force?";
        JStr "Critically analyze these theoretical foundations and propose improvements." ].
Proof.
  eexists. split; [vm_compute; reflexivity|]. split; reflexivity.
Qed.

(** ** C3: the mcq invariant *)

(** C3: every mcq the pipeline puts out has exactly four options and a
    [correctAnswer] among them: those the normalizer produces, those the
    template fallback generator synthesizes, and so all those the reconciler
    returns for normalized input. *)
Theorem mcq_four_options_and_answer :
  (forall (questions : list Question.t) (topic : JsVal) (q : Question.t),
      In q (processQuestions questions topic) ->
      Question.type q = JStr "mcq" -> mcqWellFormed q) /\
  (forall (topic : JsVal) (difficulty : Difficulty) (marks : Z)
          (subject : option string) (index : nat),
      mcqWellFormed
        (generateMeaningfulQuestion topic Mcq difficulty marks subject index)) /\
  (forall (questions : list Question.t) (distribution : list DistItem.t)
          (topic : JsVal) (subject : option string) (out : list Question.t)
          (q : Question.t),
      ensureQuestionCount (processQuestions questions topic) distribution
        topic subject = Ok out ->
      In q out -> Question.type q = JStr "mcq" -> mcqWellFormed q).
Proof.
  assert (Hnorm : forall questions topic q,
             In q (processQuestions questions topic) ->
             Question.type q = JStr "mcq" -> mcqWellFormed q).
  { intros questions topic q Hq Hty. unfold processQuestions in Hq.
    apply List.in_map_iff in Hq. destruct Hq as [raw [<- _]].
    apply processQuestion_mcq, Hty. }
  split; [exact Hnorm|]. split; [apply generateMeaningfulQuestion_mcq|].
  intros questions distribution topic subject out q Hout Hq Hty.
  apply ensureQuestionCount_Ok in Hout. destruct Hout as [org [Ho ->]].
  apply flatten_In in Hq. destruct Hq as [k [_ Hq]].
  eapply final_elem in Hq; [|exact Ho].
  destruct Hq as [_ [Hq|[x [i [texts [Hx ->]]]]]].
  - eapply Hnorm; eauto.
  - apply synthesize_mcq. rewrite synthesize_type in Hty.
    injection Hty as Hty. apply (typeName_inj _ Mcq), Hty.
Qed.

(** C3, witness: a model mcq with two options and a stray answer, and the
    mcqs of the end-to-end scenario. *)
Lemma mcq_four_options_and_answer_witness :
  mcqWellFormed
    (processQuestion (JStr "T")
       (rawQuestion (JStr "Q") (JStr "mcq") JUndefined JUndefined
          (Some [JStr "x"; JStr "y"]) (JStr "z"))) /\
  exists out,
    ensureQuestionCount scenarioQuestions scenarioDistribution
      (JStr "Thermodynamics") (Some "Physics") = Ok out /\
    forall q, In q out -> Question.type q = JStr "mcq" -> mcqWellFormed q.
Proof.
  destruct mcq_four_options_and_answer as [Hnorm [_ Hpipe]]. split.
  - apply (Hnorm [rawQuestion (JStr "Q") (JStr "mcq") JUndefined JUndefined
                    (Some [JStr "x"; JStr "y"]) (JStr "z")] (JStr "T")).
    + left. reflexivity.
    + reflexivity.
  - destruct (ensureQuestionCount scenarioQuestions scenarioDistribution
                (JStr "Thermodynamics") (Some "Physics")) as [out|msg] eqn:Hout.
    + exists out. split; [reflexivity|]. intros q.
      apply (Hpipe [mcqEasy "Q1"; mcqEasy "Q2"] scenarioDistribution
               (JStr "Thermodynamics") (Some "Physics") out q Hout).
    + vm_compute in Hout. discriminate.
Defined.

(** ** C4: the defaults of the normalizer *)

(** C4, at the failing input: a record with a text and nothing else.  The
    type is filled with mcq and the difficulty with medium, but the marks
    are computed from the record's own, missing, type: [baseMarks[undefined]]
    is [undefined] and the marks are [NaN], not the 3 marks of a medium mcq
    and not a positive integer. *)
Theorem normalizer_marks_NaN_without_type :
  let p :=
    processQuestion (JStr "T")
      (rawQuestion (JStr "Q") JUndefined JUndefined JUndefined None JUndefined) in
  Question.type p = JStr (typeName Mcq) /\
  Question.difficulty p = JStr (difficultyName Medium) /\
  Question.marks p = JNaN /\
  specDefaultMarks Mcq Medium = 3%Z.
Proof. repeat split. Qed.

(** The same computation reads the record's own difficulty: a short-answer
    record without difficulty is given the difficulty medium and the 4
    marks of an easy one. *)
Lemma normalizer_marks_without_difficulty :
  let p :=
    processQuestion (JStr "T")
      (rawQuestion (JStr "Q") (JStr "short") JUndefined JUndefined None JUndefined) in
  Question.difficulty p = JStr (difficultyName Medium) /\
  Question.marks p = JNum 4 /\
  specDefaultMarks Short Medium = 6%Z.
Proof. repeat split. Qed.

(** ** C5: texts of the synthesized questions *)

(** C5, at the failing input: no hots/hard question from the model, three
    requested.  The generator has no hots template, so each call returns the
    same text; the second and the third question both leave the loop through
    its forced branch, on the fourth attempt, and receive the same
    "(Variant 4)" suffix. *)
Theorem synthesized_texts_collide :
  exists out,
    ensureQuestionCount [] [DistItem.mk Hots Hard 3 10] (JStr "T") None = Ok out /\
    map Question.text out
    = [ JStr "Answer the following question about this concept.";
        JStr "Answer the following question about this concept. (Variant 4)";
        JStr "Answer the following question about this concept. (Variant 4)" ].
Proof.
  eexists. split; vm_compute; reflexivity.
Qed.

(** The deficit test of the specification, two hots/hard questions worth
    10 marks, still passes: the first two texts differ. *)
Lemma deficit_of_two_is_distinct :
  exists out,
    ensureQuestionCount [] [DistItem.mk Hots Hard 2 10] (JStr "T") None = Ok out /\
    map Question.text out
    = [ JStr "Answer the following question about this concept.";
        JStr "Answer the following question about this concept. (Variant 4)" ] /\
    map Question.marks out = [JNum 10; JNum 10].
Proof.
  eexists. split; [vm_compute; reflexivity|]. split; reflexivity.
Qed.

(** With a subject and templates the collision comes later: the bank of a
    bucket has four templates, so the fifth and the ninth question of a
    physics mcq/easy bucket both are the first template with the suffix. *)
Lemma ninth_text_repeats_fifth :
  exists out,
    ensureQuestionCount [] [DistItem.mk Mcq Easy 9 2] (JStr "T") (Some "Physics")
    = Ok out /\
    nth 4 (map Question.text out) JUndefined
    = JStr "For Physics: What is the SI unit of force? (Variant 4)" /\
    nth 8 (map Question.text out) JUndefined
    = JStr "For Physics: What is the SI unit of force? (Variant 4)".
Proof.
  eexists. split; [vm_compute; reflexivity|]. split; reflexivity.
Qed.

(** ** C6: surplus trimming *)

(** C6, at the failing input: six normalized mcq/easy questions, the fifth
    with the text of the first, and four requested.  The surplus branch
    recognises the questions to keep by their text, so the fifth is kept
    with the first four. *)
Theorem surplus_trimming_keeps_duplicate_text :
  exists out,
    ensureQuestionCount sixWithRepeat [DistItem.mk Mcq Easy 4 2] (JStr "T") None
    = Ok out /\
    out = take 5 sixWithRepeat /\
    bucketCount out Mcq Easy = 5%nat.
Proof.
  eexists. split; [vm_compute; reflexivity|]. split; reflexivity.
Qed.

(** What the surplus branch does achieve: a bucket with more questions
    than requested, all of different texts, is cut to its first questions,
    in input order. *)
Lemma surplus_keeps_first_requested
  (generated : list Question.t) (distribution : list DistItem.t)
  (topic : JsVal) (subject : option string) (distItem : DistItem.t) :
  let bucket := List.filter (inBucket distItem) generated in
  (forall q, In q generated ->
             isInherited (toString (Question.type q)) = false) ->
  List.NoDup (map bucketOf distribution) ->
  In distItem distribution ->
  (DistItem.count distItem < length bucket)%nat ->
  List.NoDup (map Question.text bucket) ->
  (forall q, In q bucket -> Question.text q <> JNaN) ->
  exists out,
    ensureQuestionCount generated distribution topic subject = Ok out /\
    List.filter (inBucket distItem) out = take (DistItem.count distItem) bucket.
Proof.
  intros bucket Hkeys Hnd Hin Hlt Htexts Hnan.
  destruct (reconciler_bucket_contents generated distribution topic subject
              Hkeys Hnd) as [out [Hout [Hreq _]]].
  exists out. split; [exact Hout|].
  rewrite (Hreq distItem Hin) by (right; auto).
  unfold reconciledBucket. fold bucket.
  assert (Hge : (length bucket <? DistItem.count distItem)%nat = false)
    by (apply Nat.ltb_ge; lia).
  rewrite Hge. reflexivity.
Qed.

(** At the failing input of C6 the final validation pass finds five
    questions where four are requested; it warns and the sequence is
    returned all the same. *)
Lemma mismatch_is_warned_not_raised :
  let distItem := DistItem.mk Mcq Easy 4 2 in
  exists out,
    ensureQuestionCount sixWithRepeat [distItem] (JStr "T") None = Ok out /\
    validationWarnings out [distItem] = [(distItem, 5%nat)].
Proof.
  eexists. split; [vm_compute; reflexivity|]. reflexivity.
Qed.

(** ** C7: idempotence of the normalizer *)

(** C7, counterexample: a canonical short-answer question that carries the
    subject the reconciler attaches comes out of the normalizer without it. *)
Lemma normalizer_drops_subject :
  let q :=
    {| Question.text := JStr "Q";
       Question.type := JStr "short";
       Question.difficulty := JStr "easy";
       Question.marks := JNum 4;
       Question.topic := JStr "T";
       Question.bloomsTaxonomy := JUndefined;
       Question.explanation := JUndefined;
       Question.options := None;
       Question.correctAnswer := JUndefined;
       Question.subject := JStr "Physics" |} in
  canonical q /\
  processQuestions [q] (JStr "T") <> [q] /\
  Question.subject (processQuestion (JStr "T") q) = JUndefined.
Proof.
  split; [|split; [discriminate|reflexivity]].
  unfold canonical, nonEmptyStr, optionalStr. simpl.
  split; [exists "Q"; split; [reflexivity|discriminate]|].
  split; [exists Short; reflexivity|].
  split; [exists Easy; reflexivity|].
  split; [exists 4%Z; split; reflexivity|].
  split; [exists "T"; reflexivity|].
  repeat split; eauto.
Qed.

(** C7, amended: the normalizer returns unchanged every array of canonical
    questions that carry no subject, a non-empty topic, an explanation that
    is absent or non-empty and, for an mcq, a truthy [correctAnswer]. *)
Theorem normalizer_idempotent_on_canonical
  (questions : list Question.t) (topic : JsVal) :
  (forall q, In q questions ->
     canonical q /\
     Question.subject q = JUndefined /\
     truthy (Question.topic q) = true /\
     Question.explanation q <> JStr "" /\
     (Question.type q = JStr "mcq" ->
      truthy (Question.correctAnswer q) = true)) ->
  processQuestions questions topic = questions.
Proof.
  unfold processQuestions.
  induction questions as [|q questions IH]; intros H; simpl; [reflexivity|].
  destruct (H q) as [Hc [Hs [Ht [He Hca]]]]; [left; reflexivity|].
  rewrite processQuestion_canonical by assumption.
  f_equal. apply IH. intros x Hx. apply H. right. exact Hx.
Qed.

(** C7, witness: normalizing the two normalized mcqs of the end-to-end
    scenario again changes nothing. *)
Lemma normalizer_idempotent_on_canonical_witness :
  processQuestions scenarioQuestions (JStr "Other topic") = scenarioQuestions.
Proof.
  apply normalizer_idempotent_on_canonical.
  intros q Hq. simpl in Hq.
  destruct Hq as [<-|[<-|[]]];
    (split; [|repeat split; discriminate]);
    unfold canonical, nonEmptyStr, optionalStr, mcqWellFormed; simpl;
    (split; [eexists; split; [reflexivity|discriminate]|]);
    (split; [exists Mcq; reflexivity|]);
    (split; [exists Easy; reflexivity|]);
    (split; [eexists; split; reflexivity|]);
    (split; [eexists; reflexivity|]);
    (split; [left; reflexivity|]); (split; [left; reflexivity|]);
    (split; [left; reflexivity|]); (split; [|discriminate]);
    eexists; (split; [reflexivity|]); (split; [reflexivity|]); simpl; auto.
Defined.

(** ** C8: extraction round trip *)




(** ** C9: the reconciler and exceptions *)

(** The first pass raises whenever the type of an input question is a
    property name inherited from [Object.prototype]. *)
Lemma ensureQuestionCount_throws (generated : list Question.t)
  (distribution : list DistItem.t) (topic : JsVal) (subject : option string) :
  (exists q, In q generated /\
             isInherited (toString (Question.type q)) = true) ->
  exists msg,
    ensureQuestionCount generated distribution topic subject = Throw msg.
Proof.
  intros H. unfold ensureQuestionCount.
  destruct (organize_throw generated ∅) as [msg ->]; [|exact H|eauto].
  intros k _. apply lookup_empty.
Qed.

(** C9, at the failing input: the model labels a question with the type
    "constructor"; the normalizer keeps the label, and the reconciler raises
    a [TypeError] instead of returning a sequence. *)
Theorem reconciler_raises_on_inherited_type :
  let generated :=
    processQuestions
      [rawQuestion (JStr "Q") (JStr "constructor") (JStr "easy") (JNum 2)
         None JUndefined]
      (JStr "T") in
  ensureQuestionCount generated [DistItem.mk Mcq Easy 1 2] (JStr "T") None
  = Throw "TypeError: organizedQuestions[question.type].push is not a function".
Proof. vm_compute. reflexivity. Qed.

(** ** C10: unrecognized types *)

(** What holds of the claim: the normalizer keeps any non-empty type string
    as it is and fills in mcq only for a falsy type; every question of a
    sequence the reconciler returns has one of the seven types, so a
    question of any other type is not in it; and the reconciler does return
    a sequence when no type is a property name inherited from
    [Object.prototype]. *)
Theorem unrecognized_types_are_dropped :
  (forall (topic : JsVal) (question : Question.t) (s : string),
      Question.type question = JStr s -> s <> "" ->
      Question.type (processQuestion topic question) = JStr s) /\
  (forall (topic : JsVal) (question : Question.t),
      truthy (Question.type question) = false ->
      Question.type (processQuestion topic question) = JStr "mcq") /\
  (forall (generated : list Question.t) (distribution : list DistItem.t)
          (topic : JsVal) (subject : option string) (out : list Question.t)
          (q : Question.t),
      ensureQuestionCount generated distribution topic subject = Ok out ->
      In q out ->
      exists t, Question.type q = JStr (typeName t)) /\
  (forall (generated : list Question.t) (distribution : list DistItem.t)
          (topic : JsVal) (subject : option string),
      (forall q, In q generated ->
                 isInherited (toString (Question.type q)) = false) ->
      exists out,
        ensureQuestionCount generated distribution topic subject = Ok out).
Proof.
  split; [|split; [|split]].
  - intros topic question s Hty Hs. unfold processQuestion. simpl.
    rewrite Hty. unfold jsOr. simpl.
    apply String.eqb_neq in Hs. rewrite Hs. reflexivity.
  - intros topic question Hty. unfold processQuestion, jsOr. simpl.
    rewrite Hty. reflexivity.
  - intros generated distribution topic subject out q Hout Hq.
    apply ensureQuestionCount_Ok in Hout. destruct Hout as [org [Ho ->]].
    apply flatten_In in Hq. destruct Hq as [k [Hk Hq]].
    eapply final_elem in Hq; [|exact Ho]. destruct Hq as [Hty _].
    assert (Ht : exists t, k = typeName t).
    { unfold typeOrder in Hk. simpl in Hk.
      destruct Hk as [<-|[<-|[<-|[<-|[<-|[<-|[<-|[]]]]]]]];
        [exists Mcq|exists Short|exists Long|exists Diagram|exists Code
        |exists Hots|exists CaseStudy]; reflexivity. }
    destruct Ht as [t ->]. exists t. apply toString_typeName, Hty.
  - intros generated distribution topic subject Hkeys.
    destruct (organize_total generated ∅ Hkeys) as [org Ho].
    eexists. apply ensureQuestionCount_Ok. eauto.
Qed.

(** An instance: a question the model labels "essay" keeps the label
    through the normalizer and is absent from the reconciled sequence. *)
Lemma unrecognized_types_are_dropped_witness :
  let essay :=
    rawQuestion (JStr "Q") (JStr "essay") (JStr "easy") (JNum 2) None JUndefined in
  let generated := processQuestions [essay] (JStr "T") in
  Question.type (processQuestion (JStr "T") essay) = JStr "essay" /\
  exists out,
    ensureQuestionCount generated [DistItem.mk Mcq Easy 1 2] (JStr "T") None
    = Ok out /\
    forall q, In q out -> exists t, Question.type q = JStr (typeName t).
Proof.
  intros essay generated.
  destruct unrecognized_types_are_dropped as [Hkeep [_ [Htypes Hret]]]. split.
  - apply Hkeep; [reflexivity|discriminate].
  - destruct (Hret generated [DistItem.mk Mcq Easy 1 2] (JStr "T") None)
      as [out Hout].
    + simpl. intros q [<-|[]]. reflexivity.
    + exists out. split; [exact Hout|]. intros q Hq.
      eapply Htypes; eauto.
Defined.

(** C10, at the failing input: the model labels a question with the type
    "toString", which is none of the seven types.  The normalizer keeps the
    label, as the claim says; the reconciler does not leave the question
    out of the sequence it returns, it returns no sequence at all: the
    first pass raises a [TypeError], because the dictionary it sorts the
    questions into is a plain object and finds [toString] on
    [Object.prototype]. *)
Theorem unrecognized_inherited_type_raises :
  let question :=
    rawQuestion (JStr "Q") (JStr "toString") (JStr "easy") (JNum 2) None
      JUndefined in
  let generated := processQuestions [question] (JStr "T") in
  map Question.type generated = [JStr "toString"] /\
  ~ In "toString" typeOrder /\
  ensureQuestionCount generated [DistItem.mk Mcq Easy 1 2] (JStr "T") None
  = Throw "TypeError: organizedQuestions[question.type].push is not a function".
Proof.
  split; [reflexivity|]. split; [|vm_compute; reflexivity].
  cbn [typeOrder In]. intros H.
  repeat (destruct H as [H | H]; [discriminate|]). exact H.
Qed.

(** * Further properties of the code *)

(** ** The normalizer *)

(** X1: [validateMCQOptions] keeps the options it is given in their places
    and fills the missing places, up to four, with the generic labels of
    those places: the result is the first four entries of the given options
    followed by the labels "Option A" to "Option D" from which as many are
    dropped as there are given options. *)
Theorem validateMCQOptions_closed_form (options : option (list JsVal)) :
  let given := default [] options in
  validateMCQOptions options
  = take 4 (given
            ++ drop (length given)
                 [JStr "Option A"; JStr "Option B"; JStr "Option C";
                  JStr "Option D"]).
Proof.
  destruct options as [l|]; [|reflexivity].
  destruct l as [|a [|b [|c [|d [|e l]]]]]; try reflexivity.
Qed.

(** The shape of a normalized question: a truthy text, type and
    difficulty, no subject, and options exactly when the type is mcq. *)
Lemma processQuestion_shape (topic : JsVal) (question : Question.t) :
  let p := processQuestion topic question in
  truthy (Question.text p) = true /\
  truthy (Question.type p) = true /\
  truthy (Question.difficulty p) = true /\
  Question.subject p = JUndefined /\
  (Question.options p <> None <-> Question.type p = JStr "mcq").
Proof.
  intros p. subst p. unfold processQuestion.
  cbn [Question.text Question.type Question.difficulty Question.options
       Question.subject].
  set (ty := jsOr (Question.type question) (JStr "mcq")).
  assert (Hor : forall a b, truthy b = true -> truthy (jsOr a b) = true).
  { intros a b Hb. unfold jsOr. destruct (truthy a) eqn:Ha; assumption. }
  split; [apply Hor; reflexivity|]. split; [apply Hor; reflexivity|].
  split; [apply Hor; reflexivity|]. split; [reflexivity|].
  destruct (strictEq ty (JStr "mcq")) eqn:Hs; split; intros H.
  - apply strictEq_eq, Hs.
  - discriminate.
  - contradiction.
  - rewrite H in Hs. discriminate.
Qed.

Lemma jsOr_jsOr (a b : JsVal) : jsOr (jsOr a b) b = jsOr a b.
Proof. unfold jsOr. destruct (truthy a) eqn:Ha; [rewrite Ha|]; destruct (truthy b); reflexivity. Qed.

Lemma validateMCQOptions_fixed (options : option (list JsVal)) :
  validateMCQOptions (Some (validateMCQOptions options))
  = validateMCQOptions options.
Proof.
  pose proof (validateMCQOptions_length options) as Hlen.
  unfold validateMCQOptions at 1. rewrite Hlen. reflexivity.
Qed.

Lemma includes_firstOption (options : list JsVal) :
  length options = 4%nat -> includes options (firstOption options) = true.
Proof. intros H. apply In_includes, firstOption_In, H. Qed.

(** The fields other than the marks are settled by one application. *)
Lemma processQuestion_settled (topic : JsVal) (question : Question.t) :
  processQuestion topic (processQuestion topic question)
  = setMarks (processQuestion topic question)
      (jsOr (Question.marks (processQuestion topic question))
         (getDefaultMarks (Question.type (processQuestion topic question))
            (Question.difficulty (processQuestion topic question)))).
Proof.
  unfold processQuestion at 1. unfold setMarks.
  cbn [Question.text Question.type Question.difficulty Question.marks
       Question.topic Question.bloomsTaxonomy Question.explanation
       Question.options Question.correctAnswer Question.subject processQuestion].
  rewrite !jsOr_jsOr.
  set (ty := jsOr (Question.type question) (JStr "mcq")).
  set (opts := validateMCQOptions (Question.options question)).
  assert (Hlen : length opts = 4%nat) by apply validateMCQOptions_length.
  destruct (strictEq ty (JStr "mcq")) eqn:Hm.
  - assert (Hv : validateMCQOptions (Some opts) = opts)
      by apply validateMCQOptions_fixed.
    rewrite Hv.
    destruct (truthy (Question.correctAnswer question)
              && includes opts (Question.correctAnswer question)) eqn:Hc.
    + rewrite Hc. reflexivity.
    + rewrite (includes_firstOption opts Hlen), andb_true_r.
      destruct (truthy (firstOption opts)); reflexivity.
  - reflexivity.
Qed.

(** X2: the normalizer is stable from its second application on: a third
    application changes nothing, for every record and topic.  (The first
    application is not yet stable: marks left as [NaN] by the first are
    computed by the second from the filled-in type and difficulty.) *)
Theorem processQuestion_stable_after_two (topic : JsVal) (question : Question.t) :
  let p2 := processQuestion topic (processQuestion topic question) in
  processQuestion topic p2 = p2.
Proof.
  intros p2. subst p2.
  rewrite (processQuestion_settled topic (processQuestion topic question)).
  rewrite (processQuestion_settled topic question).
  generalize (processQuestion topic question). intros p.
  unfold setMarks. simpl.
  generalize (getDefaultMarks (Question.type p) (Question.difficulty p)).
  intros d. unfold jsOr.
  destruct (truthy (Question.marks p)) eqn:H1.
  - rewrite H1. reflexivity.
  - destruct (truthy d) eqn:H2; rewrite ?H2; reflexivity.
Qed.

(** The first application is not stable: a record with a text only is given
    marks [NaN] by the first application and 3 by the second. *)
Lemma processQuestion_second_pass_repairs :
  let question :=
    rawQuestion (JStr "Q") JUndefined JUndefined JUndefined None JUndefined in
  let p := processQuestion (JStr "T") question in
  Question.marks p = JNaN /\
  Question.marks (processQuestion (JStr "T") p) = JNum 3.
Proof. split; reflexivity. Qed.

(** ** Default marks *)

Lemma baseMarks_lookup (k : string) :
  (exists t, k = typeName t /\ objLookup baseMarks k = Own (baseMarksOf t)) \/
  ((forall t, k <> typeName t) /\
   (objLookup baseMarks k = Inherited \/ objLookup baseMarks k = Absent)).
Proof.
  destruct (decide (k = "mcq")) as [->|H1]; [left; exists Mcq; auto|].
  destruct (decide (k = "short")) as [->|H2]; [left; exists Short; auto|].
  destruct (decide (k = "long")) as [->|H3]; [left; exists Long; auto|].
  destruct (decide (k = "diagram")) as [->|H4]; [left; exists Diagram; auto|].
  destruct (decide (k = "code")) as [->|H5]; [left; exists Code; auto|].
  destruct (decide (k = "hots")) as [->|H6]; [left; exists Hots; auto|].
  destruct (decide (k = "case_study")) as [->|H7];
    [left; exists CaseStudy; auto|].
  right. split.
  - intros t. destruct t; simpl; congruence.
  - unfold objLookup, baseMarks, assocLookup.
    repeat match goal with
           | |- context [(?a =? k)] =>
               let E := fresh in
               destruct (String.eqb_spec a k) as [E|E];
               [symmetry in E; contradiction|]
           end.
    destruct (isInherited k); auto.
Qed.

Lemma difficultyMultiplier2_lookup (k : string) :
  (exists m2, objLookup difficultyMultiplier2 k = Own m2
              /\ (2 <= m2 <= 4)%Z /\ isInherited k = false) \/
  (objLookup difficultyMultiplier2 k = Inherited /\ isInherited k = true) \/
  (objLookup difficultyMultiplier2 k = Absent /\ isInherited k = false).
Proof.
  unfold objLookup, difficultyMultiplier2, assocLookup.
  destruct (String.eqb_spec "easy" k) as [<-|_];
    [left; exists 2%Z; repeat split; lia|].
  destruct (String.eqb_spec "medium" k) as [<-|_];
    [left; exists 3%Z; repeat split; lia|].
  destruct (String.eqb_spec "hard" k) as [<-|_];
    [left; exists 4%Z; repeat split; lia|].
  destruct (isInherited k); auto.
Qed.

(** X3: [getDefaultMarks] returns [NaN] exactly when the type is not one of
    the seven or the difficulty names a property inherited from
    [Object.prototype]; in every other case, also for a missing or unknown
    difficulty, it returns an integer between the base marks of the type and
    twice the base marks. *)
Theorem getDefaultMarks_cases (type difficulty : JsVal) :
  (getDefaultMarks type difficulty = JNaN /\
   ((forall t, toString type <> typeName t) \/
    isInherited (toString difficulty) = true)) \/
  (exists t m,
      toString type = typeName t /\
      isInherited (toString difficulty) = false /\
      getDefaultMarks type difficulty = JNum m /\
      (baseMarksOf t <= m <= 2 * baseMarksOf t)%Z).
Proof.
  unfold getDefaultMarks.
  destruct (baseMarks_lookup (toString type)) as [[t [Ht ->]]|[Hn [-> | ->]]];
    [|left; auto..].
  destruct (difficultyMultiplier2_lookup (toString difficulty))
    as [[m2 [-> Hm]] | [[-> Hi] | [-> Hi]]].
  - right. exists t. eexists. split; [exact Ht|]. split; [apply Hm|].
    split; [reflexivity|]. destruct Hm as [Hm _].
    assert (m2 = 2 \/ m2 = 3 \/ m2 = 4)%Z as [-> | [-> | ->]] by lia;
      destruct t; vm_compute; split; discriminate.
  - left. auto.
  - right. exists t. eexists. split; [exact Ht|]. split; [exact Hi|].
    split; [reflexivity|]. destruct t; vm_compute; split; discriminate.
Qed.

(** ** The template generator *)

Lemma templates_length (type : QType) (difficulty : Difficulty)
  (templateOptions : list string) :
  templates type difficulty = Some templateOptions ->
  length templateOptions = 4.
Proof.
  destruct type, difficulty; simpl; intros H; inversion H; reflexivity.
Qed.

Lemma subjectTemplates_length (domain : Domain) (type : QType)
  (difficulty : Difficulty) (templateOptions : list string) :
  subjectTemplates domain type difficulty = Some templateOptions ->
  length templateOptions = 4.
Proof.
  destruct domain, type, difficulty; simpl; intros H; inversion H;
    reflexivity.
Qed.

Lemma pickTemplate_period (templateOptions : list string) (index : nat) :
  length templateOptions = 4 ->
  pickTemplate templateOptions (index + 4) = pickTemplate templateOptions index.
Proof.
  intros H. unfold pickTemplate. rewrite H.
  replace (index + 4) with (index + 1 * 4) by lia.
  rewrite Nat.Div0.mod_add. reflexivity.
Qed.

Lemma selectQuestionText_period (type : QType) (difficulty : Difficulty)
  (subject : option string) (index : nat) :
  selectQuestionText type difficulty subject (index + 4)
  = selectQuestionText type difficulty subject index.
Proof.
  unfold selectQuestionText.
  destruct (if subjectTruthy subject
            then subjectTemplates (templateDomain subject) type difficulty
            else None) as [l|] eqn:Hs.
  - apply pickTemplate_period.
    destruct (subjectTruthy subject); [|discriminate].
    eapply subjectTemplates_length; eassumption.
  - destruct (templates type difficulty) as [l|] eqn:Ht; [|reflexivity].
    apply pickTemplate_period. eapply templates_length; eassumption.
Qed.

Lemma mcqOptions_period (subject : option string) (questionText : string)
  (index : nat) :
  mcqOptions subject questionText (index + 4)
  = mcqOptions subject questionText index.
Proof.
  unfold mcqOptions.
  replace ((index + 4) mod length optionTemplates)
    with (index mod length optionTemplates); [reflexivity|].
  change (length optionTemplates) with 4.
  replace (index + 4) with (index + 1 * 4) by lia.
  rewrite Nat.Div0.mod_add. reflexivity.
Qed.

(** X4: the template generator is periodic in its index with period four:
    for every topic, type, difficulty, marks and subject, the question built
    for [index + 4] is the question built for [index], text and options
    included. *)
Theorem generateMeaningfulQuestion_period (topic : JsVal) (type : QType)
  (difficulty : Difficulty) (marks : Z) (subject : option string)
  (index : nat) :
  generateMeaningfulQuestion topic type difficulty marks subject (index + 4)
  = generateMeaningfulQuestion topic type difficulty marks subject index.
Proof.
  unfold generateMeaningfulQuestion.
  rewrite selectQuestionText_period, mcqOptions_period. reflexivity.
Qed.

Lemma NoDup_first_four (templateOptions : list string) :
  length templateOptions = 4 ->
  NoDup templateOptions ->
  NoDup (map (pickTemplate templateOptions) [0; 1; 2; 3]).
Proof.
  intros Hlen Hnd. unfold pickTemplate. rewrite Hlen.
  destruct templateOptions as [|a [|b [|c [|d [|]]]]]; try discriminate.
  exact Hnd.
Qed.

Lemma templates_NoDup (type : QType) (difficulty : Difficulty)
  (templateOptions : list string) :
  templates type difficulty = Some templateOptions -> NoDup templateOptions.
Proof.
  destruct type, difficulty; simpl; intros H; inversion H;
    apply (bool_decide_unpack _); vm_compute; exact I.
Qed.

Lemma subjectTemplates_NoDup (domain : Domain) (type : QType)
  (difficulty : Difficulty) (templateOptions : list string) :
  subjectTemplates domain type difficulty = Some templateOptions ->
  NoDup templateOptions.
Proof.
  destruct domain, type, difficulty; simpl; intros H; inversion H;
    apply (bool_decide_unpack _); vm_compute; exact I.
Qed.

(** The types for which the generator has a template bank. *)
Lemma templates_Some (type : QType) (difficulty : Difficulty) :
  type = Mcq \/ type = Short \/ type = Long ->
  exists templateOptions, templates type difficulty = Some templateOptions.
Proof.
  intros [-> | [-> | ->]]; destruct difficulty; simpl; eexists; reflexivity.
Qed.

Lemma selectQuestionText_bank (type : QType) (difficulty : Difficulty)
  (subject : option string) :
  type = Mcq \/ type = Short \/ type = Long ->
  exists templateOptions,
    length templateOptions = 4 /\ NoDup templateOptions /\
    forall index,
      selectQuestionText type difficulty subject index
      = pickTemplate templateOptions index.
Proof.
  intros Hty. unfold selectQuestionText.
  destruct (if subjectTruthy subject
            then subjectTemplates (templateDomain subject) type difficulty
            else None) as [l|] eqn:Hs.
  - exists l. destruct (subjectTruthy subject); [|discriminate].
    split; [eapply subjectTemplates_length; eassumption|].
    split; [eapply subjectTemplates_NoDup; eassumption|]. reflexivity.
  - destruct (templates_Some type difficulty Hty) as [l Hl].
    exists l. rewrite Hl.
    split; [eapply templates_length; eassumption|].
    split; [eapply templates_NoDup; eassumption|]. reflexivity.
Qed.

(** X5: for the types with a template bank (mcq, short, long) the texts the
    generator gives for the indices 0 to 3 are pairwise different, whatever
    the difficulty and the subject. *)
Theorem selectQuestionText_first_four_distinct (type : QType)
  (difficulty : Difficulty) (subject : option string) :
  type = Mcq \/ type = Short \/ type = Long ->
  List.NoDup (map (selectQuestionText type difficulty subject) [0; 1; 2; 3]).
Proof.
  intros Hty. apply NoDup_ListNoDup.
  destruct (selectQuestionText_bank type difficulty subject Hty)
    as [l [Hlen [Hnd Hl]]].
  replace (map (selectQuestionText type difficulty subject) [0; 1; 2; 3])
    with (map (pickTemplate l) [0; 1; 2; 3])
    by (simpl; rewrite !Hl; reflexivity).
  apply NoDup_first_four; assumption.
Qed.

(** X5, witness: the short questions of difficulty hard for the subject
    Physics. *)
Lemma selectQuestionText_first_four_distinct_witness :
  List.NoDup (map (selectQuestionText Short Hard (Some "Physics")) [0; 1; 2; 3]).
Proof.
  apply selectQuestionText_first_four_distinct. right. left. reflexivity.
Defined.

(** For the other four types every index gives the same sentence. *)
Lemma selectQuestionText_no_bank (type : QType) (difficulty : Difficulty)
  (subject : option string) (index : nat) :
  type <> Mcq -> type <> Short -> type <> Long ->
  selectQuestionText type difficulty subject index
  = "Answer the following question about this concept.".
Proof.
  intros H1 H2 H3. unfold selectQuestionText.
  assert (Hs : forall dom, subjectTemplates dom type difficulty = None).
  { intros dom. destruct dom, type, difficulty; try reflexivity;
      congruence. }
  rewrite Hs. destruct (subjectTruthy subject);
    destruct type, difficulty; try reflexivity; congruence.
Qed.

Lemma mcqOptions_distinct (subject : option string) (questionText : string)
  (index : nat) :
  exists a b c d,
    mcqOptions subject questionText index = [a; b; c; d] /\
    NoDup [a; b; c; d].
Proof.
  unfold mcqOptions.
  repeat match goal with
         | |- context [if ?b then _ else _] => destruct b
         end;
    try (do 4 eexists; split; [reflexivity|];
         apply (bool_decide_unpack _); vm_compute; exact I).
  assert (Hlt : (index mod length optionTemplates < 4)%nat)
    by (apply Nat.mod_upper_bound; discriminate).
  destruct (index mod length optionTemplates) as [|[|[|[|n]]]]; try lia;
    do 4 eexists; (split; [reflexivity|]);
    apply (bool_decide_unpack _); vm_compute; exact I.
Qed.

(** X6: a synthesized mcq question always has four pairwise different
    options, and its correct answer is the fourth of them, for every topic,
    difficulty, marks, subject and index. *)
Theorem generateMeaningfulQuestion_mcq_options (topic : JsVal)
  (difficulty : Difficulty) (marks : Z) (subject : option string)
  (index : nat) :
  let question :=
    generateMeaningfulQuestion topic Mcq difficulty marks subject index in
  exists a b c d,
    Question.options question = Some [a; b; c; d] /\
    List.NoDup [a; b; c; d] /\
    Question.correctAnswer question = d.
Proof.
  intros question. unfold question, generateMeaningfulQuestion.
  cbn [Question.options Question.correctAnswer].
  destruct (mcqOptions_distinct subject
              (selectQuestionText Mcq difficulty subject index) index)
    as [a [b [c [d [-> Hnd]]]]].
  exists (JStr a), (JStr b), (JStr c), (JStr d).
  split; [reflexivity|]. split; [|reflexivity].
  change [JStr a; JStr b; JStr c; JStr d] with (map JStr [a; b; c; d]).
  apply List.NoDup_map_NoDup_ForallPairs.
  - intros x y _ _ H. injection H as H. exact H.
  - apply NoDup_ListNoDup. exact Hnd.
Qed.

(** ** The reconciler *)

Section ReconcilerMore.

Variable generatedQuestions : list Question.t.

Variable topic : JsVal.

Variable subject : option string.

Local Abbreviation step :=
  (reconcileItem generatedQuestions (countQuestions generatedQuestions)
     topic subject).

Local Abbreviation bucketOfItem distItem :=
  (List.filter (inBucket distItem) generatedQuestions).

Lemma step_no_surplus (org : gmap string (list Question.t))
  (distItem : DistItem.t) (k : string) :
  (length (bucketOfItem distItem) <= DistItem.count distItem)%nat ->
  getList (step org distItem) k
  = getList org k
    ++ (if typeName (DistItem.type distItem) =? k
        then synthesized
               (DistItem.count distItem - length (bucketOfItem distItem)) 0
               topic distItem subject
               (map Question.text (bucketOfItem distItem))
        else []).
Proof.
  intros Hle. unfold reconcileItem. rewrite currentCount_spec.
  destruct (length (bucketOfItem distItem) <? DistItem.count distItem)%nat
    eqn:Hlt.
  - rewrite fillMissing_getList.
    destruct (typeName (DistItem.type distItem) =? k);
      [reflexivity | rewrite app_nil_r; reflexivity].
  - apply Nat.ltb_ge in Hlt.
    replace (DistItem.count distItem - length (bucketOfItem distItem))%nat
      with 0%nat by lia.
    assert (Hge : (DistItem.count distItem
                   <? length (bucketOfItem distItem))%nat = false)
      by (apply Nat.ltb_ge; lia).
    rewrite Hge. simpl.
    destruct (typeName (DistItem.type distItem) =? k);
      rewrite app_nil_r; reflexivity.
Qed.

Lemma fold_no_surplus (dist : list DistItem.t) (k : string) :
  forall org : gmap string (list Question.t),
    (forall distItem, In distItem dist ->
       (length (bucketOfItem distItem) <= DistItem.count distItem)%nat) ->
    getList (fold_left step dist org) k
    = getList org k
      ++ deficitAdditions generatedQuestions topic subject dist k.
Proof.
  induction dist as [|distItem dist IH]; intros org Hle.
  - simpl. unfold deficitAdditions. simpl. rewrite app_nil_r. reflexivity.
  - simpl fold_left. rewrite IH by (intros x Hx; apply Hle; right; exact Hx).
    rewrite step_no_surplus by (apply Hle; left; reflexivity).
    rewrite <- app_assoc. f_equal.
    unfold deficitAdditions. simpl List.filter.
    destruct (typeName (DistItem.type distItem) =? k); reflexivity.
Qed.

Lemma flatten_getList (org : gmap string (list Question.t)) :
  flatten org = concat (map (getList org) typeOrder).
Proof. reflexivity. Qed.

Lemma flatten_by_key (org : gmap string (list Question.t)) (k : string) :
  keysAgree org -> In k typeOrder ->
  ofTypeKey k (flatten org) = getList org k.
Proof.
  intros Hk Hin.
  assert (Hother : forall k', k' <> k -> ofTypeKey k (getList org k') = []).
  { intros k' Hne. apply filter_none. intros q Hq. apply Hk in Hq.
    apply String.eqb_neq. congruence. }
  assert (Hsame : ofTypeKey k (getList org k) = getList org k).
  { apply filter_all. intros q Hq. apply Hk in Hq.
    apply String.eqb_eq. exact Hq. }
  rewrite flatten_getList. unfold ofTypeKey in *. rewrite filter_concat.
  simpl in Hin. simpl map. simpl concat.
  repeat (destruct Hin as [<- | Hin];
          [ rewrite Hsame;
            repeat match goal with
                   | |- context [List.filter _ (getList org ?k')] =>
                       rewrite (Hother k') by discriminate
                   end;
            simpl; rewrite ?app_nil_r; reflexivity | ]).
  destruct Hin.
Qed.

Lemma typeName_in_typeOrder (t : QType) : In (typeName t) typeOrder.
Proof. destruct t; simpl; auto 10. Qed.

Lemma step_keeps (org : gmap string (list Question.t))
  (distItem : DistItem.t) (k : string) (q : Question.t) :
  (inBucket distItem q = true ->
   (length (bucketOfItem distItem) <= DistItem.count distItem)%nat \/
   (In q (take (DistItem.count distItem) (bucketOfItem distItem)) /\
    Question.text q <> JNaN)) ->
  In q (getList org k) ->
  In q (getList (step org distItem) k).
Proof.
  intros Hcond Hq. unfold reconcileItem. rewrite currentCount_spec.
  destruct (length (bucketOfItem distItem) <? DistItem.count distItem)%nat
    eqn:Hlt.
  { rewrite fillMissing_getList.
    destruct (typeName (DistItem.type distItem) =? k); [|exact Hq].
    apply in_or_app. left. exact Hq. }
  destruct (DistItem.count distItem <? length (bucketOfItem distItem))%nat
    eqn:Hgt; [|exact Hq].
  apply Nat.ltb_lt in Hgt.
  destruct (org !! typeName (DistItem.type distItem)) as [ofType|] eqn:Hlk;
    [|exact Hq].
  rewrite getList_insert.
  destruct (String.eqb_spec (typeName (DistItem.type distItem)) k)
    as [Hk|Hk]; [|exact Hq].
  subst k. unfold getList in Hq. rewrite Hlk in Hq. simpl in Hq.
  assert (Hkept :
    In q (List.filter
            (fun q => negb (inBucket distItem q)
                      || textIn (take (DistItem.count distItem)
                                   (bucketOfItem distItem)) q) ofType)).
  { apply List.filter_In. split; [exact Hq|].
    destruct (inBucket distItem q) eqn:Hb; [|reflexivity]. simpl.
    destruct (Hcond eq_refl) as [Hle | [Hin Hnan]]; [lia|].
    unfold textIn. apply existsb_exists. exists q. split; [exact Hin|].
    apply strictEq_refl. exact Hnan. }
  unfold trimBucket.
  match goal with
  | |- In q (if ?c then _ else _) => destruct c
  end; [apply in_or_app; left|]; exact Hkept.
Qed.

Lemma fold_keeps (dist : list DistItem.t) (k : string) (q : Question.t) :
  forall org : gmap string (list Question.t),
    (forall distItem, In distItem dist -> inBucket distItem q = true ->
       (length (bucketOfItem distItem) <= DistItem.count distItem)%nat \/
       (In q (take (DistItem.count distItem) (bucketOfItem distItem)) /\
        Question.text q <> JNaN)) ->
    In q (getList org k) ->
    In q (getList (fold_left step dist org) k).
Proof.
  induction dist as [|distItem dist IH]; intros org Hcond Hq; [exact Hq|].
  simpl. apply IH.
  - intros x Hx. apply Hcond. right. exact Hx.
  - apply step_keeps; [|exact Hq]. apply Hcond. left. reflexivity.
Qed.

End ReconcilerMore.

(** X7: the reconciler returns a list exactly when no question it is given
    has a type that names a property of [Object.prototype] (such as
    [constructor] or [toString]); with such a question it raises, whatever
    the distribution. *)
Theorem ensureQuestionCount_returns_iff (generated : list Question.t)
  (distribution : list DistItem.t) (topic : JsVal) (subject : option string) :
  (exists out,
      ensureQuestionCount generated distribution topic subject = Ok out) <->
  (forall q, In q generated ->
             isInherited (toString (Question.type q)) = false).
Proof.
  split.
  - intros [out Hout] q Hq.
    destruct (isInherited (toString (Question.type q))) eqn:Hi; [|reflexivity].
    exfalso. unfold ensureQuestionCount in Hout.
    destruct (organize_throw generated ∅) as [msg Hmsg].
    + intros k _. apply lookup_empty.
    + exists q. auto.
    + rewrite Hmsg in Hout. discriminate.
  - intros Hok. unfold ensureQuestionCount.
    destruct (organize_total generated ∅ Hok) as [org ->].
    eexists. reflexivity.
Qed.



(** X9: the result of the reconciler is grouped by type in the order of
    [typeOrder]: splitting it by type and concatenating the seven groups in
    that order gives the result back.  This holds with surplus buckets as
    well. *)
Theorem ensureQuestionCount_grouped (generated : list Question.t)
  (distribution : list DistItem.t) (topic : JsVal) (subject : option string) :
  (forall q, In q generated ->
             isInherited (toString (Question.type q)) = false) ->
  exists out,
    ensureQuestionCount generated distribution topic subject = Ok out /\
    out = concat (map (fun k => ofTypeKey k out) typeOrder).
Proof.
  intros Hok. unfold ensureQuestionCount.
  destruct (organize_total generated ∅ Hok) as [org Horg]. rewrite Horg.
  eexists. split; [reflexivity|].
  set (final := fold_left _ distribution org).
  assert (Hk : keysAgree final)
    by (apply final_keysAgree; exact Horg).
  rewrite flatten_getList at 1. f_equal. apply map_ext_in. intros k Hin.
  symmetry. apply flatten_by_key; assumption.
Qed.

(** X9, witness: six mcq questions against a request for four. *)
Lemma ensureQuestionCount_grouped_witness :
  exists out,
    ensureQuestionCount sixWithRepeat [DistItem.mk Mcq Easy 4 2] (JStr "T") None
    = Ok out /\
    out = concat (map (fun k => ofTypeKey k out) typeOrder).
Proof.
  apply ensureQuestionCount_grouped.
  intros q Hq. simpl in Hq.
  repeat (destruct Hq as [<- | Hq]; [reflexivity|]). destruct Hq.
Defined.

(** X10: a given question of one of the seven types is in the result of the
    reconciler whenever, for every distribution item whose bucket it
    belongs to, the bucket is not in surplus or the question is among the
    first [count] of the bucket (and its text is not [NaN]).  In particular
    questions of buckets the distribution does not mention are never
    dropped. *)
Theorem ensureQuestionCount_keeps (generated : list Question.t)
  (distribution : list DistItem.t) (topic : JsVal) (subject : option string)
  (q : Question.t) :
  (forall q, In q generated ->
             isInherited (toString (Question.type q)) = false) ->
  In q generated ->
  (exists t, Question.type q = JStr (typeName t)) ->
  (forall distItem,
      In distItem distribution -> inBucket distItem q = true ->
      let bucket := List.filter (inBucket distItem) generated in
      (length bucket <= DistItem.count distItem)%nat \/
      (In q (take (DistItem.count distItem) bucket) /\
       Question.text q <> JNaN)) ->
  exists out,
    ensureQuestionCount generated distribution topic subject = Ok out /\
    In q out.
Proof.
  intros Hok Hq [t Ht] Hcond. unfold ensureQuestionCount.
  destruct (organize_total generated ∅ Hok) as [org Horg]. rewrite Horg.
  eexists. split; [reflexivity|].
  apply flatten_In. exists (typeName t). split; [apply typeName_in_typeOrder|].
  apply fold_keeps; [exact Hcond|].
  rewrite (organize_empty_getList generated org _ Horg).
  apply List.filter_In. split; [exact Hq|].
  rewrite Ht. simpl. apply String.eqb_refl.
Qed.

(** X10, witness: the third of six mcq questions against a request for four.
    X10, witness: the third of six mcq questions against a request for four. *)
Lemma ensureQuestionCount_keeps_witness :
  exists out,
    ensureQuestionCount sixWithRepeat [DistItem.mk Mcq Easy 4 2] (JStr "T") None
    = Ok out /\
    In (processQuestion (JStr "T") (mcqEasy "Q3")) out.
Proof.
  apply ensureQuestionCount_keeps.
  - intros q Hq. simpl in Hq.
    repeat (destruct Hq as [<- | Hq]; [reflexivity|]). destruct Hq.
  - simpl. auto.
  - exists Mcq. reflexivity.
  - intros distItem Hd _. simpl in Hd. destruct Hd as [<- | []].
    right. split; [|discriminate]. vm_compute. auto.
Defined.







(** X12: every question in the result of the reconciler is either one of
    the given questions or a question synthesized for a distribution item:
    it then has the type, the difficulty and the marks of the item, and its
    text is a bank text of the generator for that item and subject, either
    unchanged or in the one variant form the uniqueness loop can produce,
    the one numbered 4. *)
Theorem ensureQuestionCount_provenance (generated : list Question.t)
  (distribution : list DistItem.t) (topic : JsVal) (subject : option string) :
  (forall q, In q generated ->
             isInherited (toString (Question.type q)) = false) ->
  exists out,
    ensureQuestionCount generated distribution topic subject = Ok out /\
    forall q, In q out ->
      In q generated \/
      exists distItem i,
        In distItem distribution /\
        let candidate :=
          JStr (selectQuestionText (DistItem.type distItem)
                  (DistItem.difficulty distItem) subject i) in
        Question.type q = JStr (typeName (DistItem.type distItem)) /\
        Question.difficulty q
        = JStr (difficultyName (DistItem.difficulty distItem)) /\
        Question.marks q = JNum (DistItem.marks distItem) /\
        (Question.text q = candidate \/
         Question.text q = variantText subject candidate 4).
Proof.
  intros Hok. unfold ensureQuestionCount.
  destruct (organize_total generated ∅ Hok) as [org Horg]. rewrite Horg.
  eexists. split; [reflexivity|]. intros q Hq.
  apply flatten_In in Hq. destruct Hq as [k [_ Hq]].
  destruct (final_elem generated topic subject distribution org k q Horg Hq)
    as [_ [Hgen | [distItem [i [texts [Hd ->]]]]]]; [left; exact Hgen|].
  right. exists distItem, i. split; [exact Hd|]. cbv zeta.
  rewrite synthesize_type, synthesize_difficulty, synthesize_marks,
    synthesize_text.
  repeat split; try reflexivity.
  match goal with |- context [includes ?a ?b] => destruct (includes a b) end;
    auto.
Qed.

(** X12, witness: three hots questions synthesized from nothing. *)
Lemma ensureQuestionCount_provenance_witness :
  exists out,
    ensureQuestionCount [] [DistItem.mk Hots Hard 3 10] (JStr "T") None
    = Ok out /\
    forall q, In q out ->
      Question.marks q = JNum 10 /\
      (Question.text q
       = JStr "Answer the following question about this concept." \/
       Question.text q
       = JStr "Answer the following question about this concept. (Variant 4)").
Proof.
  destruct (ensureQuestionCount_provenance [] [DistItem.mk Hots Hard 3 10]
              (JStr "T") None) as [out [Hout Hq]].
  - intros q [].
  - exists out. split; [exact Hout|]. intros q Hin.
    destruct (Hq q Hin) as [[] | [distItem [i [Hd H]]]].
    simpl in Hd. destruct Hd as [<- | []]. cbv zeta in H.
    destruct H as [_ [_ [Hm Ht]]]. split; [exact Hm|].
    rewrite selectQuestionText_no_bank in Ht by discriminate. exact Ht.
Defined.

Lemma deficitAdditions_nil (generated : list Question.t) (topic : JsVal)
  (subject : option string) (distribution : list DistItem.t) (k : string) :
  (forall distItem, In distItem distribution ->
     length (List.filter (inBucket distItem) generated)
     = DistItem.count distItem) ->
  deficitAdditions generated topic subject distribution k = [].
Proof.
  intros H. unfold deficitAdditions.
  assert (Hnil : forall ls : list (list Question.t),
            (forall l, In l ls -> l = []) -> concat ls = []).
  { induction ls as [|l ls IH]; intros Hl; [reflexivity|].
    cbn [concat]. rewrite (Hl l (or_introl eq_refl)).
    apply IH. intros l' Hl'. apply Hl. right. exact Hl'. }
  apply Hnil. intros l Hl. apply List.in_map_iff in Hl.
  destruct Hl as [x [<- Hx]]. apply List.filter_In in Hx.
  destruct Hx as [Hx _]. cbv zeta. rewrite (H x Hx), Nat.sub_diag.
  reflexivity.
Qed.

Lemma typeOrder_not_inherited (k : string) :
  In k typeOrder -> isInherited k = false.
Proof.
  intros H. cbn [typeOrder In] in H.
  repeat (destruct H as [<- | H]; [reflexivity|]). destruct H.
Qed.

(** X13: reconciling a reconciled list changes nothing: when the
    distribution names each (type, difficulty) pair at most once and no
    requested bucket is in surplus with repeated texts, the reconciler
    applied to its own result with the same distribution returns that
    result. *)
Theorem ensureQuestionCount_idempotent (generated : list Question.t)
  (distribution : list DistItem.t) (topic : JsVal) (subject : option string) :
  (forall q, In q generated ->
             isInherited (toString (Question.type q)) = false) ->
  List.NoDup (map bucketOf distribution) ->
  (forall distItem, In distItem distribution ->
     let bucket := List.filter (inBucket distItem) generated in
     (length bucket <= DistItem.count distItem)%nat \/
     (List.NoDup (map Question.text bucket) /\
      forall q, In q bucket -> Question.text q <> JNaN)) ->
  exists out,
    ensureQuestionCount generated distribution topic subject = Ok out /\
    ensureQuestionCount out distribution topic subject = Ok out.
Proof.
  intros Hok Hnd Hcond.
  destruct (reconciler_bucket_contents generated distribution topic subject
              Hok Hnd) as [out [Hout [Hb _]]].
  exists out. split; [exact Hout|].
  assert (Hcount : forall distItem, In distItem distribution ->
            length (List.filter (inBucket distItem) out)
            = DistItem.count distItem).
  { intros x Hx. rewrite (Hb x Hx (Hcond x Hx)).
    apply reconciledBucket_length. }
  apply ensureQuestionCount_Ok in Hout. destruct Hout as [org [Ho Heq]].
  set (final := fold_left
                  (reconcileItem generated (countQuestions generated) topic
                     subject) distribution org) in Heq.
  assert (Hk : keysAgree final) by (apply final_keysAgree; exact Ho).
  assert (Hok' : forall q, In q out ->
                   isInherited (toString (Question.type q)) = false).
  { intros q Hq. rewrite Heq in Hq. apply flatten_In in Hq.
    destruct Hq as [k [Hin Hq]]. apply Hk in Hq. rewrite Hq.
    apply typeOrder_not_inherited, Hin. }
  unfold ensureQuestionCount.
  destruct (organize_total out ∅ Hok') as [org' Ho']. rewrite Ho'.
  f_equal. rewrite flatten_getList. rewrite Heq at 3.
  rewrite flatten_getList. f_equal. apply map_ext_in. intros k Hin.
  rewrite fold_no_surplus by (intros x Hx; rewrite (Hcount x Hx); lia).
  rewrite (deficitAdditions_nil out topic subject distribution k Hcount).
  rewrite app_nil_r, (organize_empty_getList out org' k Ho').
  rewrite Heq. apply flatten_by_key; assumption.
Qed.

(** X13, witness: the end-to-end scenario. *)
Lemma ensureQuestionCount_idempotent_witness :
  exists out,
    ensureQuestionCount scenarioQuestions scenarioDistribution
      (JStr "Thermodynamics") (Some "Physics") = Ok out /\
    ensureQuestionCount out scenarioDistribution (JStr "Thermodynamics")
      (Some "Physics") = Ok out.
Proof.
  apply ensureQuestionCount_idempotent.
  - intros q Hq. simpl in Hq.
    destruct Hq as [<- | [<- | []]]; reflexivity.
  - apply NoDup_ListNoDup, (bool_decide_unpack _). vm_compute. exact I.
  - intros distItem Hd. left. simpl in Hd.
    destruct Hd as [<- | [<- | []]]; vm_compute; lia.
Defined.

(** ** The response extractor *)

Lemma hasClose_cons (c : ascii) (r : string) :
  hasClose (String c r) = (c =? "}")%char || hasClose r.
Proof.
  unfold hasClose.
  change (strIncludes "}" (String c r))
    with (startsWith "}" (String c r) || strIncludes "}" r).
  rewrite startsWith_cons, startsWith_nil, andb_true_r, Ascii.eqb_sym.
  reflexivity.
Qed.

Lemma cutAfterLastClose_cons (c : ascii) (r : string) :
  cutAfterLastClose (String c r)
  = if (c =? "}")%char && negb (hasClose r) then "}"
    else String c (cutAfterLastClose r).
Proof. reflexivity. Qed.

Lemma dropUntilOpen_cons (c : ascii) (r : string) :
  dropUntilOpen (String c r)
  = if (c =? "{")%char then String c r else dropUntilOpen r.
Proof. reflexivity. Qed.

Lemma startsWith_open_cons (c : ascii) (r : string) :
  startsWith "{" (String c r) = (c =? "{")%char.
Proof.
  rewrite startsWith_cons, startsWith_nil, andb_true_r. apply Ascii.eqb_sym.
Qed.

Lemma dropUntilOpen_shape (s : string) :
  dropUntilOpen s = "" \/ startsWith "{" (dropUntilOpen s) = true.
Proof.
  induction s as [|c r IH]; [left; reflexivity|].
  rewrite dropUntilOpen_cons. destruct (c =? "{")%char eqn:E; [|exact IH].
  right. rewrite startsWith_open_cons. exact E.
Qed.

Lemma dropUntilOpen_fixed (s : string) :
  startsWith "{" s = true -> dropUntilOpen s = s.
Proof.
  destruct s as [|c r]; [reflexivity|].
  rewrite startsWith_open_cons, dropUntilOpen_cons. intros ->. reflexivity.
Qed.

Lemma cutAfterLastClose_no_close (s : string) :
  hasClose s = false -> cutAfterLastClose s = s.
Proof.
  induction s as [|c r IH]; [reflexivity|].
  rewrite hasClose_cons, cutAfterLastClose_cons. intros H.
  apply orb_false_iff in H. destruct H as [Hc Hr].
  rewrite Hc. simpl. rewrite IH by exact Hr. reflexivity.
Qed.

Lemma cutAfterLastClose_lastChar (s : string) :
  hasClose s = true -> lastChar (cutAfterLastClose s) = Some "}"%char.
Proof.
  induction s as [|c r IH]; [discriminate|].
  rewrite hasClose_cons, cutAfterLastClose_cons. intros H.
  destruct (hasClose r) eqn:Hr.
  - rewrite andb_false_r. cbn [lastChar]. rewrite IH by reflexivity.
    reflexivity.
  - rewrite orb_false_r in H. rewrite H. reflexivity.
Qed.

Lemma cutAfterLastClose_startsWith (s : string) :
  startsWith "{" s = true -> startsWith "{" (cutAfterLastClose s) = true.
Proof.
  destruct s as [|c r]; [discriminate|].
  rewrite startsWith_open_cons, cutAfterLastClose_cons. intros H.
  assert (Hc : (c =? "}")%char = false).
  { apply Ascii.eqb_eq in H. subst c. reflexivity. }
  rewrite Hc. simpl andb. cbv iota. rewrite startsWith_open_cons. exact H.
Qed.

Lemma hasClose_cutAfterLastClose (s : string) :
  hasClose (cutAfterLastClose s) = hasClose s.
Proof.
  induction s as [|c r IH]; [reflexivity|].
  rewrite cutAfterLastClose_cons, hasClose_cons.
  destruct (c =? "}")%char eqn:Hc; destruct (hasClose r) eqn:Hr; simpl andb;
    cbv iota; try reflexivity;
    rewrite hasClose_cons, Hc, IH; reflexivity.
Qed.

Lemma cutAfterLastClose_fixed (s : string) :
  cutAfterLastClose (cutAfterLastClose s) = cutAfterLastClose s.
Proof.
  induction s as [|c r IH]; [reflexivity|].
  rewrite cutAfterLastClose_cons.
  destruct ((c =? "}")%char && negb (hasClose r)) eqn:E; [reflexivity|].
  rewrite cutAfterLastClose_cons, hasClose_cutAfterLastClose, E, IH.
  reflexivity.
Qed.

(** X14: the text handed to the first [JSON.parse] is either empty or
    starts with an opening brace and ends with a closing brace, whatever the
    response; it is empty exactly when the cleaned response has no closing
    brace after its first opening brace. *)
Theorem jsonStr_shape (responseText : string) :
  let cleaned := cleanJsonResponse responseText in
  (hasClose (dropUntilOpen cleaned) = false /\ jsonStr responseText = "") \/
  (hasClose (dropUntilOpen cleaned) = true /\
   startsWith "{" (jsonStr responseText) = true /\
   lastChar (jsonStr responseText) = Some "}"%char).
Proof.
  intros cleaned. unfold jsonStr, jsonMatch. fold cleaned.
  destruct (hasClose (dropUntilOpen cleaned)) eqn:H.
  - right. split; [reflexivity|]. simpl default. split.
    + apply cutAfterLastClose_startsWith.
      destruct (dropUntilOpen_shape cleaned) as [E|E]; [|exact E].
      rewrite E in H. discriminate.
    + apply cutAfterLastClose_lastChar. exact H.
  - left. split; reflexivity.
Qed.

(** X15: for a response without a fenced block the brace match adds
    nothing: the cleaned text is already empty or from its first opening
    brace, and already ends at its last closing brace, so the text handed
    to the first [JSON.parse] is the cleaned text itself when that has a
    closing brace, and the empty text otherwise. *)
Theorem unfenced_jsonStr (responseText : string) :
  codeBlockMatch responseText = None ->
  let cleaned := cleanJsonResponse responseText in
  (cleaned = "" \/ startsWith "{" cleaned = true) /\
  jsonStr responseText = if hasClose cleaned then cleaned else "".
Proof.
  intros Hnone cleaned. unfold jsonStr, jsonMatch. fold cleaned.
  assert (Hc : exists z, cleaned = cutAfterLastClose (dropUntilOpen z)).
  { unfold cleaned, cleanJsonResponse. rewrite Hnone. eexists. reflexivity. }
  destruct Hc as [z Hz].
  assert (Hshape : cleaned = "" \/ startsWith "{" cleaned = true).
  { rewrite Hz. destruct (dropUntilOpen_shape z) as [E|E].
    - left. rewrite E. reflexivity.
    - right. apply cutAfterLastClose_startsWith. exact E. }
  split; [exact Hshape|].
  assert (Hd : dropUntilOpen cleaned = cleaned).
  { destruct Hshape as [-> | E]; [reflexivity|].
    apply dropUntilOpen_fixed. exact E. }
  rewrite Hd. destruct (hasClose cleaned); [|reflexivity].
  simpl default. rewrite Hz. apply cutAfterLastClose_fixed.
Qed.

(** X15, witness: a response with prose and bold markers around an empty
    object. *)
Lemma unfenced_jsonStr_witness :
  jsonStr "Sure! **Here** it is: {} Enjoy." = "{}".
Proof.
  apply (unfenced_jsonStr "Sure! **Here** it is: {} Enjoy."). reflexivity.
Defined.

Lemma startsWith_app (needle : string) :
  forall x y : string,
    startsWith needle x = true -> startsWith needle (x +:+ y) = true.
Proof.
  induction needle as [|a needle IH]; intros x y H.
  - apply startsWith_nil.
  - destruct x as [|b x]; [discriminate|].
    rewrite append_cons. rewrite startsWith_cons in *.
    apply andb_true_iff in H. destruct H as [-> H].
    rewrite (IH x y H). reflexivity.
Qed.

Lemma startsWith_dropN (needle : string) :
  forall s : string,
    startsWith needle s = true ->
    s = needle +:+ dropN (String.length needle) s.
Proof.
  induction needle as [|a needle IH]; intros s H; [reflexivity|].
  destruct s as [|b s]; [discriminate|].
  rewrite startsWith_cons in H. apply andb_true_iff in H.
  destruct H as [Hab H]. apply Ascii.eqb_eq in Hab. subst b.
  rewrite append_cons. cbn [String.length dropN]. f_equal. apply IH. exact H.
Qed.

Lemma strIncludes_cons (needle : string) (c : ascii) (r : string) :
  strIncludes needle (String c r)
  = startsWith needle (String c r) || strIncludes needle r.
Proof. reflexivity. Qed.

(** The text before the leftmost occurrence holds no occurrence. *)
Lemma splitAtFirst_spec (needle : string) :
  needle <> "" ->
  forall s before after : string,
    splitAtFirst needle s = Some (before, after) ->
    s = before +:+ needle +:+ after /\ strIncludes needle before = false.
Proof.
  intros Hne. induction s as [|c r IH]; intros before after H.
  - destruct needle as [|a needle]; [congruence|]. discriminate.
  - cbn [splitAtFirst] in H.
    destruct (startsWith needle (String c r)) eqn:Hs.
    + inversion H; subst. split.
      * apply startsWith_dropN. exact Hs.
      * destruct needle; [congruence|]. reflexivity.
    + destruct (splitAtFirst needle r) as [[b a]|] eqn:Hr; [|discriminate].
      inversion H; subst. destruct (IH b after eq_refl) as [Heq Hno].
      split; [rewrite append_cons; f_equal; exact Heq|].
      rewrite strIncludes_cons, Hno, orb_false_r.
      destruct (startsWith needle (String c b)) eqn:Hb; [|reflexivity].
      apply (startsWith_app _ _ (needle +:+ after)) in Hb.
      rewrite append_cons, <- Heq in Hb. congruence.
Qed.

Lemma stripLang_split (s : string) :
  exists lang,
    (lang = "" \/ lang = "json" \/ lang = "javascript") /\
    s = lang +:+ stripLang s.
Proof.
  unfold stripLang. destruct (startsWith "json" s) eqn:H1.
  - exists "json". split; [auto|].
    apply (startsWith_dropN "json"). exact H1.
  - destruct (startsWith "javascript" s) eqn:H2.
    + exists "javascript". split; [auto|].
      apply (startsWith_dropN "javascript"). exact H2.
    + exists "". auto.
Qed.

Lemma trimStart_split (s : string) :
  exists ws, allSpace ws = true /\ s = ws +:+ trimStart s.
Proof.
  induction s as [|c r IH]; [exists ""; auto|].
  cbn [trimStart]. destruct (isSpace c) eqn:Hc.
  - destruct IH as [ws [Hws Heq]]. exists (String c ws). split.
    + cbn [allSpace]. rewrite Hc, Hws. reflexivity.
    + rewrite append_cons. f_equal. exact Heq.
  - exists "". auto.
Qed.

Lemma trimEnd_split (s : string) :
  exists ws, allSpace ws = true /\ s = trimEnd s +:+ ws.
Proof.
  induction s as [|c r IH]; [exists ""; auto|].
  cbn [trimEnd]. destruct (allSpace (String c r)) eqn:Ha.
  - exists (String c r). auto.
  - destruct IH as [ws [Hws Heq]]. exists ws. split; [exact Hws|].
    rewrite append_cons. f_equal. exact Heq.
Qed.

Lemma trimStart_no_lead (s : string) :
  match trimStart s with
  | "" => True
  | String c _ => isSpace c = false
  end.
Proof.
  induction s as [|c r IH]; [exact I|].
  cbn [trimStart]. destruct (isSpace c) eqn:Hc; [exact IH|exact Hc].
Qed.

Lemma strIncludes_app_l (needle : string) :
  forall x y : string,
    strIncludes needle x = true -> strIncludes needle (x +:+ y) = true.
Proof.
  intros x. induction x as [|c x IH]; intros y H.
  - destruct needle as [|a needle]; [|discriminate].
    destruct y; reflexivity.
  - rewrite append_cons, strIncludes_cons. rewrite strIncludes_cons in H.
    apply orb_true_iff in H. destruct H as [H|H].
    + apply (startsWith_app _ _ y) in H. rewrite append_cons in H.
      rewrite H. reflexivity.
    + rewrite (IH y H). apply orb_true_r.
Qed.

(** X16: whenever the fenced branch of [cleanJsonResponse] is taken, the
    response really has the fenced form around the cleaned text: some text
    without a fence, a fence, an optional language tag [json] or
    [javascript], whitespace, the cleaned text, whitespace, a fence and the
    rest; and the cleaned text holds no fence and does not begin with
    whitespace. *)
Theorem fenced_branch_sound (responseText interior : string) :
  codeBlockMatch responseText = Some interior ->
  let cleaned := cleanJsonResponse responseText in
  exists before lang ws1 ws2 after,
    responseText = fenced before lang ws1 cleaned ws2 after /\
    strIncludes fence before = false /\
    (lang = "" \/ lang = "json" \/ lang = "javascript") /\
    allSpace ws1 = true /\ allSpace ws2 = true /\
    strIncludes fence cleaned = false /\
    trimStart cleaned = cleaned.
Proof.
  intros Hm cleaned.
  assert (Hc : cleaned = trim interior)
    by (unfold cleaned, cleanJsonResponse; rewrite Hm; reflexivity).
  unfold codeBlockMatch in Hm.
  assert (Hfence : fence <> "") by discriminate.
  destruct (splitAtFirst fence responseText) as [[before rest]|] eqn:H1;
    [|discriminate].
  destruct (splitAtFirst fence (trimStart (stripLang rest)))
    as [[i after]|] eqn:H2; [|discriminate].
  inversion Hm; subst i. clear Hm.
  destruct (splitAtFirst_spec fence Hfence _ _ _ H1) as [Hr Hb].
  destruct (splitAtFirst_spec fence Hfence _ _ _ H2) as [Hi Hno].
  destruct (stripLang_split rest) as [lang [Hlang Hrest]].
  destruct (trimStart_split (stripLang rest)) as [ws1 [Hws1 Hts]].
  assert (Hlead : trimStart interior = interior).
  { pose proof (trimStart_no_lead (stripLang rest)) as Hl. rewrite Hi in Hl.
    destruct interior as [|c r]; [reflexivity|].
    rewrite append_cons in Hl. cbn [trimStart]. rewrite Hl. reflexivity. }
  assert (Htrim : cleaned = trimEnd interior)
    by (rewrite Hc; unfold trim; rewrite Hlead; reflexivity).
  destruct (trimEnd_split interior) as [ws2 [Hws2 Hsplit]].
  rewrite <- Htrim in Hsplit.
  exists before, lang, ws1, ws2, after. unfold fenced.
  repeat split; try assumption.
  - rewrite Hr at 1. f_equal. f_equal. rewrite Hrest at 1. f_equal.
    rewrite Hts at 1. f_equal. rewrite Hi, Hsplit.
    rewrite !append_assoc. reflexivity.
  - destruct (strIncludes fence cleaned) eqn:E; [|reflexivity].
    apply (strIncludes_app_l _ _ ws2) in E. rewrite <- Hsplit in E.
    congruence.
  - rewrite Hsplit in Hlead.
    destruct cleaned as [|c r]; [reflexivity|].
    rewrite append_cons in Hlead. cbn [trimStart] in Hlead |- *.
    destruct (isSpace c); [|reflexivity].
    exfalso.
    assert (Hlen : forall s, (String.length (trimStart s)
                              <= String.length s)%nat).
    { induction s as [|c' s' IHs]; [simpl; lia|].
      cbn [trimStart]. destruct (isSpace c'); simpl; simpl in IHs; lia. }
    pose proof (Hlen (r +:+ ws2)) as Hl. rewrite Hlead in Hl.
    simpl in Hl. lia.
Qed.

(** X16, witness: a fenced empty questions object with prose around it. *)
Lemma fenced_branch_sound_witness :
  let response :=
    fenced "Here are the questions: " "json" newline emptyQuestionsJson
      newline " Good luck!" in
  exists before lang ws1 ws2 after,
    response = fenced before lang ws1 emptyQuestionsJson ws2 after /\
    strIncludes fence before = false.
Proof.
  intros response.
  destruct (fenced_branch_sound response (emptyQuestionsJson +:+ newline))
    as [before [lang [ws1 [ws2 [after [H1 [H2 _]]]]]]].
  - reflexivity.
  - exists before, lang, ws1, ws2, after. split; [exact H1|exact H2].
Defined.

Lemma singleSpaced_cons (b : bool) (c : ascii) (r : string) :
  singleSpaced b (String c r)
  = if isSpace c then (c =? " ")%char && negb b && singleSpaced true r
    else singleSpaced false r.
Proof. reflexivity. Qed.

Lemma collapseSpaces_cons (inRun : bool) (c : ascii) (r : string) :
  collapseSpaces inRun (String c r)
  = if isSpace c then
      if inRun then collapseSpaces true r
      else String " " (collapseSpaces true r)
    else String c (collapseSpaces false r).
Proof. reflexivity. Qed.

Lemma collapseSpaces_singleSpaced (s : string) :
  forall inRun : bool, singleSpaced inRun (collapseSpaces inRun s) = true.
Proof.
  induction s as [|c r IH]; intros inRun; [reflexivity|].
  rewrite collapseSpaces_cons. destruct (isSpace c) eqn:Hc.
  - destruct inRun; [apply IH|].
    rewrite singleSpaced_cons.
    change (isSpace " ") with true. cbv iota.
    rewrite IH. reflexivity.
  - rewrite singleSpaced_cons, Hc. apply IH.
Qed.

Lemma singleSpaced_weaken (b : bool) (s : string) :
  singleSpaced b s = true -> singleSpaced false s = true.
Proof.
  destruct s as [|c r]; [reflexivity|].
  rewrite !singleSpaced_cons. destruct (isSpace c); [|auto].
  destruct b; [|auto]. rewrite andb_false_r. discriminate.
Qed.

Lemma singleSpaced_tail (b : bool) (c : ascii) (r : string) :
  singleSpaced b (String c r) = true -> exists b', singleSpaced b' r = true.
Proof.
  rewrite singleSpaced_cons. destruct (isSpace c).
  - intros H. apply andb_true_iff in H. destruct H as [_ H]. eauto.
  - eauto.
Qed.

Lemma dropUntilOpen_singleSpaced (s : string) :
  forall b : bool,
    singleSpaced b s = true -> singleSpaced false (dropUntilOpen s) = true.
Proof.
  induction s as [|c r IH]; intros b H; [reflexivity|].
  rewrite dropUntilOpen_cons. destruct (c =? "{")%char.
  - eapply singleSpaced_weaken. exact H.
  - destruct (singleSpaced_tail b c r H) as [b' Hb']. eapply IH. exact Hb'.
Qed.

Lemma cutAfterLastClose_singleSpaced (s : string) :
  forall b : bool,
    singleSpaced b s = true -> singleSpaced b (cutAfterLastClose s) = true.
Proof.
  induction s as [|c r IH]; intros b H; [reflexivity|].
  rewrite cutAfterLastClose_cons.
  destruct ((c =? "}")%char && negb (hasClose r)); [reflexivity|].
  rewrite singleSpaced_cons in *. destruct (isSpace c).
  - apply andb_true_iff in H. destruct H as [-> H].
    rewrite (IH true H). reflexivity.
  - apply IH. exact H.
Qed.

Lemma starFree_cons (b : bool) (c : ascii) (r : string) :
  starFree b (String c r)
  = if (c =? "*")%char then negb b && starFree true r else starFree false r.
Proof. reflexivity. Qed.

Lemma starFree_weaken (b : bool) (s : string) :
  starFree b s = true -> starFree false s = true.
Proof.
  destruct s as [|c r]; [reflexivity|].
  rewrite !starFree_cons. destruct (c =? "*")%char; [|auto].
  destruct b; [discriminate|auto].
Qed.

Lemma starFree_tail (b : bool) (c : ascii) (r : string) :
  starFree b (String c r) = true -> exists b', starFree b' r = true.
Proof.
  rewrite starFree_cons. destruct (c =? "*")%char.
  - intros H. apply andb_true_iff in H. destruct H as [_ H]. eauto.
  - eauto.
Qed.

Lemma removeBold_cons2 (c c2 : ascii) (r2 : string) :
  removeBold (String c (String c2 r2))
  = if (c =? "*")%char && (c2 =? "*")%char then removeBold r2
    else String c (removeBold (String c2 r2)).
Proof. reflexivity. Qed.

(** After the removal a kept asterisk is never followed by another one. *)
Lemma removeBold_starFree_fuel (n : nat) :
  forall s : string,
    (String.length s <= n)%nat ->
    starFree false (removeBold s) = true /\
    (forall c r, s = String c r -> (c =? "*")%char = false ->
                 starFree true (removeBold s) = true).
Proof.
  induction n as [|n IH]; intros s Hlen.
  - destruct s; [|simpl in Hlen; lia]. split; [reflexivity|discriminate].
  - destruct s as [|c [|c2 r2]].
    + split; [reflexivity|discriminate].
    + split.
      * cbn [removeBold]. rewrite starFree_cons.
        destruct (c =? "*")%char; reflexivity.
      * intros c' r' Heq Hc'. inversion Heq; subst.
        cbn [removeBold]. rewrite starFree_cons, Hc'. reflexivity.
    + assert (H2 : (String.length r2 <= n)%nat) by (simpl in Hlen; lia).
      assert (H1 : (String.length (String c2 r2) <= n)%nat)
        by (simpl in Hlen |- *; lia).
      destruct (IH r2 H2) as [Hr2 _].
      destruct (IH (String c2 r2) H1) as [Hr Hr'].
      rewrite removeBold_cons2.
      destruct (c =? "*")%char eqn:Hc; destruct (c2 =? "*")%char eqn:Hc2;
        simpl andb; cbv iota.
      * split; [exact Hr2|]. intros c' r' Heq Hc'. inversion Heq; subst.
        congruence.
      * split.
        -- rewrite starFree_cons, Hc. simpl. apply (Hr' c2 r2 eq_refl Hc2).
        -- intros c' r' Heq Hc'. inversion Heq; subst. congruence.
      * split.
        -- rewrite starFree_cons, Hc. exact Hr.
        -- intros _ _ _ _. rewrite starFree_cons, Hc. exact Hr.
      * split.
        -- rewrite starFree_cons, Hc. exact Hr.
        -- intros _ _ _ _. rewrite starFree_cons, Hc. exact Hr.
Qed.

Lemma removeBold_starFree (s : string) : starFree false (removeBold s) = true.
Proof. apply (removeBold_starFree_fuel (String.length s) s). lia. Qed.

Lemma isNewline_not_star (c : ascii) :
  isNewline c = true -> (c =? "*")%char = false.
Proof.
  intros H. destruct (c =? "*")%char eqn:E; [|reflexivity].
  apply Ascii.eqb_eq in E. subst c. discriminate.
Qed.

Lemma isSpace_not_star (c : ascii) :
  isSpace c = true -> (c =? "*")%char = false.
Proof.
  intros H. destruct (c =? "*")%char eqn:E; [|reflexivity].
  apply Ascii.eqb_eq in E. subst c. discriminate.
Qed.

Lemma joinLines_cons (seenQuote replacing : bool) (c : ascii) (r : string) :
  joinLines seenQuote replacing (String c r)
  = if isNewline c then
      if replacing then joinLines seenQuote true r
      else if seenQuote && hasQuote r
           then String " " (joinLines seenQuote true r)
           else String c (joinLines seenQuote false r)
    else String c (joinLines (seenQuote || (c =? dquote)%char) false r).
Proof. reflexivity. Qed.

Lemma joinLines_starFree (s : string) :
  forall seenQuote replacing b : bool,
    starFree b s = true ->
    starFree (b && negb replacing) (joinLines seenQuote replacing s) = true.
Proof.
  induction s as [|c r IH]; intros seenQuote replacing b H; [reflexivity|].
  rewrite joinLines_cons. rewrite starFree_cons in H.
  destruct (isNewline c) eqn:Hn.
  - rewrite (isNewline_not_star c Hn) in H.
    destruct replacing.
    + rewrite andb_false_r. apply (IH seenQuote true false H).
    + destruct (seenQuote && hasQuote r).
      * rewrite starFree_cons. change (" " =? "*")%char with false.
        cbv iota. apply (IH seenQuote true false H).
      * rewrite starFree_cons, (isNewline_not_star c Hn).
        apply (IH seenQuote false false H).
  - rewrite starFree_cons. destruct (c =? "*")%char.
    + apply andb_true_iff in H. destruct H as [Hb H].
      apply negb_true_iff in Hb. subst b. simpl.
      apply (IH _ false true H).
    + apply (IH _ false false H).
Qed.

Lemma collapseSpaces_starFree (s : string) :
  forall inRun b : bool,
    starFree b s = true ->
    starFree (b && negb inRun) (collapseSpaces inRun s) = true.
Proof.
  induction s as [|c r IH]; intros inRun b H; [reflexivity|].
  rewrite collapseSpaces_cons. rewrite starFree_cons in H.
  destruct (isSpace c) eqn:Hs.
  - rewrite (isSpace_not_star c Hs) in H.
    destruct inRun.
    + rewrite andb_false_r. apply (IH true false H).
    + rewrite starFree_cons. change (" " =? "*")%char with false.
      cbv iota. apply (IH true false H).
  - rewrite starFree_cons. destruct (c =? "*")%char.
    + apply andb_true_iff in H. destruct H as [Hb H].
      apply negb_true_iff in Hb. subst b. simpl.
      apply (IH false true H).
    + apply (IH false false H).
Qed.

Lemma dropUntilOpen_starFree (s : string) :
  forall b : bool,
    starFree b s = true -> starFree false (dropUntilOpen s) = true.
Proof.
  induction s as [|c r IH]; intros b H; [reflexivity|].
  rewrite dropUntilOpen_cons. destruct (c =? "{")%char.
  - eapply starFree_weaken. exact H.
  - destruct (starFree_tail b c r H) as [b' Hb']. eapply IH. exact Hb'.
Qed.

Lemma cutAfterLastClose_starFree (s : string) :
  forall b : bool,
    starFree b s = true -> starFree b (cutAfterLastClose s) = true.
Proof.
  induction s as [|c r IH]; intros b H; [reflexivity|].
  rewrite cutAfterLastClose_cons.
  destruct ((c =? "}")%char && negb (hasClose r)); [reflexivity|].
  rewrite starFree_cons in *. destruct (c =? "*")%char.
  - apply andb_true_iff in H. destruct H as [-> H].
    rewrite (IH true H). reflexivity.
  - apply IH. exact H.
Qed.

Lemma starFree_no_bold (s : string) :
  forall b : bool, starFree b s = true -> strIncludes "**" s = false.
Proof.
  induction s as [|c r IH]; intros b H; [reflexivity|].
  rewrite strIncludes_cons. rewrite starFree_cons in H.
  rewrite startsWith_cons.
  destruct (c =? "*")%char eqn:Hc.
  - apply andb_true_iff in H. destruct H as [_ H].
    rewrite (IH true H), orb_false_r.
    destruct r as [|c2 r2]; [apply andb_false_r|].
    rewrite startsWith_cons. rewrite starFree_cons in H.
    rewrite (Ascii.eqb_sym "*" c2).
    destruct (c2 =? "*")%char; [discriminate|].
    simpl. apply andb_false_r.
  - rewrite (Ascii.eqb_sym "*" c), Hc. simpl. eapply IH. exact H.
Qed.

(** X17: the cleaned text of a response without a fenced block is on one
    line and regular: its only whitespace characters are spaces, no two of
    them adjacent, and it holds no bold marker [**]. *)
Theorem unfenced_cleaned_regular (responseText : string) :
  codeBlockMatch responseText = None ->
  singleSpaced false (cleanJsonResponse responseText) = true /\
  strIncludes "**" (cleanJsonResponse responseText) = false.
Proof.
  intros Hnone. unfold cleanJsonResponse. rewrite Hnone. split.
  - apply cutAfterLastClose_singleSpaced.
    apply (dropUntilOpen_singleSpaced _ false).
    apply collapseSpaces_singleSpaced.
  - apply (starFree_no_bold _ false).
    apply cutAfterLastClose_starFree.
    apply (dropUntilOpen_starFree _ false).
    apply (collapseSpaces_starFree _ false false).
    apply (joinLines_starFree _ false false false).
    apply removeBold_starFree.
Qed.

(** X17, witness: a response on several lines with bold markers and runs of
    spaces. *)
Lemma unfenced_cleaned_regular_witness :
  let response :=
    "**Answer**:" +:+ newline +:+ "{ " +:+ quoted "questions" +:+ " :   [] }"
    +:+ newline +:+ "Bye" in
  singleSpaced false (cleanJsonResponse response) = true /\
  strIncludes "**" (cleanJsonResponse response) = false.
Proof.
  intros response. apply unfenced_cleaned_regular. reflexivity.
Defined.

(** ** The controller's check of the distribution *)

Lemma isValidItem_typed (item : RawDistItem.t) :
  Controller.isValidItem item = true <->
  exists distItem,
    item = rawItem distItem /\
    (1 <= DistItem.count distItem <= 25)%nat /\
    (0 < DistItem.marks distItem)%Z.
Proof.
  split.
  - destruct item as [ty di co ma]. unfold Controller.isValidItem.
    cbn [RawDistItem.type RawDistItem.difficulty RawDistItem.count
         RawDistItem.marks].
    intros H.
    apply andb_true_iff in H. destruct H as [H Hma].
    apply andb_true_iff in H. destruct H as [H Hco25].
    apply andb_true_iff in H. destruct H as [H Hco].
    apply andb_true_iff in H. destruct H as [Hty Hdi].
    apply includes_In in Hty. apply includes_In in Hdi.
    destruct co as [| | |c| |]; try discriminate.
    destruct ma as [| | |m| |]; try discriminate.
    cbn [Controller.positiveInteger Controller.atMost25] in *.
    apply Z.ltb_lt in Hco. apply Z.leb_le in Hco25. apply Z.ltb_lt in Hma.
    assert (Ht : exists t, ty = JStr (typeName t)).
    { cbn [In] in Hty.
      destruct Hty as [<- | [<- | [<- | [<- | [<- | [<- | [<- | []]]]]]]];
        [exists Mcq | exists Short | exists Long | exists Diagram
         | exists Code | exists Hots | exists CaseStudy]; reflexivity. }
    assert (Hd : exists d, di = JStr (difficultyName d)).
    { cbn [In] in Hdi. destruct Hdi as [<- | [<- | [<- | []]]];
        [exists Easy | exists Medium | exists Hard]; reflexivity. }
    destruct Ht as [t ->]. destruct Hd as [d ->].
    exists (DistItem.mk t d (Z.to_nat c) m). unfold rawItem.
    cbn [DistItem.type DistItem.difficulty DistItem.count DistItem.marks].
    rewrite Z2Nat.id by lia. repeat split; try reflexivity; lia.
  - intros [[t d n m] [-> [Hn Hm]]]. unfold Controller.isValidItem, rawItem.
    cbn [DistItem.type DistItem.difficulty DistItem.count DistItem.marks
         RawDistItem.type RawDistItem.difficulty RawDistItem.count
         RawDistItem.marks Controller.positiveInteger Controller.atMost25]
      in *.
    assert (H1 : (0 <? Z.of_nat n)%Z = true) by (apply Z.ltb_lt; lia).
    assert (H2 : (Z.of_nat n <=? 25)%Z = true) by (apply Z.leb_le; lia).
    assert (H3 : (0 <? m)%Z = true) by (apply Z.ltb_lt; lia).
    rewrite H1, H2, H3, !andb_true_r.
    apply andb_true_iff. split.
    + apply In_includes. destruct t; cbn [typeName In]; auto 10.
    + apply In_includes. destruct d; cbn [difficultyName In]; auto.
Qed.

(** X18: the controller's check accepts a distribution exactly when it is
    the request form of a typed distribution (each type one of the seven,
    each difficulty one of the three) in which every count lies between 1
    and 25 and every marks value is positive. *)
Theorem isValidDistribution_typed (questionDistribution : list RawDistItem.t) :
  Controller.isValidDistribution questionDistribution = true <->
  exists typed : list DistItem.t,
    questionDistribution = map rawItem typed /\
    forall distItem, In distItem typed ->
      (1 <= DistItem.count distItem <= 25)%nat /\
      (0 < DistItem.marks distItem)%Z.
Proof.
  unfold Controller.isValidDistribution.
  induction questionDistribution as [|item rest IH].
  - split; [|reflexivity]. intros _. exists []. split; [reflexivity|].
    intros ? [].
  - cbn [forallb]. rewrite andb_true_iff, IH, isValidItem_typed. split.
    + intros [[d [-> Hd]] [typed [-> Ht]]]. exists (d :: typed).
      split; [reflexivity|]. intros x [<- | Hx]; [exact Hd|apply Ht, Hx].
    + intros [typed [Heq Ht]]. destruct typed as [|d typed]; [discriminate|].
      simpl in Heq. injection Heq as -> ->. split.
      * exists d. split; [reflexivity|]. apply Ht. left. reflexivity.
      * exists typed. split; [reflexivity|]. intros x Hx. apply Ht. right.
        exact Hx.
Qed.

(** ** The total number of questions *)

Lemma fold_left_sum {A} (f : A -> nat) (l : list A) :
  forall a : nat,
    fold_left (fun sum x => (sum + f x)%nat) l a
    = (a + list_sum (map f l))%nat.
Proof.
  induction l as [|x l IH]; intros a; simpl; [lia|]. rewrite IH. lia.
Qed.

Lemma filter_length_split {A} (f : A -> bool) (l : list A) :
  length l
  = (length (List.filter f l)
     + length (List.filter (fun x => negb (f x)) l))%nat.
Proof.
  induction l as [|x l IH]; [reflexivity|].
  simpl. destruct (f x); simpl; lia.
Qed.

Lemma inBucket_same (a b : DistItem.t) (q : Question.t) :
  inBucket a q = true -> inBucket b q = true -> bucketOf a = bucketOf b.
Proof.
  unfold inBucket. intros Ha Hb.
  apply isOf_spec in Ha. apply isOf_spec in Hb.
  destruct Ha as [Ha1 Ha2]. destruct Hb as [Hb1 Hb2].
  rewrite Ha1 in Hb1. rewrite Ha2 in Hb2.
  injection Hb1 as Hb1. injection Hb2 as Hb2.
  apply typeName_inj in Hb1. apply difficultyName_inj in Hb2.
  unfold bucketOf. congruence.
Qed.

Lemma bucket_partition (dist : list DistItem.t) :
  List.NoDup (map bucketOf dist) ->
  forall l : list Question.t,
    (forall q, In q l ->
       exists distItem, In distItem dist /\ inBucket distItem q = true) ->
    length l
    = list_sum
        (map (fun distItem => length (List.filter (inBucket distItem) l))
           dist).
Proof.
  induction dist as [|item rest IH]; intros Hnd l Hall.
  - destruct l as [|q l]; [reflexivity|].
    destruct (Hall q (or_introl eq_refl)) as [x [[] _]].
  - inversion Hnd as [|? ? Hnotin Hnd']; subst.
    cbn [map].
    change (list_sum (?a :: ?b)) with (a + list_sum b)%nat.
    rewrite (filter_length_split (inBucket item) l) at 1. f_equal.
    rewrite (IH Hnd' (List.filter (fun q => negb (inBucket item q)) l)).
    + f_equal. apply map_ext_in. intros item' Hin'. f_equal.
      rewrite filter_filter_and.
      apply List.filter_ext_in. intros q _.
      destruct (inBucket item q) eqn:Hb; [|reflexivity]. simpl.
      destruct (inBucket item' q) eqn:Hb'; [|reflexivity].
      exfalso. apply Hnotin.
      rewrite (inBucket_same item item' q Hb Hb').
      apply List.in_map. exact Hin'.
    + intros q Hq. apply List.filter_In in Hq. destruct Hq as [Hq Hneg].
      destruct (Hall q Hq) as [x [[<- | Hx] Hbx]].
      * rewrite Hbx in Hneg. discriminate.
      * exists x. auto.
Qed.

Lemma typeName_not_inherited (t : QType) : isInherited (typeName t) = false.
Proof. destruct t; reflexivity. Qed.

(** X19: when the distribution names each (type, difficulty) pair at most
    once, every given question belongs to a requested bucket, and no
    requested bucket is in surplus with repeated texts, the reconciler
    returns exactly as many questions as the controller's [totalCount], the
    sum of the requested counts. *)
Theorem ensureQuestionCount_total (generated : list Question.t)
  (distribution : list DistItem.t) (topic : JsVal) (subject : option string)
  (count : nat) :
  distribution <> [] ->
  List.NoDup (map bucketOf distribution) ->
  (forall q, In q generated ->
     exists distItem,
       In distItem distribution /\ inBucket distItem q = true) ->
  (forall distItem, In distItem distribution ->
     let bucket := List.filter (inBucket distItem) generated in
     (length bucket <= DistItem.count distItem)%nat \/
     (List.NoDup (map Question.text bucket) /\
      forall q, In q bucket -> Question.text q <> JNaN)) ->
  exists out,
    ensureQuestionCount generated distribution topic subject = Ok out /\
    length out = Controller.totalCount distribution count.
Proof.
  intros Hne Hnd Hall Hcond.
  assert (Hok : forall q, In q generated ->
                  isInherited (toString (Question.type q)) = false).
  { intros q Hq. destruct (Hall q Hq) as [x [_ Hb]].
    apply isOf_spec in Hb. destruct Hb as [-> _]. simpl.
    apply typeName_not_inherited. }
  destruct (reconciler_bucket_contents generated distribution topic subject
              Hok Hnd) as [out [Hout [Hb _]]].
  exists out. split; [exact Hout|].
  assert (Hin : forall q, In q out ->
            exists distItem,
              In distItem distribution /\ inBucket distItem q = true).
  { intros q Hq.
    apply ensureQuestionCount_Ok in Hout. destruct Hout as [org [Ho ->]].
    apply flatten_In in Hq. destruct Hq as [k [_ Hq]].
    eapply final_elem in Hq; [|exact Ho].
    destruct Hq as [_ [Hq | [x [i [texts [Hx ->]]]]]].
    - apply Hall, Hq.
    - exists x. split; [exact Hx|]. apply synthesize_inBucket. }
  rewrite (bucket_partition distribution Hnd out Hin).
  unfold Controller.totalCount.
  destruct distribution as [|d0 rest] eqn:Hd; [congruence|]. rewrite <- Hd in *.
  rewrite fold_left_sum. simpl. f_equal. apply map_ext_in.
  intros x Hx. rewrite (Hb x Hx (Hcond x Hx)). apply reconciledBucket_length.
Qed.

(** X19, witness: the end-to-end scenario, four questions in all. *)
Lemma ensureQuestionCount_total_witness :
  exists out,
    ensureQuestionCount scenarioQuestions scenarioDistribution
      (JStr "Thermodynamics") (Some "Physics") = Ok out /\
    length out = 4%nat.
Proof.
  apply (ensureQuestionCount_total scenarioQuestions scenarioDistribution
           (JStr "Thermodynamics") (Some "Physics") 5).
  - discriminate.
  - apply NoDup_ListNoDup, (bool_decide_unpack _). vm_compute. exact I.
  - intros q Hq. exists (DistItem.mk Mcq Easy 3 2). split; [left; reflexivity|].
    simpl in Hq. destruct Hq as [<- | [<- | []]]; reflexivity.
  - intros distItem Hd. left. simpl in Hd.
    destruct Hd as [<- | [<- | []]]; vm_compute; lia.
Defined.

(** ** The controller's repair of mcq questions *)

Lemma padOptions_four (l : list JsVal) :
  (length l < 4)%nat -> take 4 (padOptions 4 l) = padOptions 4 l.
Proof.
  intros H. destruct l as [|a [|b [|c [|d l]]]]; simpl in *; try reflexivity.
  lia.
Qed.

Lemma validatedQuestion_fires (nonArray : Controller.NonArrayOptions)
  (question : Question.t) :
  Question.type question = JStr "mcq" ->
  Controller.optionsNeedRepair nonArray (Question.options question) = true ->
  let options := validateMCQOptions (Question.options question) in
  Question.options (Controller.validatedQuestion nonArray question)
  = Some options /\
  Question.correctAnswer (Controller.validatedQuestion nonArray question)
  = if truthy (Question.correctAnswer question)
       && includes options (Question.correctAnswer question)
    then Question.correctAnswer question
    else firstOption options.
Proof.
  intros Hty Hneed options. unfold Controller.validatedQuestion.
  rewrite Hty, Hneed.
  change (strictEq (JStr "mcq") (JStr "mcq") && true) with true.
  cbv iota. cbn [Question.options Question.correctAnswer].
  assert (Hv : match Question.options question with
               | None =>
                   [JStr "Option A"; JStr "Option B"; JStr "Option C";
                    JStr "Option D"]
               | Some l =>
                   if (length l <? 4)%nat then padOptions 4 l
                   else if (4 <? length l)%nat then take 4 l else l
               end = options).
  { unfold options. destruct (Question.options question) as [l|];
      [|reflexivity].
    unfold validateMCQOptions.
    destruct (length l <? 4)%nat eqn:Hlt; [|reflexivity].
    apply Nat.ltb_lt in Hlt. symmetry. apply padOptions_four. exact Hlt. }
  rewrite Hv. split; [reflexivity|].
  destruct (truthy (Question.correctAnswer question));
    destruct (includes options (Question.correctAnswer question));
    reflexivity.
Qed.

(** X20: on an mcq question the guard of the controller's repair fires when
    [options] is falsy or has a length other than four, whether it is an
    array or not.  When it fires, the repair yields the options and the
    answer the normalizer yields, so that the question has four options and
    an answer among them.  When it does not fire (an array of exactly four
    options, or a value that is not an array and has the length four, such
    as a string of four characters) the controller returns the question as
    it is: it does not look at the answer, and it leaves in place a value
    the normalizer would replace.  On an array the options of the two
    always agree. *)
Theorem controller_repair_agrees_with_normalizer
  (nonArray : Controller.NonArrayOptions) (topic : JsVal)
  (question : Question.t) :
  Question.type question = JStr "mcq" ->
  let repaired := Controller.validatedQuestion nonArray question in
  let normalized := processQuestion topic question in
  (Controller.optionsNeedRepair nonArray (Question.options question) = true ->
   Question.options repaired = Question.options normalized /\
   Question.correctAnswer repaired = Question.correctAnswer normalized /\
   mcqWellFormed repaired) /\
  (Controller.optionsNeedRepair nonArray (Question.options question) = false ->
   repaired = question) /\
  (forall l, Question.options question = Some l ->
             Question.options repaired = Question.options normalized).
Proof.
  intros Hty repaired normalized.
  assert (Hn : mcqWellFormed normalized /\
               Question.options normalized
               = Some (validateMCQOptions (Question.options question)) /\
               Question.correctAnswer normalized
               = if truthy (Question.correctAnswer question)
                    && includes (validateMCQOptions (Question.options question))
                         (Question.correctAnswer question)
                 then Question.correctAnswer question
                 else firstOption
                        (validateMCQOptions (Question.options question))).
  { split.
    - apply processQuestion_mcq. unfold processQuestion.
      cbn [Question.type]. rewrite Hty. reflexivity.
    - unfold normalized, processQuestion.
      cbn [Question.options Question.correctAnswer]. rewrite Hty.
      split; reflexivity. }
  destruct Hn as [Hwf [Hopt Hans]].
  assert (Hfire :
    Controller.optionsNeedRepair nonArray (Question.options question) = true ->
    Question.options repaired = Question.options normalized /\
    Question.correctAnswer repaired = Question.correctAnswer normalized /\
    mcqWellFormed repaired).
  { intros Hneed.
    destruct (validatedQuestion_fires nonArray question Hty Hneed)
      as [Ho Ha].
    cbv zeta in Ho, Ha. fold repaired in Ho, Ha.
    assert (Hoe : Question.options repaired = Question.options normalized)
      by (rewrite Ho, Hopt; reflexivity).
    assert (Hae : Question.correctAnswer repaired
                  = Question.correctAnswer normalized)
      by (rewrite Ha, Hans; reflexivity).
    split; [exact Hoe|]. split; [exact Hae|].
    destruct Hwf as [o [Hwo [Hlen Hin]]].
    exists o. rewrite Hoe, Hae. auto. }
  assert (Hskip :
    Controller.optionsNeedRepair nonArray (Question.options question) = false ->
    repaired = question).
  { intros Hneed. unfold repaired, Controller.validatedQuestion.
    rewrite Hneed, andb_false_r. reflexivity. }
  split; [exact Hfire|]. split; [exact Hskip|].
  intros l Hl.
  destruct (Controller.optionsNeedRepair nonArray (Question.options question))
    eqn:Hneed.
  - apply Hfire. reflexivity.
  - rewrite (Hskip eq_refl), Hopt, Hl. f_equal.
    rewrite Hl in Hneed. cbn [Controller.optionsNeedRepair] in Hneed.
    apply negb_false_iff, Nat.eqb_eq in Hneed.
    unfold validateMCQOptions. rewrite Hneed. reflexivity.
Qed.

(** X20, witness: an mcq question with two options and an answer that is none
    of them. *)
Lemma controller_repair_agrees_with_normalizer_witness :
  let question :=
    rawQuestion (JStr "Q") (JStr "mcq") (JStr "easy") (JNum 2)
      (Some [JStr "x"; JStr "y"]) (JStr "z") in
  let repaired :=
    Controller.validatedQuestion Controller.FalsyOptions question in
  Question.options repaired
  = Some [JStr "x"; JStr "y"; JStr "Option C"; JStr "Option D"] /\
  Question.correctAnswer repaired = JStr "x".
Proof.
  intros question repaired.
  destruct (controller_repair_agrees_with_normalizer Controller.FalsyOptions
              (JStr "T") question eq_refl) as [Hfire _].
  destruct (Hfire eq_refl) as [Hopt [Hans _]].
  split; [exact Hopt|exact Hans].
Defined.

(** Where the two part: an mcq question whose [options] is a string of four
    characters passes the guard of the controller and is returned as it
    is, while the normalizer replaces the string by the four generic
    options. *)
Lemma controller_skips_non_array_of_length_four :
  let question :=
    rawQuestion (JStr "Q") (JStr "mcq") (JStr "easy") (JNum 2) None
      JUndefined in
  Controller.validatedQuestion (Controller.TruthyOptions (JNum 4)) question
  = question /\
  Question.options (processQuestion (JStr "T") question)
  = Some [JStr "Option A"; JStr "Option B"; JStr "Option C"; JStr "Option D"].
Proof. split; reflexivity. Qed.

(** ** From the completion to the response *)

Lemma pipeline_mcq (questions : list Question.t)
  (distribution : list DistItem.t) (topic : JsVal) (subject : option string)
  (out : list Question.t) (q : Question.t) :
  ensureQuestionCount (processQuestions questions topic) distribution
    topic subject = Ok out ->
  In q out -> Question.type q = JStr "mcq" -> mcqWellFormed q.
Proof.
  intros Hout Hq Hty.
  apply ensureQuestionCount_Ok in Hout. destruct Hout as [org [Ho ->]].
  apply flatten_In in Hq. destruct Hq as [k [_ Hq]].
  eapply final_elem in Hq; [|exact Ho].
  destruct Hq as [_ [Hq | [x [i [texts [Hx ->]]]]]].
  - unfold processQuestions in Hq. apply List.in_map_iff in Hq.
    destruct Hq as [raw [<- _]]. apply processQuestion_mcq, Hty.
  - apply synthesize_mcq. rewrite synthesize_type in Hty.
    injection Hty as Hty. apply (typeName_inj _ Mcq), Hty.
Qed.

Lemma validatedQuestion_wellFormed (nonArray : Controller.NonArrayOptions)
  (q : Question.t) :
  (Question.type q = JStr "mcq" -> mcqWellFormed q) ->
  Controller.validatedQuestion nonArray q = q.
Proof.
  intros H. unfold Controller.validatedQuestion.
  destruct (strictEq (Question.type q) (JStr "mcq")) eqn:Hty; [|reflexivity].
  apply strictEq_str in Hty. destruct (H Hty) as [o [Ho [Hlen _]]].
  rewrite Ho. cbn [Controller.optionsNeedRepair]. rewrite Hlen. reflexivity.
Qed.

Section Pipeline.

Variable JSON_parse : string -> option Json.

Variable lastResort : string -> option Json.

Variable questionOfJson : Json -> Question.t.

Local Abbreviation service :=
  (generateQuestions JSON_parse lastResort questionOfJson).

Lemma generateQuestions_Ok (completion : result (option string))
  (topic : JsVal) (distribution : list DistItem.t) (subject : option string)
  (out : list Question.t) :
  service completion topic distribution subject = Ok out ->
  exists items,
    let processedQuestions :=
      processQuestions (map questionOfJson items) topic in
    (distribution = [] /\ out = processedQuestions) \/
    ensureQuestionCount processedQuestions distribution topic subject
    = Ok out.
Proof.
  unfold generateQuestions. intros H.
  destruct completion as [content|msg]; [|discriminate].
  destruct (parseResponse _ _ _) as [[attempt parsed]|]; [|discriminate].
  destruct (questionsArray parsed) as [items|]; [|discriminate].
  destruct (existsb _ items); [discriminate|].
  exists items. cbv zeta.
  destruct distribution as [|d rest].
  - left. split; [reflexivity|]. inversion H. reflexivity.
  - right.
    destruct (ensureQuestionCount _ (d :: rest) topic subject) as [l|m];
      [|discriminate].
    exact H.
Qed.

End Pipeline.

(** X21: the controller's repair of mcq questions never changes what the
    service returns: every mcq question the service hands over, from the
    normalizer or synthesized by the reconciler, already has an array of
    four options, so [validatedQuestions] is the list the service returned,
    whatever stands for [options] in the questions that have no array. *)
Theorem controller_repair_is_identity_on_service_output
  (JSON_parse : string -> option Json) (lastResort : string -> option Json)
  (questionOfJson : Json -> Question.t)
  (completion : result (option string)) (topic : JsVal)
  (distribution : list DistItem.t) (subject : option string)
  (questions : list Question.t)
  (nonArray : Question.t -> Controller.NonArrayOptions) :
  generateQuestions JSON_parse lastResort questionOfJson completion topic
    distribution subject = Ok questions ->
  map (fun question =>
         Controller.validatedQuestion (nonArray question) question)
    questions
  = questions.
Proof.
  intros H. apply generateQuestions_Ok in H. destruct H as [items H].
  cbv zeta in H.
  rewrite <- (map_id questions) at 2. apply map_ext_in. intros q Hq.
  apply validatedQuestion_wellFormed. intros Hty.
  destruct H as [[_ ->] | H].
  - unfold processQuestions in Hq. apply List.in_map_iff in Hq.
    destruct Hq as [raw [<- _]]. apply processQuestion_mcq, Hty.
  - eapply pipeline_mcq; eassumption.
Qed.

(** X21, witness: an answer with an empty questions array against a request
    for two mcq questions. *)
Lemma controller_repair_is_identity_on_service_output_witness :
  let parsed := JsonObject [("questions", JsonArray [])] in
  let service :=
    generateQuestions (parseOnly emptyQuestionsJson parsed) (fun _ => None)
      (fun _ => rawQuestion JUndefined JUndefined JUndefined JUndefined None
                  JUndefined) in
  exists questions,
    service (Ok (Some emptyQuestionsJson)) (JStr "T")
      [DistItem.mk Mcq Easy 2 2] (Some "Physics") = Ok questions /\
    length questions = 2%nat /\
    map (Controller.validatedQuestion Controller.FalsyOptions) questions
    = questions.
Proof.
  intros parsed service.
  destruct (service (Ok (Some emptyQuestionsJson)) (JStr "T")
              [DistItem.mk Mcq Easy 2 2] (Some "Physics"))
    as [questions|msg] eqn:H.
  - exists questions. split; [reflexivity|]. split.
    + vm_compute in H. injection H as <-. reflexivity.
    + exact (controller_repair_is_identity_on_service_output _ _ _ _ _ _ _ _
               (fun _ => Controller.FalsyOptions) H).
  - vm_compute in H. discriminate.
Defined.

Lemma processQuestion_inherited_type (topic : JsVal) (question : Question.t) :
  isInherited (toString (Question.type question)) = true ->
  Question.type (processQuestion topic question) = Question.type question.
Proof.
  intros H. unfold processQuestion. cbn [Question.type].
  apply jsOr_truthy.
  destruct (Question.type question) as [| |b|z| |s]; try discriminate.
  - destruct b; discriminate.
  - destruct z; [discriminate|reflexivity|reflexivity].
  - destruct s; [discriminate|reflexivity].
Qed.

(** X22: when the model's answer parses and holds a questions array, the
    distribution is not empty and one of the questions has a type that
    names a property of [Object.prototype], the service does not report
    the [TypeError] of the reconciler: the error it raises is the one of a
    failed parse. *)
Theorem inherited_type_is_reported_as_parse_failure
  (JSON_parse : string -> option Json) (lastResort : string -> option Json)
  (questionOfJson : Json -> Question.t)
  (content : option string) (topic : JsVal)
  (distribution : list DistItem.t) (subject : option string)
  (attempt : ParseAttempt) (parsedResponse : Json) (items : list Json) :
  parseResponse JSON_parse (laterAttempts JSON_parse lastResort)
    (default "" content) = Some (attempt, parsedResponse) ->
  questionsArray parsedResponse = Some items ->
  distribution <> [] ->
  (exists item,
      In item items /\
      isInherited (toString (Question.type (questionOfJson item))) = true) ->
  generateQuestions JSON_parse lastResort questionOfJson (Ok content) topic
    distribution subject
  = Throw "Failed to parse response from AI model".
Proof.
  intros Hparse Harr Hne [item [Hin Hinh]]. unfold generateQuestions.
  rewrite Hparse, Harr. destruct (existsb _ items); [reflexivity|].
  cbv zeta. destruct distribution as [|d rest]; [congruence|].
  destruct (ensureQuestionCount_throws
              (processQuestions (map questionOfJson items) topic)
              (d :: rest) topic subject) as [msg ->]; [|reflexivity].
  exists (processQuestion topic (questionOfJson item)). split.
  - unfold processQuestions. apply List.in_map, List.in_map. exact Hin.
  - rewrite processQuestion_inherited_type by exact Hinh. exact Hinh.
Qed.

(** X22, witness: a question of type constructor. *)
Lemma inherited_type_is_reported_as_parse_failure_witness :
  let json := "{}" in
  let element := JsonObject [("type", JsonString "constructor")] in
  let parsed := JsonObject [("questions", JsonArray [element])] in
  generateQuestions (parseOnly json parsed) (fun _ => None)
    (fun _ => rawQuestion (JStr "Q") (JStr "constructor") (JStr "easy")
                (JNum 2) None JUndefined)
    (Ok (Some json)) (JStr "T") [DistItem.mk Mcq Easy 1 2] None
  = Throw "Failed to parse response from AI model".
Proof.
  intros json element parsed.
  apply (inherited_type_is_reported_as_parse_failure _ _ _ _ _ _ _
           FirstAttempt parsed [element]).
  - reflexivity.
  - reflexivity.
  - discriminate.
  - exists element. split; [left; reflexivity|reflexivity].
Defined.

(** ** The repaired text *)

Lemma removeControl_cons2 (c d : ascii) (r : string) :
  removeControl (String c (String d r))
  = if isControl c then removeControl (String d r)
    else if (nat_of_ascii c =? 194)%nat && (128 <=? nat_of_ascii d)%nat
            && (nat_of_ascii d <=? 159)%nat
         then removeControl r
         else String c (removeControl (String d r)).
Proof. reflexivity. Qed.

Lemma removeControl_controlFree_fuel (n : nat) :
  forall s : string,
    (String.length s <= n)%nat -> controlFree (removeControl s) = true.
Proof.
  induction n as [|n IH]; intros s Hlen.
  - destruct s; [reflexivity|simpl in Hlen; lia].
  - destruct s as [|c [|d r]]; [reflexivity| |].
    + cbn [removeControl]. destruct (isControl c) eqn:Hc; [reflexivity|].
      cbn [controlFree]. rewrite Hc. reflexivity.
    + assert (H1 : (String.length (String d r) <= n)%nat)
        by (simpl in Hlen |- *; lia).
      assert (H2 : (String.length r <= n)%nat) by (simpl in Hlen; lia).
      rewrite removeControl_cons2. destruct (isControl c) eqn:Hc.
      * apply IH, H1.
      * destruct ((nat_of_ascii c =? 194)%nat && (128 <=? nat_of_ascii d)%nat
                  && (nat_of_ascii d <=? 159)%nat).
        -- apply IH, H2.
        -- cbn [controlFree]. rewrite Hc. apply IH, H1.
Qed.

Lemma removeControl_controlFree (s : string) :
  controlFree (removeControl s) = true.
Proof. apply (removeControl_controlFree_fuel (String.length s)). lia. Qed.

Lemma isNewline_isControl (c : ascii) :
  isNewline c = true -> isControl c = true.
Proof.
  unfold isNewline, isControl. intros H. apply orb_true_iff in H.
  destruct H as [H|H]; apply Nat.eqb_eq in H; rewrite H; reflexivity.
Qed.

Lemma joinLines_controlFree (s : string) :
  forall seenQuote replacing : bool,
    controlFree s = true -> joinLines seenQuote replacing s = s.
Proof.
  induction s as [|c r IH]; intros seenQuote replacing H; [reflexivity|].
  cbn [controlFree] in H. apply andb_true_iff in H. destruct H as [Hc Hr].
  rewrite joinLines_cons.
  destruct (isNewline c) eqn:Hn.
  - apply isNewline_isControl in Hn. rewrite Hn in Hc. discriminate.
  - rewrite IH by exact Hr. reflexivity.
Qed.

(** X23: in the repaired text the last replacement, meant to turn line
    breaks inside strings into spaces, never applies: the removal of
    control characters before it has already deleted every line break.  So
    the repaired text is the result of the first five replacements, it
    holds no control character, and line breaks are deleted, not replaced
    by a space. *)
Theorem fixJson_never_joins_lines (jsonStr : string) :
  fixJson jsonStr
  = removeControl
      (removeTrailingCommas "]" false
         (removeTrailingCommas "}" false
            (escapeQuotes false None None (escapeBackslashes jsonStr)))) /\
  controlFree (fixJson jsonStr) = true.
Proof.
  unfold fixJson.
  rewrite joinLines_controlFree by apply removeControl_controlFree.
  split; [reflexivity|apply removeControl_controlFree].
Qed.

Lemma strIncludes_tail (needle : string) (c : ascii) (s : string) :
  strIncludes needle (String c s) = false -> strIncludes needle s = false.
Proof.
  rewrite strIncludes_cons. intros H. apply orb_false_iff in H. apply H.
Qed.

Lemma escapeBackslashes_id (s : string) :
  strIncludes (String backslash "") s = false -> escapeBackslashes s = s.
Proof.
  induction s as [|c r IH]; intros H; [reflexivity|].
  rewrite strIncludes_cons, startsWith_cons, startsWith_nil, andb_true_r in H.
  apply orb_false_iff in H. destruct H as [Hc Hr].
  rewrite Ascii.eqb_sym in Hc. cbn [escapeBackslashes]. rewrite Hc.
  rewrite IH by exact Hr. reflexivity.
Qed.

Lemma escapeQuotes_id (s : string) :
  forall p2 p1 : option ascii,
    strIncludes (quoted ":") (withContext p2 p1 s) = false ->
    escapeQuotes false p2 p1 s = s.
Proof.
  induction s as [|c r IH]; intros p2 p1 H; [reflexivity|].
  assert (Hnext : strIncludes (quoted ":")
                    (withContext p1 (Some c) r) = false).
  { unfold withContext in *. destruct p1 as [b|]; [|exact H].
    destruct p2 as [a|]; [|exact H].
    apply strIncludes_tail in H. exact H. }
  cbn [escapeQuotes]. rewrite andb_false_l.
  destruct (c =? dquote)%char eqn:Hc.
  - assert (Hkey : match p2, p1 with
                   | Some a, Some b => (a =? dquote)%char && (b =? ":")%char
                   | _, _ => false
                   end = false).
    { destruct p2 as [a|]; [|reflexivity].
      destruct p1 as [b|]; [|reflexivity].
      destruct ((a =? dquote)%char && (b =? ":")%char) eqn:E; [|reflexivity].
      apply andb_true_iff in E. destruct E as [Ea Eb].
      apply Ascii.eqb_eq in Ea, Eb, Hc. subst a b c.
      unfold withContext in H. rewrite strIncludes_cons in H. apply orb_false_iff in H.
      destruct H as [H _]. discriminate. }
    rewrite Hkey, (IH p1 (Some c) Hnext). reflexivity.
  - rewrite (IH p1 (Some c) Hnext). reflexivity.
Qed.

Lemma removeTrailingCommas_id (closer : ascii) (s : string) :
  hasTrailingComma closer s = false ->
  removeTrailingCommas closer false s = s.
Proof.
  induction s as [|c r IH]; intros H; [reflexivity|].
  cbn [hasTrailingComma] in H. apply orb_false_iff in H.
  destruct H as [Hc Hr]. cbn [removeTrailingCommas]. rewrite Hc.
  rewrite IH by exact Hr. reflexivity.
Qed.

Lemma removeControl_id (s : string) :
  controlFree s = true -> asciiText s = true -> removeControl s = s.
Proof.
  induction s as [|c r IH]; intros Hc Ha; [reflexivity|].
  cbn [controlFree] in Hc. cbn [asciiText] in Ha.
  apply andb_true_iff in Hc. destruct Hc as [Hc Hr].
  apply andb_true_iff in Ha. destruct Ha as [Ha Har].
  apply negb_true_iff in Hc. apply Nat.ltb_lt in Ha.
  destruct r as [|d r'].
  - cbn [removeControl]. rewrite Hc. reflexivity.
  - rewrite removeControl_cons2, Hc.
    assert (H194 : (nat_of_ascii c =? 194)%nat = false)
      by (apply Nat.eqb_neq; lia).
    rewrite H194. cbn [andb]. rewrite (IH Hr Har). reflexivity.
Qed.

(** X24: the repair changes nothing in a text that shows none of the
    defects it looks for: an ASCII text without control characters, without
    a backslash, without the three characters quote, colon, quote in a row,
    and without a comma that is followed (after whitespace) by a closing
    brace or bracket is its own repaired text, so that the second
    [JSON.parse] is given the text the first one rejected. *)
Theorem fixJson_identity (jsonStr : string) :
  asciiText jsonStr = true ->
  controlFree jsonStr = true ->
  strIncludes (String backslash "") jsonStr = false ->
  strIncludes (quoted ":") jsonStr = false ->
  hasTrailingComma "}" jsonStr = false ->
  hasTrailingComma "]" jsonStr = false ->
  fixJson jsonStr = jsonStr.
Proof.
  intros Ha Hc Hb Hq H1 H2. unfold fixJson.
  rewrite (escapeBackslashes_id jsonStr Hb).
  rewrite (escapeQuotes_id jsonStr None None Hq).
  rewrite (removeTrailingCommas_id "}" jsonStr H1).
  rewrite (removeTrailingCommas_id "]" jsonStr H2).
  rewrite (removeControl_id jsonStr Hc Ha).
  apply joinLines_controlFree. exact Hc.
Qed.

(** X24, witness: a text with an unquoted key, which no replacement touches.
    X24, witness: a text with an unquoted key, which no replacement touches. *)
Lemma fixJson_identity_witness :
  let jsonStr := "{ " +:+ quoted "questions" +:+ ": [ { text: 1 } ] }" in
  fixJson jsonStr = jsonStr.
Proof.
  intros jsonStr. apply fixJson_identity; reflexivity.
Defined.

(** ** Solving questions *)

Section SolveProperties.

Variable ClientState : Type.

Variable complete :
  ClientState -> string -> string -> result (option string) * ClientState.

Variable subject : option string.

Variable model : string.

Lemma solveQuestion_cases (st : ClientState) (question : JsVal) :
  (exists content,
      fst (solveQuestion ClientState complete st question subject model)
      = Ok content /\
      content <> "" /\
      fst (complete st (solvePrompt question) model) = Ok (Some content)) \/
  (exists msg,
      fst (solveQuestion ClientState complete st question subject model)
      = Throw ("Failed to solve question: " +:+ msg)).
Proof.
  unfold solveQuestion.
  destruct (complete st (solvePrompt question) model) as [[[content|]|msg] st'].
  - destruct (String.eqb_spec content "") as [->|Hne].
    + right. exists "Empty response from Groq API". reflexivity.
    + left. exists content. auto.
  - right. exists "Empty response from Groq API". reflexivity.
  - right. exists msg. reflexivity.
Qed.

Lemma solveEach_cons (st : ClientState) (question : JsVal)
  (rest : list JsVal) :
  fst (solveEach ClientState complete st (question :: rest) subject model)
  = match fst (solveQuestion ClientState complete st question subject model)
    with
    | Ok solvedQuestion => solvedQuestion
    | Throw msg => "Error: " +:+ msg
    end
    :: fst (solveEach ClientState complete
              (snd (solveQuestion ClientState complete st question subject
                      model))
              rest subject model).
Proof.
  cbn [solveEach].
  destruct (solveQuestion ClientState complete st question subject model)
    as [r st'].
  cbn [fst snd].
  destruct (solveEach ClientState complete st' rest subject model)
    as [l st''].
  reflexivity.
Qed.

Lemma solveEach_entries (questions : list JsVal) :
  forall st : ClientState,
    let solvedQuestions :=
      fst (solveEach ClientState complete st questions subject model) in
    length solvedQuestions = length questions /\
    forall solvedQuestion, In solvedQuestion solvedQuestions ->
      solvedQuestion <> "" /\
      (startsWith "Error: Failed to solve question: " solvedQuestion = true \/
       exists st0 question,
         In question questions /\
         fst (complete st0 (solvePrompt question) model)
         = Ok (Some solvedQuestion)).
Proof.
  induction questions as [|question rest IH]; intros st.
  - split; [reflexivity|]. intros ? [].
  - cbv zeta. rewrite solveEach_cons.
    destruct (IH (snd (solveQuestion ClientState complete st question subject
                         model))) as [Hlen Hall].
    split; [simpl; f_equal; exact Hlen|].
    intros sol [Hsol | Hsol].
    + destruct (solveQuestion_cases st question)
        as [[content [Hr [Hne Hc]]] | [msg Hr]]; rewrite Hr in Hsol.
      * subst sol. split; [exact Hne|]. right. exists st, question.
        split; [left; reflexivity|exact Hc].
      * subst sol. split; [discriminate|]. left. reflexivity.
    + destruct (Hall sol Hsol) as [Hne [He | [st0 [q [Hq Hc]]]]].
      * split; [exact Hne|]. left. exact He.
      * split; [exact Hne|]. right. exists st0, q. split; [right; exact Hq|].
        exact Hc.
Qed.

End SolveProperties.

(** X25: whenever [solveQuestionPaper] returns a list, the list has one
    entry per question, no entry is empty, every entry is either the content
    the client returned for the prompt of one of the questions or an error
    entry beginning with [Error: Failed to solve question: ], and at least
    one entry does not begin with [Error:]; the only error it raises itself
    is the one for a paper without a solved question. *)
Theorem solveQuestionPaper_result (ClientState : Type)
  (complete :
     ClientState -> string -> string -> result (option string) * ClientState)
  (st : ClientState) (questions : list JsVal) (subject : option string)
  (model : string) :
  match fst (solveQuestionPaper ClientState complete st questions subject
               model) with
  | Ok solvedQuestions =>
      length solvedQuestions = length questions /\
      (exists solvedQuestion,
          In solvedQuestion solvedQuestions /\
          startsWith "Error:" solvedQuestion = false) /\
      forall solvedQuestion, In solvedQuestion solvedQuestions ->
        solvedQuestion <> "" /\
        (startsWith "Error: Failed to solve question: " solvedQuestion = true
         \/ exists st0 question,
              In question questions /\
              fst (complete st0 (solvePrompt question) model)
              = Ok (Some solvedQuestion))
  | Throw msg => msg = "Failed to solve any questions in the paper"
  end.
Proof.
  unfold solveQuestionPaper.
  pose proof (solveEach_entries ClientState complete subject model questions
                st) as H.
  cbv zeta in H.
  destruct (solveEach ClientState complete st questions subject model)
    as [sols st'].
  cbn [fst] in H. destruct H as [Hlen Hall].
  destruct (forallb (startsWith "Error:") sols) eqn:Hf; cbn [fst];
    [reflexivity|].
  split; [exact Hlen|]. split; [|exact Hall].
  assert (Hex : existsb (fun s => negb (startsWith "Error:" s)) sols = true).
  { clear -Hf. induction sols as [|s l IH]; [discriminate|].
    cbn [forallb] in Hf. cbn [existsb].
    destruct (startsWith "Error:" s); [|reflexivity].
    simpl. apply IH. exact Hf. }
  apply existsb_exists in Hex. destruct Hex as [s [Hs Hn]].
  exists s. split; [exact Hs|]. apply negb_true_iff. exact Hn.
Qed.



(** The empty paper: no call is made and the error is raised, whatever the
    client answers. *)
Lemma solveQuestionPaper_empty (ClientState : Type)
  (complete :
     ClientState -> string -> string -> result (option string) * ClientState)
  (st : ClientState) (subject : option string) (model : string) :
  solveQuestionPaper ClientState complete st [] subject model
  = (Throw "Failed to solve any questions in the paper", st).
Proof. reflexivity. Qed.
